(** * Survey analytics pipeline: load, persist, aggregate, report

    A shallow embedding of the four report scripts
    [data_analytics.py], [data_analytics2.py], [data_analytics3.py] and
    [analytics5/data_analytics5.py].  The scripts are straight-line batch
    jobs built on pandas, sqlite3 and base64; the parts of those libraries
    the scripts rely on are modelled by small executable functions, the
    parts whose result the scripts only pass along (the spreadsheet parser,
    the spreadsheet writer, the chi-square routine) are section variables.
    The charts and the PDF export feed nothing back into the tables or
    the summary: of the chart stage of the SQL scripts the model keeps
    what can stop a run (a column lookup, a pivot on repeated keys, a
    plot of no data), of the Word export the text of the summary
    paragraph; the drawing itself and the PDF export are left out, and so
    are the plotly charts of data_analytics5.py, which read columns the
    script has just named. *)

From Stdlib Require Import ZArith NArith List Lia Bool String Ascii DecimalString.
From Stdlib Require Import Reals Lra Psatz Sorted.
From Stdlib.Strings Require Import Byte.
From stdpp Require Import gmap.
Import ListNotations.

Local Open Scope N_scope.

(** ** Python strings

    A [str] is a sequence of Unicode code points. *)

Definition pychar := N.
Definition pystr := list N.

Definition py (s : string) : pystr :=
  List.map N_of_ascii (list_ascii_of_string s).

(** [str.isspace] on one code point, the set [str.strip()] removes. *)
Definition py_isspace (c : pychar) : bool :=
  ((9 <=? c) && (c <=? 13)) || ((28 <=? c) && (c <=? 32))
  || (c =? 133) || (c =? 160) || (c =? 5760)
  || ((8192 <=? c) && (c <=? 8202))
  || (c =? 8232) || (c =? 8233) || (c =? 8239) || (c =? 8287)
  || (c =? 12288).

Fixpoint lstrip (s : pystr) : pystr :=
  match s with
  | [] => []
  | c :: r => if py_isspace c then lstrip r else s
  end.

Definition rstrip (s : pystr) : pystr := rev (lstrip (rev s)).

(** [s.strip()] *)
Definition strip (s : pystr) : pystr := rstrip (lstrip s).

(** [s.replace(old, new)] for a pattern [old] of one character, the only
    kind of pattern the scripts use. *)
Fixpoint replace (old : pychar) (new : pystr) (s : pystr) : pystr :=
  match s with
  | [] => []
  | c :: r => (if c =? old then new else [c]) ++ replace old new r
  end.

Definition SPACE : pychar := 32.
Definition UNDERSCORE : pychar := 95.
Definition QUESTION : pychar := 63.
Definition COMMA : pychar := 44.
Definition LPAREN : pychar := 40.
Definition RPAREN : pychar := 41.
Definition SLASH : pychar := 47.

(** data_analytics.py:12, data_analytics2.py:19, data_analytics3.py:22
<<
col.strip().replace(" ", "_").replace("?", "").replace(",", "")
   .replace("(", "").replace(")", "").replace("/", "_")
>> *)
Definition clean_column (col : pystr) : pystr :=
  replace SLASH [UNDERSCORE]
    (replace RPAREN []
      (replace LPAREN []
        (replace COMMA []
          (replace QUESTION []
            (replace SPACE [UNDERSCORE] (strip col)))))).

(** analytics5/data_analytics5.py:22
<<
c.strip().replace(" ", "_").replace("?", "").replace(",", "").replace("/", "_")
>> *)
Definition clean_column5 (c : pystr) : pystr :=
  replace SLASH [UNDERSCORE]
    (replace COMMA []
      (replace QUESTION []
        (replace SPACE [UNDERSCORE] (strip c)))).

(** The chain of replacements as data: each rule is [(old, new)]. *)
Definition rule := (pychar * pystr)%type.

Definition apply_rules (rules : list rule) (s : pystr) : pystr :=
  fold_left (fun acc r => replace (fst r) (snd r) acc) rules s.

Definition rules_full : list rule :=
  [(SPACE, [UNDERSCORE]); (QUESTION, []); (COMMA, []);
   (LPAREN, []); (RPAREN, []); (SLASH, [UNDERSCORE])].

Definition rules5 : list rule :=
  [(SPACE, [UNDERSCORE]); (QUESTION, []); (COMMA, []); (SLASH, [UNDERSCORE])].

Definition clean_with (rules : list rule) (s : pystr) : pystr :=
  apply_rules rules (strip s).

(** A name is plainly spaced when the only white space in it is U+0020. *)
Definition plain_spaced (s : pystr) : Prop :=
  forall c, In c s -> py_isspace c = true -> c = SPACE.

(** Decimal rendering of an integer, as [str(n)] and [f"{n}"] give it. *)
Definition str_of_Z (n : Z) : pystr :=
  match n with
  | Z0 => py "0"
  | Zpos p => py (DecimalString.NilEmpty.string_of_uint (Pos.to_uint p))
  | Zneg p => py "-" ++ py (DecimalString.NilEmpty.string_of_uint (Pos.to_uint p))
  end.

(** ** Exceptions

    The scripts catch nothing: an exception raised by a library call aborts
    the run.  [result] is the error monad the scripts run in. *)

Inductive exn :=
| FileNotFoundError
| ParseError
| KeyError
| IndexError
| ValueError
| TypeError
| AttributeError
| DatabaseError.

Inductive result (A : Type) :=
| Ok (a : A)
| Raise (e : exn).
Arguments Ok {A} a.
Arguments Raise {A} e.

#[global] Instance result_ret : MRet result := fun A a => Ok a.
#[global] Instance result_bind : MBind result := fun A B f m =>
  match m with
  | Ok a => f a
  | Raise e => Raise e
  end.

#[global] Instance result_fmap : FMap result := fun A B f m =>
  match m with
  | Ok a => Ok (f a)
  | Raise e => Raise e
  end.

Definition from_option {A} (e : exn) (o : option A) : result A :=
  match o with
  | Some a => Ok a
  | None => Raise e
  end.

Fixpoint mapR {A B} (f : A -> result B) (l : list A) : result (list B) :=
  match l with
  | [] => Ok []
  | a :: r => b ← f a; bs ← mapR f r; Ok (b :: bs)
  end.

(** ** Tables

    A cell of the survey table is a free-form answer or missing (NaN in
    pandas, NULL in SQLite); summary tables also hold integer counts. *)

Inductive cell :=
| Null
| Int (n : Z)
| Text (s : pystr).

#[global] Instance cell_eq_dec : EqDecision cell.
Proof. solve_decision. Defined.

Definition row := list cell.

Record DataFrame := {
  columns : list pystr;
  rows : list row
}.

(** A header cell as [read_excel] hands it over: the text of the cell, or
    the number the cell holds.  A date in a header cell behaves like a
    number in all that follows: neither is a [str]. *)
Inductive header :=
| HText (s : pystr)
| HNumber (n : Z).

(** The sheet as read, before the column names are cleaned. *)
Record Sheet := {
  headers : list header;
  body : list row
}.

Definition isnull (c : cell) : bool :=
  match c with
  | Null => true
  | _ => false
  end.

(** Order of group keys in an aggregate result: SQLite sorts NULL first,
    then numbers, then text by code point; pandas sorts group keys the
    same way. *)
Fixpoint str_compare (a b : pystr) : comparison :=
  match a, b with
  | [], [] => Eq
  | [], _ :: _ => Lt
  | _ :: _, [] => Gt
  | x :: a', y :: b' =>
      match N.compare x y with
      | Eq => str_compare a' b'
      | c => c
      end
  end.

Definition cell_compare (a b : cell) : comparison :=
  match a, b with
  | Null, Null => Eq
  | Null, _ => Lt
  | _, Null => Gt
  | Int x, Int y => Z.compare x y
  | Int _, Text _ => Lt
  | Text _, Int _ => Gt
  | Text x, Text y => str_compare x y
  end.

Fixpoint key_compare (a b : list cell) : comparison :=
  match a, b with
  | [], [] => Eq
  | [], _ :: _ => Lt
  | _ :: _, [] => Gt
  | x :: a', y :: b' =>
      match cell_compare x y with
      | Eq => key_compare a' b'
      | c => c
      end
  end.

(** Grouping: the members of each key are collected in input order, one
    group per key in order of first appearance. *)
Fixpoint add_to_group {K R} `{EqDecision K} (k : K) (r : R)
    (acc : list (K * list R)) : list (K * list R) :=
  match acc with
  | [] => [(k, [r])]
  | (k', rs) :: rest =>
      if bool_decide (k = k') then (k', rs ++ [r]) :: rest
      else (k', rs) :: add_to_group k r rest
  end.

Definition collect {K R} `{EqDecision K} (keyed : list (K * R))
    : list (K * list R) :=
  fold_left (fun acc kr => add_to_group (fst kr) (snd kr) acc) keyed [].

(** The groups of an aggregate come out in key order. *)
Fixpoint insert_by_key (g : list cell * list row)
    (l : list (list cell * list row)) : list (list cell * list row) :=
  match l with
  | [] => [g]
  | h :: t =>
      match key_compare (fst g) (fst h) with
      | Gt => h :: insert_by_key g t
      | _ => g :: l
      end
  end.

Definition sort_groups (l : list (list cell * list row))
    : list (list cell * list row) :=
  fold_right insert_by_key [] l.

Definition group_rows (keyed : list (list cell * row))
    : list (list cell * list row) :=
  sort_groups (collect keyed).

Definition project (idx : list nat) (r : row) : list cell :=
  List.map (fun i => nth i r Null) idx.

Definition count_of (g : list cell * list row) : Z :=
  Z.of_nat (length (snd g)).

(** ** The relational store (sqlite3 through pandas)

    A connection is a map from table names to tables.  SQLite compares
    identifiers without regard to ASCII case. *)

Definition ascii_lower (c : pychar) : pychar :=
  if (65 <=? c) && (c <=? 90) then c + 32 else c.

Definition sql_ident (name : pystr) : pystr := List.map ascii_lower name.

Definition sql_ident_eqb (a b : pystr) : bool :=
  bool_decide (sql_ident a = sql_ident b).

Fixpoint find_column (name : pystr) (cols : list pystr) : option nat :=
  match cols with
  | [] => None
  | c :: r => if sql_ident_eqb name c then Some 0%nat
              else S <$> find_column name r
  end.

(** What pandas lets through as a table or column name
    ([_get_valid_sqlite_name]): not empty, no NUL character, and encodable
    as UTF-8, which a lone surrogate is not. *)
Definition valid_sqlite_name (s : pystr) : bool :=
  negb (length s =? 0)%nat
  && forallb (fun c => negb (c =? 0)
                       && negb ((55296 <=? c) && (c <=? 57343))) s.

(** What [CREATE TABLE] accepts as a list of columns: at least one, at most
    2000, and no two of the same name as SQL identifiers. *)
Definition creatable (cols : list pystr) : bool :=
  (1 <=? length cols)%nat && (length cols <=? 2000)%nat
  && bool_decide (NoDup (List.map sql_ident cols)).

Definition is_text (c : cell) : bool :=
  match c with
  | Text _ => true
  | _ => false
  end.

(** pandas declares a column [TEXT] when it holds a string, and a numeric
    type when it holds numbers only. *)
Definition text_column (j : nat) (rws : list row) : bool :=
  existsb (fun r => is_text (nth j r Null)) rws.

(** In a [TEXT] column SQLite keeps a number as its decimal text. *)
Definition to_text (c : cell) : cell :=
  match c with
  | Int n => Text (str_of_Z n)
  | _ => c
  end.

Definition store_row (rws : list row) (r : row) : row :=
  imap (fun j c => if text_column j rws then to_text c else c) r.

(** The table as the store holds it once the rows are inserted. *)
Definition sql_store (df : DataFrame) : DataFrame :=
  {| columns := columns df;
     rows := List.map (store_row (rows df)) (rows df) |}.

(** [df.to_sql(name, conn, if_exists="replace", index=False)], the one way
    the scripts call it.  pandas checks the names before it touches the
    database; a table of that name is then dropped and the table created
    anew, which SQLite refuses for a column list it does not accept. *)
Definition to_sql (df : DataFrame) (name : pystr)
    (conn : gmap pystr DataFrame) : result (gmap pystr DataFrame) :=
  if forallb valid_sqlite_name (name :: columns df)
  then if creatable (columns df)
       then Ok (<[name := sql_store df]> conn)
       else Raise DatabaseError
  else Raise ValueError.

(** The aggregate queries of the scripts all have the shape
    [SELECT e1 AS a1, ..., en AS an FROM t GROUP BY g1, ..., gm]
    where each [e] is a column or [COUNT( * )]. *)
Inductive sel_expr :=
| Col (name : pystr)
| CountStar.

Record select_stmt := {
  sel_list : list (sel_expr * pystr);
  sel_from : pystr;
  sel_group_by : list pystr
}.

Inductive term :=
| TCol (i : nat)
| TCount.

Definition resolve_expr (cols : list pystr) (e : sel_expr) : result term :=
  match e with
  | Col n => i ← from_option DatabaseError (find_column n cols); Ok (TCol i)
  | CountStar => Ok TCount
  end.

Fixpoint find_alias (name : pystr) (sl : list (sel_expr * pystr))
    : option sel_expr :=
  match sl with
  | [] => None
  | (e, a) :: r => if sql_ident_eqb name a then Some e else find_alias name r
  end.

(** A name in GROUP BY is a column of the table when there is one of that
    name, and otherwise the result column with that alias; an aggregate is
    not allowed there. *)
Definition resolve_group (cols : list pystr) (sl : list (sel_expr * pystr))
    (name : pystr) : result nat :=
  match find_column name cols with
  | Some i => Ok i
  | None =>
      match find_alias name sl with
      | Some (Col n) => from_option DatabaseError (find_column n cols)
      | _ => Raise DatabaseError
      end
  end.

(** A column outside an aggregate takes its value from a row of the group
    (the first one here; for a grouping column every row agrees). *)
Definition eval_term (g : list cell * list row) (t : term) : cell :=
  match t with
  | TCol i => nth i (hd [] (snd g)) Null
  | TCount => Int (count_of g)
  end.

(** The statement run on the table it names. *)
Definition run_select (q : select_stmt) (t : DataFrame) : result DataFrame :=
  terms ← mapR (resolve_expr (columns t)) (List.map fst (sel_list q));
  keys ← mapR (resolve_group (columns t) (sel_list q)) (sel_group_by q);
  let groups := group_rows (List.map (fun r => (project keys r, r)) (rows t)) in
  Ok {| columns := List.map snd (sel_list q);
        rows := List.map (fun g => List.map (eval_term g) terms) groups |}.

(** [pd.read_sql_query(q, conn)] *)
Definition read_sql_query (q : select_stmt) (conn : gmap pystr DataFrame)
    : result DataFrame :=
  t ← from_option DatabaseError (conn !! sel_from q);
  run_select q t.

(** ** pandas operations used by the scripts *)

Fixpoint index_of (name : pystr) (cols : list pystr) : option nat :=
  match cols with
  | [] => None
  | c :: r => if bool_decide (name = c) then Some 0%nat
              else S <$> index_of name r
  end.

(** [df[col]] *)
Definition getitem (df : DataFrame) (col : pystr) : result (list cell) :=
  i ← from_option KeyError (index_of col (columns df));
  Ok (List.map (fun r => nth i r Null) (rows df)).

(** [df.columns = names] *)
Definition set_columns (df : DataFrame) (names : list pystr)
    : result DataFrame :=
  if (length names =? length (columns df))%nat
  then Ok {| columns := names; rows := rows df |}
  else Raise ValueError.

Definition notnull (c : cell) : bool := negb (isnull c).

Definition tally (s : list cell) : list (cell * nat) :=
  List.map (fun g => (fst g, length (snd g)))
           (collect (List.map (fun v => (v, v)) (List.filter notnull s))).

Fixpoint insert_desc (x : cell * nat) (l : list (cell * nat))
    : list (cell * nat) :=
  match l with
  | [] => [x]
  | y :: r => if (snd y <=? snd x)%nat then x :: l else y :: insert_desc x r
  end.

(** [s.value_counts()]: missing values dropped, one entry per value, most
    frequent first. *)
Definition value_counts (s : list cell) : list (cell * nat) :=
  fold_right insert_desc [] (tally s).

(** [s.value_counts().reset_index()] *)
Definition value_counts_frame (name : pystr) (s : list cell) : DataFrame :=
  {| columns := [name; py "count"];
     rows := List.map (fun vn => [fst vn; Int (Z.of_nat (snd vn))])
                      (value_counts s) |}.

Definition lookup_columns (df : DataFrame) (names : list pystr)
    : result (list nat) :=
  mapR (fun k => from_option KeyError (index_of k (columns df))) names.

Definition complete (idx : list nat) (r : row) : bool :=
  forallb notnull (project idx r).

(** [df.groupby(keys).size().reset_index(name=name)]: rows with a missing
    key are left out, groups come in key order. *)
Definition groupby_size (df : DataFrame) (keys : list pystr) (name : pystr)
    : result DataFrame :=
  idx ← lookup_columns df keys;
  let kept := List.filter (complete idx) (rows df) in
  let groups := group_rows (List.map (fun r => (project idx r, r)) kept) in
  Ok {| columns := keys ++ [name];
        rows := List.map (fun g => fst g ++ [Int (count_of g)]) groups |}.

(** [df.dropna(subset=subset)] *)
Definition dropna (df : DataFrame) (subset : list pystr) : result DataFrame :=
  idx ← lookup_columns df subset;
  Ok {| columns := columns df;
        rows := List.filter (complete idx) (rows df) |}.

(** [df[df[col] == v]]: the rows whose [col] is the text [v]. *)
Definition select_eq (df : DataFrame) (col : pystr) (v : pystr)
    : result DataFrame :=
  i ← from_option KeyError (index_of col (columns df));
  Ok {| columns := columns df;
        rows := List.filter (fun r => bool_decide (nth i r Null = Text v))
                            (rows df) |}.

(** [s.values[0]] *)
Definition values0 (s : list cell) : result cell :=
  match s with
  | [] => Raise IndexError
  | c :: _ => Ok c
  end.

Definition as_int (c : cell) : result Z :=
  match c with
  | Int n => Ok n
  | _ => Raise TypeError
  end.

(** [s.sum()] on a column of counts; missing entries are skipped. *)
Fixpoint series_sum (s : list cell) : Z :=
  match s with
  | [] => 0%Z
  | Int n :: r => (n + series_sum r)%Z
  | _ :: r => series_sum r
  end.

(** ** Contingency tables

    [pd.crosstab(a, b)]: the pairs with both entries present, tabulated
    over the values that occur, in sorted order. *)

Fixpoint insert_distinct (v : cell) (l : list cell) : list cell :=
  match l with
  | [] => [v]
  | x :: r =>
      match cell_compare v x with
      | Eq => l
      | Lt => v :: l
      | Gt => x :: insert_distinct v r
      end
  end.

Definition distinct_sorted (l : list cell) : list cell :=
  fold_left (fun acc v => insert_distinct v acc) l [].

Record Contingency := {
  ct_index : list cell;
  ct_columns : list cell;
  ct_table : list (list Z)
}.

Definition both_present (p : cell * cell) : bool :=
  notnull (fst p) && notnull (snd p).

Definition pair_count (i j : cell) (pairs : list (cell * cell)) : Z :=
  Z.of_nat (length (List.filter (fun p => bool_decide (p = (i, j))) pairs)).

Definition crosstab (a b : list cell) : Contingency :=
  let pairs := List.filter both_present (combine a b) in
  let idx := distinct_sorted (List.map fst pairs) in
  let cols := distinct_sorted (List.map snd pairs) in
  {| ct_index := idx;
     ct_columns := cols;
     ct_table := List.map (fun i => List.map (fun j => pair_count i j pairs) cols)
                          idx |}.

(** [contingency.empty]: an axis of length zero. *)
Definition ct_empty (c : Contingency) : bool :=
  (length (ct_index c) =? 0)%nat || (length (ct_columns c) =? 0)%nat.

Section ChiSquare.
(** The test itself is scipy's: its floats and their rendering are taken
    as they come. *)
Variable float : Type.
Variable chi2_contingency : list (list Z) -> float * float * Z.
Variable fmt_f : nat -> float -> pystr.

Definition no_data_message (col1 col2 : pystr) : pystr :=
  py "Chi-square test between '" ++ col1 ++ py "' and '" ++ col2
  ++ py "': No data available for chi-square test.".

Definition stat_message (col1 col2 : pystr) (chi2 p : float) (dof : Z)
    : pystr :=
  py "Chi-square test between '" ++ col1 ++ py "' and '" ++ col2
  ++ py "': " ++ [967; 178] ++ py " = " ++ fmt_f 2 chi2
  ++ py ", p = " ++ fmt_f 4 p ++ py " (dof=" ++ str_of_Z dof ++ py ")".

(** analytics5/data_analytics5.py:43-51 *)
Definition chi_square_test (df : DataFrame) (col1 col2 : pystr)
    : result (pystr * option float) :=
  a ← getitem df col1;
  b ← getitem df col2;
  let contingency := crosstab a b in
  if ct_empty contingency
  then Ok (no_data_message col1 col2, None)
  else
    let '(chi2, p, dof) := chi2_contingency (ct_table contingency) in
    Ok (stat_message col1 col2 chi2 p dof, Some p).
End ChiSquare.

(** ** Binary64 arithmetic

    The percentage is computed in double precision.  A double is a pair of
    a significand and an exponent, of value [mant * 2 ^ expo]; every
    operation returns the double nearest to the exact result, ties to the
    even significand.  Results stay far from the overflow and underflow
    thresholds for the quotients of counts computed here, so those are
    left out. *)

Local Open Scope Z_scope.

(** The integer nearest to [n / d], ties to even ([d] positive). *)
Definition round_half_even (n d : Z) : Z :=
  let q := n / d in
  match 2 * (n mod d) ?= d with
  | Lt => q
  | Gt => q + 1
  | Eq => if Z.even q then q else q + 1
  end.

Record float64 := {
  mant : Z;
  expo : Z
}.

Definition scale_up (x e : Z) : Z := x * 2 ^ Z.max 0 e.

(** The double nearest to [n / d], for positive [n] and [d]: the exponent
    is chosen so that the significand has 53 bits. *)
Definition round_ratio (n d : Z) : float64 :=
  if n <=? 0 then {| mant := 0; expo := 0 |}
  else
    let k := Z.log2 n - Z.log2 d in
    let fl := if scale_up d k <=? scale_up n (- k) then k else k - 1 in
    let e := fl - 52 in
    {| mant := round_half_even (scale_up n (- e)) (scale_up d e); expo := e |}.

Definition float_of_int (n : Z) : float64 := round_ratio n 1.

Definition fdiv (x y : float64) : float64 :=
  round_ratio (scale_up (mant x) (expo x - expo y))
              (scale_up (mant y) (expo y - expo x)).

Definition fmul (x y : float64) : float64 :=
  round_ratio (scale_up (mant x * mant y) (expo x + expo y))
              (scale_up 1 (- (expo x + expo y))).

(** The number of tenths [f"{x:.1f}"] prints for a double [x >= 0]: the
    exact value of [10 * x] rounded to an integer, ties to even. *)
Definition tenths (x : float64) : Z :=
  round_half_even (scale_up (10 * mant x) (expo x)) (scale_up 1 (- expo x)).

(** [f"{x:.1f}"] for [x >= 0] *)
Definition format_1f (x : float64) : pystr :=
  str_of_Z (tenths x / 10) ++ py "." ++ str_of_Z (tenths x mod 10).

(** [yes / total * 100] on two integer counts.  The scripts get here only
    after a row of the summary was found, so [total] is positive. *)
Definition percentage (yes total : Z) : float64 :=
  fmul (fdiv (float_of_int yes) (float_of_int total)) (float_of_int 100).

Local Close Scope Z_scope.

(** ** Base64 (RFC 4648, the alphabet [base64.b64encode] uses) *)

Definition b64_alphabet : pystr :=
  py "ABCDEFGHIJKLMNOPQRSTUVWXYZabcdefghijklmnopqrstuvwxyz0123456789+/".

Definition PAD : pychar := 61.

Definition b64_char (i : N) : pychar := nth (N.to_nat i) b64_alphabet PAD.

Definition b64_index (c : pychar) : option N :=
  if (65 <=? c) && (c <=? 90) then Some (c - 65)
  else if (97 <=? c) && (c <=? 122) then Some (c - 71)
  else if (48 <=? c) && (c <=? 57) then Some (c + 4)
  else if c =? 43 then Some 62
  else if c =? 47 then Some 63
  else None.

(** [base64.b64encode(bs).decode()]: three bytes make four characters,
    a last group of one or two bytes is padded with [=]. *)
Fixpoint b64encode (bs : list byte) : pystr :=
  match bs with
  | [] => []
  | [a] =>
      let n := Byte.to_N a * 65536 in
      [b64_char (n / 262144); b64_char (n / 4096 mod 64); PAD; PAD]
  | [a; b] =>
      let n := Byte.to_N a * 65536 + Byte.to_N b * 256 in
      [b64_char (n / 262144); b64_char (n / 4096 mod 64);
       b64_char (n / 64 mod 64); PAD]
  | a :: b :: c :: rest =>
      let n := Byte.to_N a * 65536 + Byte.to_N b * 256 + Byte.to_N c in
      [b64_char (n / 262144); b64_char (n / 4096 mod 64);
       b64_char (n / 64 mod 64); b64_char (n mod 64)] ++ b64encode rest
  end.

(** Decoding, group by group; padding may only end the text. *)
Fixpoint b64decode (s : pystr) : option (list byte) :=
  match s with
  | [] => Some []
  | c1 :: c2 :: c3 :: c4 :: rest =>
      i1 ← b64_index c1;
      i2 ← b64_index c2;
      if c4 =? PAD then
        match rest with
        | [] =>
            if c3 =? PAD then
              a ← Byte.of_N ((i1 * 262144 + i2 * 4096) / 65536);
              Some [a]
            else
              i3 ← b64_index c3;
              let n := i1 * 262144 + i2 * 4096 + i3 * 64 in
              a ← Byte.of_N (n / 65536);
              b ← Byte.of_N (n / 256 mod 256);
              Some [a; b]
        | _ :: _ => None
        end
      else
        i3 ← b64_index c3;
        i4 ← b64_index c4;
        let n := i1 * 262144 + i2 * 4096 + i3 * 64 + i4 in
        a ← Byte.of_N (n / 65536);
        b ← Byte.of_N (n / 256 mod 256);
        c ← Byte.of_N (n mod 256);
        tl ← b64decode rest;
        Some (a :: b :: c :: tl)
  | _ => None
  end.

(** ** The scripts *)

Definition AWARE : pystr :=
  py "Are_you_aware_of_what_constitutes_workplace_harassment".
Definition REPORT : pystr :=
  py "Do_you_know_whom_to_report_workplace_harassment_incidents_to".
Definition TRAINING : pystr :=
  py "Have_you_ever_received_any_formal_training_on_workplace_harassment_policies".
Definition GENDER : pystr := py "What_is_your_Gender".

Definition Awareness : pystr := py "Awareness".
Definition Count : pystr := py "Count".
Definition Training : pystr := py "Training".
Definition Gender : pystr := py "Gender".
Definition Know_Whom : pystr := py "Know_Whom".
Definition Know_Whom_To_Report : pystr := py "Know_Whom_To_Report".
Definition Yes : pystr := py "Yes".
Definition survey : pystr := py "survey".

(** [SELECT c1 AS a1, ..., COUNT( * ) AS Count FROM survey GROUP BY a1, ...] *)
Definition count_query (keys : list (pystr * pystr)) : select_stmt :=
  {| sel_list := List.map (fun ca => (Col (fst ca), snd ca)) keys
                 ++ [(CountStar, Count)];
     sel_from := survey;
     sel_group_by := List.map snd keys |}.

(** The four queries; [know] is [Know_Whom_To_Report] in data_analytics.py
    and data_analytics2.py, [Know_Whom] in data_analytics3.py. *)
Definition q_awareness : select_stmt :=
  count_query [(AWARE, Awareness)].
Definition q_awareness_reporting (know : pystr) : select_stmt :=
  count_query [(AWARE, Awareness); (REPORT, know)].
Definition q_training_reporting (know : pystr) : select_stmt :=
  count_query [(TRAINING, Training); (REPORT, know)].
Definition q_gender_awareness : select_stmt :=
  count_query [(GENDER, Gender); (AWARE, Awareness)].

Record Summaries := {
  awareness_df : DataFrame;
  awareness_reporting_df : DataFrame;
  training_reporting_df : DataFrame;
  gender_awareness_df : DataFrame
}.

Definition tables (s : Summaries) : list DataFrame :=
  [awareness_df s; awareness_reporting_df s;
   training_reporting_df s; gender_awareness_df s].

(** The aggregation stage of the SQL scripts. *)
Definition aggregate_sql (know : pystr) (conn : gmap pystr DataFrame)
    : result Summaries :=
  a ← read_sql_query q_awareness conn;
  ar ← read_sql_query (q_awareness_reporting know) conn;
  tr ← read_sql_query (q_training_reporting know) conn;
  ga ← read_sql_query q_gender_awareness conn;
  Ok {| awareness_df := a; awareness_reporting_df := ar;
        training_reporting_df := tr; gender_awareness_df := ga |}.

(** [awareness_df[awareness_df['Awareness'] == 'Yes']['Count'].values[0]] *)
Definition yes_count (a : DataFrame) : result Z :=
  sel ← select_eq a Awareness Yes;
  counts ← getitem sel Count;
  c ← values0 counts;
  as_int c.

(** data_analytics.py:102-104, data_analytics2.py:85-89,
    data_analytics3.py:100-102
<<
total = awareness_df['Count'].sum()
yes_pct = awareness_df[awareness_df['Awareness'] == 'Yes']['Count'].values[0] / total * 100
f"{yes_pct:.1f}"
>> *)
Definition awareness_pct (a : DataFrame) : result pystr :=
  counts ← getitem a Count;
  let total := series_sum counts in
  yes ← yes_count a;
  Ok (format_1f (percentage yes total)).

(** [col.strip().replace(...)] on one header: only a [str] has [strip]. *)
Definition clean_header (clean : pystr -> pystr) (h : header)
    : result pystr :=
  match h with
  | HText s => Ok (clean s)
  | HNumber _ => Raise AttributeError
  end.

(** [df.columns = [clean(col) for col in df.columns]] *)
Definition rename (clean : pystr -> pystr) (sheet : Sheet)
    : result DataFrame :=
  names ← mapR (clean_header clean) (headers sheet);
  Ok {| columns := names; rows := body sheet |}.

(** ** The charts of the SQL scripts

    The drawing itself is matplotlib's; what the scripts do before it, and
    what can stop them there, is modelled. *)

(** [data.pivot(index=index, columns=columns, values=values)]: the table
    with one cell for each pair of an index label and a column label.  A
    pair that occurs twice cannot be placed.  The cells are kept with
    their pair of labels; the order of the labels along the two axes,
    which only the drawing uses, is not represented. *)
Definition pivot (data : DataFrame) (index columns values : pystr)
    : result (list (cell * cell * cell)) :=
  i ← getitem data index;
  c ← getitem data columns;
  v ← getitem data values;
  if bool_decide (NoDup (combine i c))
  then Ok (combine (combine i c) v)
  else Raise ValueError.

(** [.fillna(0)] *)
Definition fillna0 (cells : list (cell * cell * cell))
    : list (cell * cell * cell) :=
  List.map (fun kv => (fst kv, if isnull (snd kv) then Int 0 else snd kv))
           cells.

(** [.plot(kind='bar', stacked=True)]: pandas refuses a table with nothing
    numeric in it, which is the table without cells here. *)
Definition plot_bars (cells : list (cell * cell * cell)) : result unit :=
  match cells with
  | [] => Raise TypeError
  | _ :: _ => Ok tt
  end.

(** [sns.barplot(data=data, x=x, y=y)] *)
Definition barplot (data : DataFrame) (x y : pystr) : result unit :=
  _ ← getitem data x;
  _ ← getitem data y;
  Ok tt.

(** data_analytics2.py:62-74, data_analytics3.py:74-87
<<
def save_chart(data, ..., pivot=False, index=None, columns=None, y='Count'):
    if pivot:
        data = data.pivot(index=index, columns=columns, values=y).fillna(0)
        data.plot(kind=kind, stacked=stacked)
    else:
        sns.barplot(data=data, x=data.columns[0], y=y, ...)
>>
    data_analytics.py:62-96 has the same steps written out. *)
Definition save_chart (data : DataFrame) (x y : pystr)
    (pivoted : option (pystr * pystr)) : result unit :=
  match pivoted with
  | Some (index, columns) =>
      cells ← pivot data index columns y;
      plot_bars (fillna0 cells)
  | None => barplot data x y
  end.

(** The four charts, in the order the scripts draw them. *)
Definition charts (know : pystr) (s : Summaries) : result unit :=
  _ ← save_chart (awareness_df s) Awareness Count None;
  _ ← save_chart (awareness_reporting_df s) Awareness Count
        (Some (Awareness, know));
  _ ← save_chart (training_reporting_df s) Training Count
        (Some (Training, know));
  save_chart (gender_awareness_df s) Gender Count (Some (Gender, Awareness)).

Definition data_url (encoded : pystr) : pystr :=
  py "data:application/vnd.openxmlformats-officedocument.spreadsheetml.sheet;base64,"
  ++ encoded.

(** What a run leaves behind and reports. *)
Record Run := {
  run_fs : gmap pystr (list byte);
  run_conn : gmap pystr DataFrame;
  run_tables : Summaries;
  run_pct : pystr;
  run_summary : pystr;
  run_href : option pystr
}.

Section Pipeline.
(** The spreadsheet reader and writer, and the chi-square routine with its
    floats, belong to the libraries the scripts call. *)
Variable read_workbook : list byte -> option Sheet.
Variable write_workbook : DataFrame -> list byte.
Variable float : Type.
Variable chi2_contingency : list (list Z) -> float * float * Z.
Variable fmt_f : nat -> float -> pystr.

(** [pd.read_excel(path)] *)
Definition read_excel (fs : gmap pystr (list byte)) (path : pystr)
    : result Sheet :=
  bytes ← from_option FileNotFoundError (fs !! path);
  from_option ParseError (read_workbook bytes).

(** [df.to_excel(path, index=False)] *)
Definition to_excel (df : DataFrame) (path : pystr)
    (fs : gmap pystr (list byte)) : gmap pystr (list byte) :=
  <[path := write_workbook df]> fs.

(** [open(path, "rb").read()] *)
Definition read_bytes (fs : gmap pystr (list byte)) (path : pystr)
    : result (list byte) :=
  from_option FileNotFoundError (fs !! path).

(** data_analytics3.py:24-29, analytics5/data_analytics5.py:23-27
<<
df.to_excel(EMBED_XLSX, index=False)
with open(EMBED_XLSX, "rb") as f:
    encoded_excel = base64.b64encode(f.read()).decode()
>> *)
Definition embed_dataset (df : DataFrame) (embed : pystr)
    (fs : gmap pystr (list byte)) : result (gmap pystr (list byte) * pystr) :=
  let fs' := to_excel df embed fs in
  raw ← read_bytes fs' embed;
  Ok (fs', b64encode raw).

(** Loader: read the spreadsheet, clean the column names. *)
Definition load (clean : pystr -> pystr) (fs : gmap pystr (list byte))
    (path : pystr) : result DataFrame :=
  sheet ← read_excel fs path;
  rename clean sheet.

(** Persister: [df.to_sql("survey", conn, if_exists="replace", index=False)] *)
Definition persist (df : DataFrame) (conn : gmap pystr DataFrame)
    : result (gmap pystr DataFrame) :=
  to_sql df survey conn.

(** A line break, and the arrow U+27A4 of the printed inferences. *)
Definition NL : pystr := [10].
Definition ARROW : pystr := [10148].

(** data_analytics.py:104-105, the first inference printed;
    data_analytics2.py hands the same figure to its template. *)
Definition summary_sql (pct : pystr) : pystr :=
  py "1. Awareness of Harassment: " ++ pct
  ++ py "% of respondents are fully aware of what constitutes workplace harassment."
  ++ NL ++ py "   " ++ ARROW
  ++ py " This high level of awareness provides a strong base for assessing policy effectiveness."
  ++ NL.

(** data_analytics.py and data_analytics2.py: load, persist, query, draw,
    then the figure. *)
Definition run_sql (path : pystr) (fs : gmap pystr (list byte))
    (conn : gmap pystr DataFrame) : result Run :=
  df ← load clean_column fs path;
  conn' ← persist df conn;
  s ← aggregate_sql Know_Whom_To_Report conn';
  _ ← charts Know_Whom_To_Report s;
  pct ← awareness_pct (awareness_df s);
  Ok {| run_fs := fs; run_conn := conn'; run_tables := s;
        run_pct := pct; run_summary := summary_sql pct;
        run_href := None |}.

(** data_analytics3.py:104-107 *)
Definition summary3 (total : Z) (pct : pystr) : pystr :=
  NL ++ py "<strong>Executive Summary:</strong><br>" ++ NL
  ++ py "Out of " ++ str_of_Z total
  ++ py " respondents, <strong>" ++ pct
  ++ py "%</strong> reported being fully aware of what constitutes workplace harassment. This reflects a broadly educated workforce, but additional analysis suggests critical gaps remain in knowledge of reporting procedures and disparities across gender and training status."
  ++ NL.

(** data_analytics3.py: the cleaned table is written back to disk and
    that file is embedded in the report. *)
Definition run3 (path embed : pystr) (fs : gmap pystr (list byte))
    (conn : gmap pystr DataFrame) : result Run :=
  df ← load clean_column fs path;
  '(fs', encoded_excel) ← embed_dataset df embed fs;
  conn' ← persist df conn;
  s ← aggregate_sql Know_Whom conn';
  _ ← charts Know_Whom s;
  counts ← getitem (awareness_df s) Count;
  pct ← awareness_pct (awareness_df s);
  Ok {| run_fs := fs'; run_conn := conn'; run_tables := s;
        run_pct := pct;
        run_summary := summary3 (series_sum counts) pct;
        run_href := Some (data_url encoded_excel) |}.

(** analytics5/data_analytics5.py:54-85, the pandas aggregation *)
Definition aggregate5 (df : DataFrame)
    : result (Summaries * (pystr * pystr * pystr)) :=
  aw ← getitem df AWARE;
  a ← set_columns (value_counts_frame AWARE aw) [Awareness; Count];
  ar ← groupby_size df [AWARE; REPORT] Count;
  ar ← set_columns ar [Awareness; Know_Whom; Count];
  chi1 ← chi_square_test float chi2_contingency fmt_f df AWARE REPORT;
  tr ← groupby_size df [TRAINING; REPORT] Count;
  tr ← set_columns tr [Training; Know_Whom; Count];
  tr ← dropna tr [Training; Know_Whom];
  chi2 ← chi_square_test float chi2_contingency fmt_f tr Training Know_Whom;
  ga ← groupby_size df [GENDER; AWARE] Count;
  ga ← set_columns ga [Gender; Awareness; Count];
  chi3 ← chi_square_test float chi2_contingency fmt_f df GENDER AWARE;
  Ok ({| awareness_df := a; awareness_reporting_df := ar;
         training_reporting_df := tr; gender_awareness_df := ga |},
      (fst chi1, fst chi2, fst chi3)).

(** analytics5/data_analytics5.py:90: the count is divided by [len(df)]. *)
Definition awareness_pct5 (df a : DataFrame) : result (Z * pystr) :=
  yes ← yes_count a;
  Ok (yes, format_1f (percentage yes (Z.of_nat (length (rows df))))).

(** analytics5/data_analytics5.py:88-94 *)
Definition summary5 (df : DataFrame) (yes : Z) (pct : pystr)
    (chi : pystr * pystr * pystr) : pystr :=
  NL ++ py "<strong>Executive Summary</strong><br>" ++ NL
  ++ py "Of the " ++ str_of_Z (Z.of_nat (length (rows df)))
  ++ py " respondents, " ++ str_of_Z yes ++ py " (" ++ pct
  ++ py "%) are aware of what constitutes workplace harassment.<br>" ++ NL
  ++ fst (fst chi) ++ py "<br>" ++ NL ++ snd (fst chi) ++ py "<br>" ++ NL
  ++ snd chi ++ NL.

Definition run5 (path embed : pystr) (fs : gmap pystr (list byte))
    (conn : gmap pystr DataFrame) : result Run :=
  df ← load clean_column5 fs path;
  '(fs', encoded_excel) ← embed_dataset df embed fs;
  conn' ← persist df conn;
  '(s, chi) ← aggregate5 df;
  '(yes, pct) ← awareness_pct5 df (awareness_df s);
  Ok {| run_fs := fs'; run_conn := conn'; run_tables := s;
        run_pct := pct; run_summary := summary5 df yes pct chi;
        run_href := Some (data_url encoded_excel) |}.
End Pipeline.


(** ** A small survey

    Five respondents, with the headers as the form exports them; used to run
    the scripts on. *)

Definition sample_headers : list pystr :=
  [py "What is your Gender?";
   py "Are you aware of what constitutes workplace harassment?";
   py "Have you ever received any formal training on workplace harassment policies?";
   py "Do you know whom to report workplace harassment incidents to?"].

Definition No : pystr := py "No".
Definition Female : pystr := py "Female".
Definition Male : pystr := py "Male".

Definition sample_table : DataFrame :=
  {| columns := sample_headers;
     rows := [[Text Female; Text Yes; Text Yes; Text Yes];
              [Text Male; Text Yes; Text No; Text No];
              [Text Female; Text No; Text No; Null];
              [Text Male; Text Yes; Null; Text Yes];
              [Null; Text No; Text No; Text No]] |}.

(** The sheet whose headers are the column names of [df], all text. *)
Definition sheet_of (df : DataFrame) : Sheet :=
  {| headers := List.map HText (columns df); body := rows df |}.

Definition sample_reader (bytes : list byte) : option Sheet :=
  match bytes with
  | [] => None
  | _ :: _ => Some (sheet_of sample_table)
  end.

Definition sample_writer (df : DataFrame) : list byte :=
  ["P"; "K"; x03; x04; x14]%byte.

Definition sample_chi2 (t : list (list Z)) : Z * Z * Z := (0, 1, 0)%Z.

Definition sample_fmt (digits : nat) (x : Z) : pystr :=
  str_of_Z x ++ py "." ++ repeat 48%N digits.

Definition sample_fs : gmap pystr (list byte) :=
  {[ py "data.xlsx" := ["P"; "K"]%byte ]}.

(** ** Vocabulary of the statements *)

(** The members collected under key [k]. *)
Fixpoint members {K R} `{EqDecision K} (k : K) (gs : list (K * list R))
    : list R :=
  match gs with
  | [] => []
  | (k', rs) :: rest => if bool_decide (k = k') then rs else members k rest
  end.

Definition total_size {K R} (gs : list (K * list R)) : nat :=
  fold_right (fun g n => (length (snd g) + n)%nat) 0%nat gs.

Definition with_key {K R} `{EqDecision K} (k : K) (keyed : list (K * R))
    : list R :=
  List.map snd (List.filter (fun kr => bool_decide (fst kr = k)) keyed).

(** The table column a select item [c AS a] reads. *)
Definition column_of (cols : list pystr) (ca : pystr * pystr) : result nat :=
  from_option DatabaseError (find_column (fst ca) cols).

(** The Count column of summary [d] adds up to [n]. *)
Definition counts_total (d : DataFrame) (n : nat) : Prop :=
  exists counts, getitem d Count = Ok counts
    /\ series_sum counts = Z.of_nat n.

Definition tally_total (l : list (cell * nat)) : nat :=
  fold_right (fun vn n => (snd vn + n)%nat) 0%nat l.

Definition sample_clean : DataFrame :=
  {| columns := List.map clean_column (columns sample_table);
     rows := rows sample_table |}.

(** A store that already holds an older survey table. *)
Definition sample_conn : gmap pystr DataFrame :=
  {[ survey := {| columns := [py "Old"]; rows := [[Text No]; [Text Yes]] |} ]}.

(** The disk after a run that embedded the dataset. *)
Definition sample_fs_after : gmap pystr (list byte) :=
  <[py "survey_data.xlsx" := sample_writer sample_clean]> sample_fs.

(** A survey nobody answered with the exact label [Yes]. *)
Definition sample_no_yes : DataFrame :=
  {| columns := sample_headers;
     rows := [[Text Female; Text No; Text No; Text No];
              [Text Male; Text (py "yes"); Text No; Text No]] |}.

Definition sample_no_yes_fs : gmap pystr (list byte) :=
  {[ py "data.xlsx" := ["P"; "K"]%byte ]}.

Definition sample_no_yes_reader (bytes : list byte) : option Sheet :=
  Some (sheet_of sample_no_yes).

Definition sample_no_yes_clean : DataFrame :=
  {| columns := List.map clean_column (columns sample_no_yes);
     rows := rows sample_no_yes |}.

(** One respondent: a contingency table of one row and one column. *)
Definition sample_single : DataFrame :=
  {| columns := [AWARE; REPORT]; rows := [[Text Yes; Text Yes]] |}.

(** Two respondents, neither with both answers. *)
Definition sample_disjoint : DataFrame :=
  {| columns := [AWARE; REPORT]; rows := [[Text Yes; Null]; [Null; Text No]] |}.

(** The real number a double stands for. *)
Definition F2R (x : float64) : R := (IZR (mant x) * powerRZ 2 (expo x))%R.

(** The number of entries of a column that are the text [v]. *)
Definition count_text (v : pystr) (s : list cell) : Z :=
  Z.of_nat (length (List.filter (fun c => bool_decide (c = Text v)) s)).

(** Column [i] of a table. *)
Definition column_at (i : nat) (df : DataFrame) : list cell :=
  List.map (fun r => nth i r Null) (rows df).

(** A survey whose sheet also has a column headed [Awareness]. *)
Definition sample_clash : DataFrame :=
  {| columns := [AWARE; Awareness];
     rows := [[Text Yes; Text (py "a")];
              [Text Yes; Text (py "b")];
              [Text No; Text (py "c")]] |}.

(** ** Further vocabulary *)

(** The characters of a Base64 text: the 64 of the alphabet and [=]. *)
Definition b64_text_char (c : pychar) : bool :=
  match b64_index c with
  | Some _ => true
  | None => c =? PAD
  end.

(** A sheet with two headers that clean to one SQL identifier. *)
Definition sample_colliding : DataFrame :=
  {| columns := [py "Age?"; py "age"];
     rows := [[Text (py "31"); Text (py "31")]] |}.

Definition sample_colliding_reader (bytes : list byte) : option Sheet :=
  Some (sheet_of sample_colliding).

(** The number of entries of a column equal to [v]. *)
Definition count_cell (v : cell) (s : list cell) : nat :=
  length (List.filter (fun c => bool_decide (c = v)) s).

(** Most frequent first. *)
Definition by_count_desc (a b : cell * nat) : Prop := (snd b <= snd a)%nat.

(** Lexicographic comparison of two lists, the shape of [str_compare] and
    [key_compare]. *)
Fixpoint lex_compare {A : Type} (cmp : A -> A -> comparison) (a b : list A)
    : comparison :=
  match a, b with
  | [], [] => Eq
  | [], _ :: _ => Lt
  | _ :: _, [] => Gt
  | x :: a', y :: b' =>
      match cmp x y with
      | Eq => lex_compare cmp a' b'
      | c => c
      end
  end.

(** Group [g] does not come after group [h] in key order. *)
Definition key_le (g h : list cell * list row) : Prop :=
  key_compare (fst g) (fst h) <> Gt.

(** Key [a] comes strictly before key [b]. *)
Definition key_lt (a b : list cell) : Prop := key_compare a b = Lt.

(** The rows of a table that have no missing entry. *)
Definition present (d : DataFrame) : DataFrame :=
  {| columns := columns d;
     rows := List.filter (forallb notnull) (rows d) |}.

(** The sum of a row of counts, of a whole table and of column [j]. *)
Definition row_total (r : list Z) : Z := fold_right Z.add 0%Z r.

Definition table_total (t : list (list Z)) : Z :=
  row_total (List.map row_total t).

Definition column_total (j : nat) (t : list (list Z)) : Z :=
  row_total (List.map (fun r => nth j r 0%Z) t).

(** Label [a] comes strictly before label [b]. *)
Definition cell_lt (a b : cell) : Prop := cell_compare a b = Lt.

(** ** The paragraph of the Word summary *)

Definition LESS_THAN : pychar := 60%N.

(** [s.startswith(p)] *)
Fixpoint prefixb (p s : pystr) : bool :=
  match p, s with
  | [], _ => true
  | _ :: _, [] => false
  | a :: p', b :: s' => (a =? b)%N && prefixb p' s'
  end.

(** [s.replace(old, new)] for a pattern [old] of one character or more:
    the occurrences are replaced from the left and do not overlap.
    [skip] is the number of characters of the occurrence just replaced
    that are still to be passed over. *)
Fixpoint replace_from (old new : pystr) (skip : nat) (s : pystr) : pystr :=
  match s with
  | [] => []
  | c :: s' =>
      match skip with
      | S n => replace_from old new n s'
      | O => if prefixb old s
             then new ++ replace_from old new (length old - 1) s'
             else c :: replace_from old new 0 s'
      end
  end.

Definition replace_str (old new s : pystr) : pystr :=
  replace_from old new 0 s.

(** analytics5/data_analytics5.py:146
<<
summary.replace("<strong>", "").replace("</strong>", "").replace("<br>", "\n")
>> *)
Definition docx_text (summary : pystr) : pystr :=
  replace_str (py "<br>") NL
    (replace_str (py "</strong>") []
      (replace_str (py "<strong>") [] summary)).

(** A text without the character [<]. *)
Definition markup_free (s : pystr) : bool :=
  forallb (fun c => negb (c =? LESS_THAN)%N) s.

(** ** Vocabulary for the store and the loader *)

Definition is_int (c : cell) : bool :=
  match c with
  | Int _ => true
  | _ => false
  end.

(** No column holds both text and numbers. *)
Definition unmixed (df : DataFrame) : Prop :=
  forall j, text_column j (rows df) = true ->
    Forall (fun r => is_int (nth j r Null) = false) (rows df).

(** Cell [c'] is what the store keeps of cell [c]: the cell itself, or the
    decimal text of a number. *)
Definition stored_as (c c' : cell) : Prop :=
  c' = c \/ exists n, c = Int n /\ c' = Text (str_of_Z n).

(** Ages, one of them typed as text. *)
Definition sample_mixed : DataFrame :=
  {| columns := [py "Age"];
     rows := [[Int 25]; [Text (py "25")]; [Int 7]] |}.

(** A sheet with a year as the header of its second column. *)
Definition sample_numeric_header : Sheet :=
  {| headers := [HText (py "Gender"); HNumber 2024];
     body := [[Text Female; Int 3]] |}.

Definition sample_numeric_reader (bytes : list byte) : option Sheet :=
  Some sample_numeric_header.

(** The survey form with a fifth column of its own headed [Awareness]. *)
Definition sample_clash5 : DataFrame :=
  {| columns := sample_headers ++ [py "Awareness"];
     rows := [[Text Female; Text Yes; Text Yes; Text Yes; Text (py "a")];
              [Text Male; Text Yes; Text No; Text No; Text (py "b")];
              [Text Female; Text No; Text No; Text No; Text (py "c")]] |}.

Definition sample_clash5_reader (bytes : list byte) : option Sheet :=
  Some (sheet_of sample_clash5).

(** What stops [to_sql] on column names it cannot take: pandas refuses a
    name before the database sees the table. *)
Definition refusal (names : list pystr) : exn :=
  if forallb valid_sqlite_name names then DatabaseError else ValueError.

(** A sheet whose two headers clean to the empty name. *)
Definition sample_punctuation : DataFrame :=
  {| columns := [py "?"; py ","];
     rows := [[Text Yes; Text No]] |}.

Definition sample_punctuation_reader (bytes : list byte) : option Sheet :=
  Some (sheet_of sample_punctuation).
(** * Properties *)

(** ** Column-name cleaning *)

Lemma replace_In c old new s :
  In c (replace old new s) -> In c s \/ In c new.
Proof.
  induction s as [|x s IH]; simpl; [tauto|].
  rewrite in_app_iff. destruct (x =? old)%N.
  - intros [H|H]; [now right|]. destruct (IH H); auto.
  - simpl. intros [[H|[]]|H]; [auto|]. destruct (IH H); auto.
Qed.

Lemma replace_absent old new s :
  ~ In old s -> replace old new s = s.
Proof.
  induction s as [|x s IH]; simpl; [reflexivity|]. intros H.
  destruct (N.eqb_spec x old) as [->|Hne]; [tauto|].
  simpl. f_equal. apply IH. tauto.
Qed.

Lemma replace_removes old new s :
  ~ In old new -> ~ In old (replace old new s).
Proof.
  intros Hnew. induction s as [|x s IH]; simpl; [tauto|].
  rewrite in_app_iff. destruct (N.eqb_spec x old) as [->|Hne].
  - tauto.
  - simpl. intros [[H|[]]|H]; congruence || tauto.
Qed.

Lemma lstrip_In c s : In c (lstrip s) -> In c s.
Proof.
  induction s as [|x s IH]; simpl; [tauto|].
  destruct (py_isspace x); simpl; auto.
Qed.

Lemma strip_In c s : In c (strip s) -> In c s.
Proof.
  unfold strip, rstrip. intros H.
  apply in_rev, lstrip_In in H. apply in_rev in H.
  now apply lstrip_In.
Qed.

Lemma lstrip_id s :
  (forall c, In c s -> py_isspace c = false) -> lstrip s = s.
Proof.
  destruct s as [|x s]; simpl; [reflexivity|]. intros H.
  now rewrite (H x (or_introl eq_refl)).
Qed.

Lemma strip_id s :
  (forall c, In c s -> py_isspace c = false) -> strip s = s.
Proof.
  intros H. unfold strip, rstrip. rewrite (lstrip_id s H).
  rewrite lstrip_id; [apply rev_involutive|].
  intros c Hc. apply H. now apply in_rev.
Qed.

Section Rules.
Variable rules : list rule.

(** No replacement text brings back a character another rule removes. *)
Hypothesis separate :
  forall r r', In r rules -> In r' rules -> ~ In (fst r) (snd r').

Lemma apply_rules_In c rs s :
  In c (apply_rules rs s) ->
  In c s \/ exists r, In r rs /\ In c (snd r).
Proof.
  revert s. induction rs as [|r rs IH]; simpl; intros s H; [auto|].
  destruct (IH _ H) as [H1|(r' & Hr' & Hc)].
  - destruct (replace_In _ _ _ _ H1); [auto|]. right. exists r. auto.
  - right. exists r'. auto.
Qed.

Lemma apply_rules_absent rs s :
  (forall r, In r rs -> ~ In (fst r) s) -> apply_rules rs s = s.
Proof.
  revert s. induction rs as [|r rs IH]; simpl; intros s H; [reflexivity|].
  rewrite replace_absent by auto. apply IH. auto.
Qed.

Lemma apply_rules_removes rs s :
  incl rs rules ->
  forall r, In r rs -> ~ In (fst r) (apply_rules rs s).
Proof.
  revert s. induction rs as [|r0 rs IH]; simpl; intros s Hincl r Hr; [tauto|].
  assert (Hrs : incl rs rules) by (intros x Hx; apply Hincl; now right).
  destruct Hr as [<-|Hr]; [|now apply IH].
  intros H. apply apply_rules_In in H as [H|(r' & Hr' & Hc)].
  - revert H. apply replace_removes, separate; apply Hincl; now left.
  - revert Hc. apply separate; [apply Hincl; now left|now apply Hrs].
Qed.

(** A second cleaning only strips. *)
Lemma clean_with_twice s :
  clean_with rules (clean_with rules s) = strip (clean_with rules s).
Proof.
  unfold clean_with at 1. apply apply_rules_absent.
  intros r Hr H. apply strip_In in H. revert H.
  now apply apply_rules_removes.
Qed.

Hypothesis space_rule : exists new, In (SPACE, new) rules.
Hypothesis new_not_space :
  forall r c, In r rules -> In c (snd r) -> py_isspace c = false.

Lemma clean_with_idempotent s :
  plain_spaced s ->
  clean_with rules (clean_with rules s) = clean_with rules s.
Proof.
  intros Hs. rewrite clean_with_twice. apply strip_id.
  intros c Hc. destruct (py_isspace c) eqn:E; [exfalso|reflexivity].
  pose proof Hc as Hc'.
  apply apply_rules_In in Hc' as [H|(r & Hr & H)].
  - apply strip_In in H. rewrite (Hs c H E) in Hc.
    destruct space_rule as [new Hnew]. revert Hc.
    apply (apply_rules_removes rules (strip s) (incl_refl _) _ Hnew).
  - rewrite (new_not_space r c Hr H) in E. discriminate.
Qed.
End Rules.

Lemma rules_full_separate r r' :
  In r rules_full -> In r' rules_full -> ~ In (fst r) (snd r').
Proof.
  unfold rules_full. simpl. intros H H'.
  repeat (destruct H as [<-|H]; [|]); try contradiction;
  repeat (destruct H' as [<-|H']; [|]); try contradiction;
  cbn; intuition discriminate.
Qed.

Lemma rules5_separate r r' :
  In r rules5 -> In r' rules5 -> ~ In (fst r) (snd r').
Proof.
  unfold rules5. simpl. intros H H'.
  repeat (destruct H as [<-|H]; [|]); try contradiction;
  repeat (destruct H' as [<-|H']; [|]); try contradiction;
  cbn; intuition discriminate.
Qed.

Lemma clean_column_rules s : clean_column s = clean_with rules_full s.
Proof. reflexivity. Qed.

Lemma clean_column5_rules s : clean_column5 s = clean_with rules5 s.
Proof. reflexivity. Qed.

(** A second pass of the cleaning does nothing but strip again. *)
Lemma clean_column_twice s :
  clean_column (clean_column s) = strip (clean_column s).
Proof.
  rewrite !clean_column_rules.
  apply clean_with_twice, rules_full_separate.
Qed.

(** C4, as stated, fails: a tab or line break that a removed character
    shielded from [strip] is stripped by the second pass.  On the name
    [?<TAB>x] the first pass gives [<TAB>x] and the second [x]. *)
Lemma clean_column_not_idempotent :
  ~ (forall s, clean_column (clean_column s) = clean_column s)
  /\ ~ (forall s, clean_column5 (clean_column5 s) = clean_column5 s).
Proof.
  split; intros H; specialize (H [63; 9; 120]%N); vm_compute in H;
    discriminate.
Qed.

(** C4, amended: on a name whose only white space is the plain space,
    cleaning is idempotent, for both rule sets. *)
Theorem clean_column_idempotent (s : pystr) :
  plain_spaced s ->
  clean_column (clean_column s) = clean_column s
  /\ clean_column5 (clean_column5 s) = clean_column5 s.
Proof.
  intros Hs. rewrite !clean_column_rules, !clean_column5_rules. split.
  - apply clean_with_idempotent; auto using rules_full_separate.
    + exists [UNDERSCORE]. now left.
    + unfold rules_full. simpl. intros r c Hr Hc.
      repeat (destruct Hr as [<-|Hr]; [|]); try contradiction;
        simpl in Hc; destruct Hc as [<-|[]] || destruct Hc; reflexivity.
  - apply clean_with_idempotent; auto using rules5_separate.
    + exists [UNDERSCORE]. now left.
    + unfold rules5. simpl. intros r c Hr Hc.
      repeat (destruct Hr as [<-|Hr]; [|]); try contradiction;
        simpl in Hc; destruct Hc as [<-|[]] || destruct Hc; reflexivity.
Qed.

Lemma clean_column_idempotent_witness :
  let s := py " Are you aware (yes/no)? " in
  plain_spaced s
  /\ clean_column (clean_column s) = clean_column s
  /\ clean_column5 (clean_column5 s) = clean_column5 s.
Proof.
  assert (H : plain_spaced (py " Are you aware (yes/no)? ")).
  { intros c Hc. vm_compute in Hc.
    repeat (destruct Hc as [<-|Hc]; [vm_compute; intros E; (reflexivity || discriminate E)|]).
    destruct Hc. }
  split; [exact H|]. exact (clean_column_idempotent _ H).
Defined.

(** ** Base64 *)

Lemma b64_index_char_nat (n : nat) :
  (n < 64)%nat ->
  b64_index (b64_char (N.of_nat n)) = Some (N.of_nat n)
  /\ (b64_char (N.of_nat n) =? PAD) = false.
Proof.
  intros H. do 64 (destruct n as [|n]; [split; reflexivity|]). lia.
Qed.

Lemma b64_index_char (i : N) :
  i < 64 -> b64_index (b64_char i) = Some i.
Proof.
  intros H. rewrite <- (N2Nat.id i). apply b64_index_char_nat. lia.
Qed.

Lemma b64_char_not_pad (i : N) :
  i < 64 -> (b64_char i =? PAD) = false.
Proof.
  intros H. rewrite <- (N2Nat.id i). apply b64_index_char_nat. lia.
Qed.

Lemma list_ind3 {A} (P : list A -> Prop) :
  P [] -> (forall a, P [a]) -> (forall a b, P [a; b]) ->
  (forall a b c rest, P rest -> P (a :: b :: c :: rest)) ->
  forall l, P l.
Proof.
  intros H0 H1 H2 H3.
  assert (H : forall n l, (length l <= n)%nat -> P l).
  { induction n as [|n IH]; intros l Hl.
    - destruct l; [exact H0|simpl in Hl; lia].
    - destruct l as [|a [|b [|c rest]]]; auto.
      apply H3, IH. simpl in Hl. lia. }
  intros l. now apply (H (length l)).
Qed.

Lemma b64decode_group c1 c2 c3 c4 rest :
  (c4 =? PAD) = false ->
  b64decode (c1 :: c2 :: c3 :: c4 :: rest) =
  (i1 ← b64_index c1;
   i2 ← b64_index c2;
   i3 ← b64_index c3;
   i4 ← b64_index c4;
   let n := i1 * 262144 + i2 * 4096 + i3 * 64 + i4 in
   a ← Byte.of_N (n / 65536);
   b ← Byte.of_N (n / 256 mod 256);
   c ← Byte.of_N (n mod 256);
   tl ← b64decode rest;
   Some (a :: b :: c :: tl)).
Proof.
  intros H. cbn [b64decode]. now rewrite H.
Qed.

Section Sextets.
Variables a b c : N.
Hypothesis Ha : a <= 255.
Hypothesis Hb : b <= 255.
Hypothesis Hc : c <= 255.
Let n := a * 65536 + b * 256 + c.

Lemma sextets_bounded :
  n / 262144 < 64 /\ n / 4096 mod 64 < 64
  /\ n / 64 mod 64 < 64 /\ n mod 64 < 64.
Proof.
  subst n. repeat split; try (apply N.mod_lt; lia).
  apply N.Div0.div_lt_upper_bound; lia.
Qed.

Lemma sextets_join :
  n / 262144 * 262144 + n / 4096 mod 64 * 4096 + n / 64 mod 64 * 64
  + n mod 64 = n.
Proof.
  pose proof (N.div_mod n 64 ltac:(lia)) as E1.
  pose proof (N.div_mod (n / 64) 64 ltac:(lia)) as E2.
  pose proof (N.div_mod (n / 64 / 64) 64 ltac:(lia)) as E3.
  rewrite !N.Div0.div_div in E2, E3.
  change (64 * 64) with 4096 in E2, E3.
  rewrite ?N.Div0.div_div in E3. change (4096 * 64) with 262144 in E3.
  lia.
Qed.

Lemma bytes_split :
  n / 65536 = a /\ n / 256 mod 256 = b /\ n mod 256 = c.
Proof.
  subst n. repeat split.
  - symmetry. apply (N.div_unique _ _ _ (b * 256 + c)); lia.
  - replace (a * 65536 + b * 256 + c) with (c + (a * 256 + b) * 256) by lia.
    rewrite N.div_add by lia. rewrite (N.div_small c) by lia.
    replace (0 + (a * 256 + b)) with (b + a * 256) by lia.
    rewrite N.Div0.mod_add. apply N.mod_small. lia.
  - replace (a * 65536 + b * 256 + c) with (c + (a * 256 + b) * 256) by lia.
    rewrite N.Div0.mod_add. apply N.mod_small. lia.
Qed.
End Sextets.

Lemma pad_sextets (a b : N) :
  (a * 65536 + b * 256 + 0) mod 64 = 0
  /\ (a * 65536 + 0 * 256 + 0) / 64 mod 64 = 0.
Proof.
  split.
  - replace (a * 65536 + b * 256 + 0) with ((a * 1024 + b * 4) * 64) by lia.
    apply N.Div0.mod_mul.
  - replace (a * 65536 + 0 * 256 + 0) with (a * 1024 * 64) by lia.
    rewrite N.div_mul by lia.
    replace (a * 1024) with (a * 16 * 64) by lia. apply N.Div0.mod_mul.
Qed.

(** Decoding undoes encoding, on every byte string. *)
Lemma b64decode_b64encode (bs : list byte) :
  b64decode (b64encode bs) = Some bs.
Proof.
  induction bs as [|a|a b|a b c rest IH] using list_ind3.
  - reflexivity.
  - pose proof (Byte.to_N_bounded a) as Ha.
    assert (H0 : 0 <= 255) by lia.
    destruct (sextets_bounded _ 0 0 Ha H0 H0) as (B1 & B2 & _ & _).
    pose proof (sextets_join _ 0 0 Ha H0 H0) as J.
    destruct (pad_sextets (Byte.to_N a) 0) as [P4 P3].
    destruct (bytes_split _ 0 0 Ha H0 H0) as (S1 & _ & _).
    rewrite P4, P3 in J.
    replace (Byte.to_N a * 65536 + 0 * 256 + 0)
      with (Byte.to_N a * 65536) in * by lia.
    cbn [b64encode b64decode].
    rewrite !b64_index_char by assumption. cbn [mbind option_bind].
    change (PAD =? PAD) with true. cbv iota.
    replace (_ + _ * 4096) with (Byte.to_N a * 65536) by lia.
    rewrite S1, Byte.of_to_N. reflexivity.
  - pose proof (Byte.to_N_bounded a) as Ha.
    pose proof (Byte.to_N_bounded b) as Hb.
    assert (H0 : 0 <= 255) by lia.
    destruct (sextets_bounded _ _ 0 Ha Hb H0) as (B1 & B2 & B3 & _).
    pose proof (sextets_join _ _ 0 Ha Hb H0) as J.
    destruct (pad_sextets (Byte.to_N a) (Byte.to_N b)) as [P4 _].
    destruct (bytes_split _ _ 0 Ha Hb H0) as (S1 & S2 & _).
    rewrite P4 in J.
    replace (Byte.to_N a * 65536 + Byte.to_N b * 256 + 0)
      with (Byte.to_N a * 65536 + Byte.to_N b * 256) in * by lia.
    cbn [b64encode b64decode].
    rewrite !b64_index_char by assumption. cbn [mbind option_bind].
    change (PAD =? PAD) with true. cbv iota.
    rewrite (b64_char_not_pad _ B3). cbn [mbind option_bind]. cbv zeta.
    replace (_ + _ * 4096 + _ * 64)
      with (Byte.to_N a * 65536 + Byte.to_N b * 256) by lia.
    rewrite S1, S2, !Byte.of_to_N. reflexivity.
  - pose proof (Byte.to_N_bounded a) as Ha.
    pose proof (Byte.to_N_bounded b) as Hb.
    pose proof (Byte.to_N_bounded c) as Hc.
    destruct (sextets_bounded _ _ _ Ha Hb Hc) as (B1 & B2 & B3 & B4).
    pose proof (sextets_join _ _ _ Ha Hb Hc) as J.
    destruct (bytes_split _ _ _ Ha Hb Hc) as (S1 & S2 & S3).
    cbn [b64encode]. cbv zeta. cbn [app].
    rewrite b64decode_group by now apply b64_char_not_pad.
    rewrite !b64_index_char by assumption. cbn [mbind option_bind]. cbv zeta.
    rewrite J, S1, S2, S3, !Byte.of_to_N. cbn [mbind option_bind].
    rewrite IH. reflexivity.
Qed.

(** ** The error monad *)

Lemma bind_Ok {A B} (m : result A) (f : A -> result B) (b : B) :
  m ≫= f = Ok b -> exists a, m = Ok a /\ f a = Ok b.
Proof. destruct m as [a|e]; [eauto|discriminate]. Qed.

Lemma bind_ret_l {A B} (a : A) (f : A -> result B) : Ok a ≫= f = f a.
Proof. reflexivity. Qed.

Lemma bind_Ok_eq {A B} (m : result A) (f : A -> result B) (a : A) :
  m = Ok a -> m ≫= f = f a.
Proof. now intros ->. Qed.

Tactic Notation "inv_bind" hyp(H) :=
  let a := fresh "x" in
  let E := fresh "E" in
  apply bind_Ok in H as (a & E & H).

Tactic Notation "inv_bind" hyp(H) "as" ident(a) ident(E) :=
  apply bind_Ok in H as (a & E & H).

(** ** Grouping *)

Section Collect.
Context {K R : Type} `{EqDecision K}.
Implicit Types (k : K) (r : R) (gs : list (K * list R)).

Lemma members_add k k' r gs :
  members k (add_to_group k' r gs)
  = members k gs ++ (if bool_decide (k = k') then [r] else []).
Proof.
  induction gs as [|[k0 rs] gs IH]; simpl.
  - destruct (bool_decide (k = k')); reflexivity.
  - destruct (bool_decide_reflect (k' = k0)) as [->|Hne]; simpl.
    + destruct (bool_decide_reflect (k = k0)) as [->|Hne'].
      * reflexivity.
      * now rewrite app_nil_r.
    + destruct (bool_decide_reflect (k = k0)) as [->|Hne'].
      * rewrite bool_decide_false by congruence. now rewrite app_nil_r.
      * apply IH.
Qed.

Lemma members_fold k (keyed : list (K * R)) gs :
  members k (fold_left (fun acc kr => add_to_group (fst kr) (snd kr) acc)
                       keyed gs)
  = members k gs ++ with_key k keyed.
Proof.
  revert gs. induction keyed as [|[k' r] keyed IH]; intros gs; simpl.
  - unfold with_key. simpl. now rewrite app_nil_r.
  - rewrite IH, members_add. unfold with_key. simpl.
    destruct (bool_decide_reflect (k = k')) as [->|Hne].
    + rewrite bool_decide_true by reflexivity. now rewrite <- app_assoc.
    + rewrite bool_decide_false by congruence. now rewrite app_nil_r.
Qed.

Lemma members_collect k (keyed : list (K * R)) :
  members k (collect keyed) = with_key k keyed.
Proof. unfold collect. now rewrite members_fold. Qed.

Lemma keys_add k r gs :
  exists extra, map fst (add_to_group k r gs) = map fst gs ++ extra
    /\ (extra = [] \/ (extra = [k] /\ ~ In k (map fst gs))).
Proof.
  induction gs as [|[k0 rs] gs IH]; simpl.
  - exists [k]. split; [reflexivity|]. right. split; [reflexivity|tauto].
  - destruct (bool_decide_reflect (k = k0)) as [->|Hne]; simpl.
    + exists []. rewrite app_nil_r. auto.
    + destruct IH as (extra & -> & Hex). exists extra. split; [reflexivity|].
      destruct Hex as [->|[-> Hk]]; [auto|]. right. split; [reflexivity|].
      intros [E|E]; [congruence|contradiction].
Qed.

Lemma NoDup_keys_add k r gs :
  NoDup (map fst gs) -> NoDup (map fst (add_to_group k r gs)).
Proof.
  intros Hnd. destruct (keys_add k r gs) as (extra & -> & [->|[-> Hk]]).
  - now rewrite app_nil_r.
  - apply NoDup_app. split; [assumption|]. split.
    + intros x Hx Hx'. apply list_elem_of_In in Hx, Hx'.
      destruct Hx' as [<-|[]]. contradiction.
    + apply NoDup_singleton.
Qed.

Lemma nonempty_add k r gs :
  Forall (fun g => snd g <> []) gs ->
  Forall (fun g => snd g <> []) (add_to_group k r gs).
Proof.
  induction 1 as [|[k0 rs] gs Hg Hgs IH]; simpl.
  - repeat constructor. discriminate.
  - destruct (bool_decide (k = k0)); constructor; auto.
    simpl. destruct rs; discriminate.
Qed.

Lemma total_size_add k r gs :
  total_size (add_to_group k r gs) = S (total_size gs).
Proof.
  induction gs as [|[k0 rs] gs IH]; simpl; [reflexivity|].
  destruct (bool_decide (k = k0)); simpl.
  - rewrite length_app. simpl. lia.
  - rewrite IH. lia.
Qed.

Lemma collect_invariant (keyed : list (K * R)) gs :
  let gs' := fold_left (fun acc kr => add_to_group (fst kr) (snd kr) acc)
                       keyed gs in
  (NoDup (map fst gs) -> NoDup (map fst gs'))
  /\ (Forall (fun g => snd g <> []) gs -> Forall (fun g => snd g <> []) gs')
  /\ total_size gs' = (total_size gs + length keyed)%nat.
Proof.
  revert gs. induction keyed as [|[k r] keyed IH]; intros gs; simpl.
  - repeat split; auto.
  - destruct (IH (add_to_group k r gs)) as (H1 & H2 & H3). repeat split.
    + intros Hn. now apply H1, NoDup_keys_add.
    + intros Hn. now apply H2, nonempty_add.
    + simpl in H3. rewrite H3, total_size_add. lia.
Qed.

Lemma members_In k rs gs :
  NoDup (map fst gs) -> In (k, rs) gs -> members k gs = rs.
Proof.
  induction gs as [|[k0 rs0] gs IH]; simpl; [tauto|].
  intros Hnd [E|Hin].
  - injection E as -> ->. now rewrite bool_decide_true.
  - apply NoDup_cons in Hnd as [Hk Hnd].
    destruct (bool_decide_reflect (k = k0)) as [->|Hne]; [|now apply IH].
    exfalso. apply Hk. apply list_elem_of_In.
    change k0 with (fst (k0, rs)). now apply in_map.
Qed.

Lemma members_nonempty k gs :
  members k gs <> [] -> In (k, members k gs) gs.
Proof.
  induction gs as [|[k0 rs0] gs IH]; simpl; [congruence|].
  destruct (bool_decide_reflect (k = k0)) as [->|Hne]; auto.
Qed.
End Collect.

Lemma insert_by_key_perm g l : Permutation (insert_by_key g l) (g :: l).
Proof.
  induction l as [|h t IH]; simpl; [reflexivity|].
  destruct (key_compare (fst g) (fst h)); try reflexivity.
  rewrite IH. apply perm_swap.
Qed.

Lemma sort_groups_perm l : Permutation (sort_groups l) l.
Proof.
  induction l as [|g l IH]; simpl; [reflexivity|].
  rewrite insert_by_key_perm. now constructor.
Qed.

Lemma total_size_perm {K R} (l l' : list (K * list R)) :
  Permutation l l' -> total_size l = total_size l'.
Proof.
  induction 1; simpl; lia.
Qed.

(** What [group_rows] returns: one group per key that occurs, holding the
    rows of that key in input order. *)
Lemma group_rows_total keyed :
  total_size (group_rows keyed) = length keyed.
Proof.
  unfold group_rows. rewrite (total_size_perm _ _ (sort_groups_perm _)).
  unfold collect.
  now destruct (collect_invariant keyed []) as (_ & _ & ->).
Qed.

Lemma group_rows_NoDup keyed : NoDup (map fst (group_rows keyed)).
Proof.
  unfold group_rows.
  rewrite (Permutation_map fst (sort_groups_perm (collect keyed))).
  unfold collect. destruct (collect_invariant keyed []) as (H & _ & _).
  apply H. constructor.
Qed.

Lemma group_rows_In keyed g :
  In g (group_rows keyed) ->
  snd g = with_key (fst g) keyed /\ snd g <> [].
Proof.
  unfold group_rows. intros Hin.
  apply (Permutation_in _ (sort_groups_perm _)) in Hin.
  destruct (collect_invariant keyed []) as (Hnd & Hne & _).
  fold (collect keyed) in Hnd, Hne. split.
  - rewrite <- members_collect. symmetry. apply members_In.
    + apply Hnd. constructor.
    + now destruct g.
  - specialize (Hne (Forall_nil_2 _)). rewrite Forall_forall in Hne.
    apply Hne. now apply list_elem_of_In.
Qed.

Lemma group_rows_key keyed k :
  with_key k keyed <> [] -> In (k, with_key k keyed) (group_rows keyed).
Proof.
  intros Hne. unfold group_rows.
  apply (Permutation_in _ (Permutation_sym (sort_groups_perm _))).
  rewrite <- members_collect in *. now apply members_nonempty.
Qed.


(** ** Sequences of fallible steps *)

Lemma mapR_app {A B} (f : A -> result B) l1 l2 :
  mapR f (l1 ++ l2) = (x ← mapR f l1; y ← mapR f l2; Ok (x ++ y)).
Proof.
  induction l1 as [|a l1 IH]; simpl.
  - now destruct (mapR f l2).
  - destruct (f a); simpl; [|reflexivity]. rewrite IH.
    destruct (mapR f l1); simpl; [|reflexivity].
    now destruct (mapR f l2).
Qed.

Lemma mapR_map {A B C} (f : B -> result C) (g : A -> B) l :
  mapR f (List.map g l) = mapR (fun a => f (g a)) l.
Proof.
  induction l as [|a l IH]; simpl; [reflexivity|]. now rewrite IH.
Qed.

Lemma mapR_length {A B} (f : A -> result B) l l' :
  mapR f l = Ok l' -> length l' = length l.
Proof.
  revert l'. induction l as [|a l IH]; simpl; intros l' H.
  - now injection H as <-.
  - inv_bind H. inv_bind H. injection H as <-. simpl. f_equal. now apply IH.
Qed.

Lemma mapR_ext {A B} (f g : A -> result B) l :
  (forall a, In a l -> f a = g a) -> mapR f l = mapR g l.
Proof.
  induction l as [|a l IH]; simpl; intros H; [reflexivity|].
  rewrite (H a) by auto. rewrite IH by auto. reflexivity.
Qed.

(** ** The aggregate queries *)

Lemma resolve_cols cols keys :
  mapR (fun ca => resolve_expr cols (Col (fst ca))) keys
  = (cidx ← mapR (column_of cols) keys; Ok (List.map TCol cidx)).
Proof.
  induction keys as [|ca keys IH]; [reflexivity|].
  cbn [mapR]. rewrite IH.
  destruct (mapR (column_of cols) keys); unfold column_of, resolve_expr;
    destruct (find_column (fst ca) cols); reflexivity.
Qed.

Lemma run_select_count keys t s :
  run_select (count_query keys) t = Ok s ->
  exists cidx kidx,
    mapR (column_of (columns t)) keys = Ok cidx
    /\ mapR (resolve_group (columns t) (sel_list (count_query keys)))
            (List.map snd keys) = Ok kidx
    /\ columns s = List.map snd keys ++ [Count]
    /\ rows s =
       List.map (fun g => project cidx (hd [] (snd g)) ++ [Int (count_of g)])
         (group_rows (List.map (fun r => (project kidx r, r)) (rows t))).
Proof.
  unfold run_select. intros H.
  inv_bind H as terms Ht. inv_bind H as kidx Hk. injection H as <-.
  cbn [sel_list sel_group_by count_query] in *.
  rewrite map_app, mapR_app, !map_map, !mapR_map in Ht.
  cbn [fst] in Ht. rewrite resolve_cols in Ht.
  inv_bind Ht as tcols Htc. inv_bind Htc as cidx Hc.
  injection Htc as <-. cbn in Ht. injection Ht as <-.
  exists cidx, kidx. repeat split; try assumption.
  - cbn. rewrite map_app, map_map. reflexivity.
  - cbn. apply map_ext. intros g. rewrite map_app, map_map. reflexivity.
Qed.

(** ** Summary tables: the count column *)

Lemma index_of_last c names :
  ~ In c names -> index_of c (names ++ [c]) = Some (length names).
Proof.
  induction names as [|x names IH]; simpl; intros H.
  - now rewrite bool_decide_true.
  - rewrite bool_decide_false by (intros ->; tauto).
    rewrite IH by tauto. reflexivity.
Qed.

Lemma index_of_head c names : index_of c (c :: names) = Some 0%nat.
Proof. simpl. now rewrite bool_decide_true. Qed.

Lemma index_of_tail c x names :
  c <> x -> index_of c (x :: names) = S <$> index_of c names.
Proof. intros H. simpl. now rewrite bool_decide_false. Qed.

Lemma nth_last {A} (l : list A) x d : nth (length l) (l ++ [x]) d = x.
Proof.
  rewrite app_nth2 by lia. now rewrite Nat.sub_diag.
Qed.

Lemma series_sum_counts (groups : list (list cell * list row)) :
  series_sum (List.map (fun g => Int (count_of g)) groups)
  = Z.of_nat (total_size groups).
Proof.
  induction groups as [|g groups IH]; simpl; [reflexivity|].
  rewrite IH. unfold count_of. lia.
Qed.

Lemma getitem_count_last names cols (K : list cell * list row -> list cell)
    groups :
  cols = names ++ [Count] ->
  ~ In Count names ->
  (forall g, In g groups -> length (K g) = length names) ->
  getitem {| columns := cols;
             rows := List.map (fun g => K g ++ [Int (count_of g)]) groups |}
          Count
  = Ok (List.map (fun g => Int (count_of g)) groups).
Proof.
  intros -> Hc Hlen. unfold getitem. cbn [columns rows].
  rewrite index_of_last by assumption. cbn. f_equal.
  rewrite map_map. apply map_ext_in. intros g Hg.
  rewrite <- (Hlen g Hg). apply nth_last.
Qed.

Lemma project_length idx r : length (project idx r) = length idx.
Proof. unfold project. apply length_map. Qed.

(** The counts of a [COUNT( * ) ... GROUP BY] result add up to the number of
    rows of the table. *)
Lemma run_select_count_sum keys t s :
  run_select (count_query keys) t = Ok s ->
  ~ In Count (List.map snd keys) ->
  exists counts, getitem s Count = Ok counts
    /\ series_sum counts = Z.of_nat (length (rows t)).
Proof.
  intros H Hc. apply run_select_count in H as (cidx & kidx & Hci & _ & Hcols & Hrows).
  destruct s as [cols rws]. cbn in Hcols, Hrows. subst rws.
  eexists. split.
  - apply (getitem_count_last (List.map snd keys));
      [exact Hcols|exact Hc|].
    intros g _. rewrite project_length, length_map.
    apply (mapR_length _ _ _ Hci).
  - rewrite series_sum_counts, group_rows_total. now rewrite length_map.
Qed.

Lemma read_sql_query_Ok q conn d :
  read_sql_query q conn = Ok d ->
  exists t, conn !! sel_from q = Some t /\ run_select q t = Ok d.
Proof.
  unfold read_sql_query. intros H. inv_bind H as t Ht.
  exists t. split; [|assumption].
  destruct (conn !! sel_from q); [|discriminate]. cbn in Ht. congruence.
Qed.

Lemma aggregate_sql_sums know conn s :
  know <> Count ->
  aggregate_sql know conn = Ok s ->
  exists df, conn !! survey = Some df
    /\ Forall (fun d => counts_total d (length (rows df))) (tables s).
Proof.
  intros Hk H. unfold aggregate_sql in H.
  inv_bind H as a Ha. inv_bind H as ar Har. inv_bind H as tr Htr.
  inv_bind H as ga Hga. injection H as <-.
  apply read_sql_query_Ok in Ha as (df & Hdf & Ha).
  apply read_sql_query_Ok in Har as (df1 & Hdf1 & Har).
  apply read_sql_query_Ok in Htr as (df2 & Hdf2 & Htr).
  apply read_sql_query_Ok in Hga as (df3 & Hdf3 & Hga).
  cbn in Hdf, Hdf1, Hdf2, Hdf3.
  assert (df1 = df) by congruence. assert (df2 = df) by congruence.
  assert (df3 = df) by congruence. subst df1 df2 df3.
  exists df. split; [assumption|].
  unfold tables. cbn [awareness_df awareness_reporting_df
                      training_reporting_df gender_awareness_df].
  repeat constructor.
  - apply (run_select_count_sum _ _ _ Ha). cbn. intros [E|[]]. discriminate.
  - apply (run_select_count_sum _ _ _ Har). cbn.
    intros [E|[E|[]]]; [discriminate|exact (Hk E)].
  - apply (run_select_count_sum _ _ _ Htr). cbn.
    intros [E|[E|[]]]; [discriminate|exact (Hk E)].
  - apply (run_select_count_sum _ _ _ Hga). cbn.
    intros [E|[E|[]]]; discriminate.
Qed.

(** ** pandas aggregation *)

Lemma insert_desc_perm x l : Permutation (insert_desc x l) (x :: l).
Proof.
  induction l as [|y l IH]; simpl; [reflexivity|].
  destruct (snd y <=? snd x)%nat; [reflexivity|].
  rewrite IH. apply perm_swap.
Qed.

Lemma value_counts_perm s : Permutation (value_counts s) (tally s).
Proof.
  unfold value_counts. induction (tally s) as [|x l IH]; simpl; [reflexivity|].
  rewrite insert_desc_perm. now constructor.
Qed.

Lemma tally_total_perm l l' :
  Permutation l l' -> tally_total l = tally_total l'.
Proof. induction 1; simpl; lia. Qed.

Lemma tally_total_tally s :
  tally_total (tally s) = length (List.filter notnull s).
Proof.
  unfold tally.
  set (gs := collect _).
  assert (E : tally_total (List.map (fun g : cell * list cell =>
                 (fst g, length (snd g))) gs) = total_size gs).
  { induction gs as [|g gs IH]; simpl; [reflexivity|]. now rewrite IH. }
  rewrite E. subst gs. unfold collect.
  destruct (collect_invariant
              (List.map (fun v : cell => (v, v)) (List.filter notnull s)) [])
    as (_ & _ & ->).
  now rewrite length_map.
Qed.

(** The counts of [value_counts] add up to the number of entries that are
    present. *)
Lemma value_counts_sum name s a :
  set_columns (value_counts_frame name s) [Awareness; Count] = Ok a ->
  counts_total a (length (List.filter notnull s)).
Proof.
  cbn. intros H. injection H as <-. eexists. split; [reflexivity|].
  cbn [rows]. rewrite map_map. cbn.
  rewrite <- tally_total_tally, <- (tally_total_perm _ _ (value_counts_perm s)).
  induction (value_counts s) as [|vn l IH]; simpl; [reflexivity|].
  rewrite IH. lia.
Qed.

Lemma with_key_nonempty {K R} `{EqDecision K} (k : K) (keyed : list (K * R)) :
  with_key k keyed <> [] -> exists r, In (k, r) keyed.
Proof.
  unfold with_key. induction keyed as [|[k' r] keyed IH]; simpl; [congruence|].
  destruct (bool_decide_reflect (k' = k)) as [->|Hne].
  - intros _. exists r. now left.
  - intros H. destruct (IH H) as [r' Hr']. exists r'. now right.
Qed.

(** Every group of a grouping by projection is the projection of a row. *)
Lemma group_rows_project idx rws g :
  In g (group_rows (List.map (fun r => (project idx r, r)) rws)) ->
  exists r, In r rws /\ fst g = project idx r /\ In r (snd g)
    /\ Forall (fun r' => project idx r' = fst g) (snd g).
Proof.
  intros Hg. apply group_rows_In in Hg as [Hm Hne].
  assert (Hall : Forall (fun r' => In r' rws /\ project idx r' = fst g) (snd g)).
  { rewrite Hm. unfold with_key. apply List.Forall_forall. intros r' Hr'.
    apply in_map_iff in Hr' as ([k r''] & <- & Hin).
    apply filter_In in Hin as [Hin Hk].
    apply bool_decide_eq_true in Hk. cbn in Hk.
    apply in_map_iff in Hin as (r0 & E & Hr0). injection E as <- <-. auto. }
  destruct (snd g) as [|r rs] eqn:Es; [congruence|].
  apply List.Forall_cons_iff in Hall as [[Hr Hk] Hall].
  exists r. repeat split; auto; [now left|].
  constructor; [assumption|].
  eapply List.Forall_impl; [|exact Hall]. now intros ? [_ ?].
Qed.

Lemma groupby_size_shape df keys name g :
  groupby_size df keys name = Ok g ->
  exists idx, lookup_columns df keys = Ok idx
    /\ g = {| columns := keys ++ [name];
              rows := List.map (fun g => fst g ++ [Int (count_of g)])
                (group_rows (List.map (fun r => (project idx r, r))
                               (List.filter (complete idx) (rows df)))) |}.
Proof.
  unfold groupby_size. intros H. inv_bind H as idx Hi.
  injection H as <-. eauto.
Qed.

Lemma groupby_size_keys idx rws g :
  In g (group_rows (List.map (fun r => (project idx r, r))
                             (List.filter (complete idx) rws))) ->
  length (fst g) = length idx /\ forallb notnull (fst g) = true.
Proof.
  intros Hg. apply group_rows_project in Hg as (r & Hr & -> & _).
  apply filter_In in Hr as [_ Hc]. split; [apply project_length|exact Hc].
Qed.

(** The counts of [groupby(keys).size()] add up to the number of rows with
    every key present. *)
Lemma groupby_size_sum df keys g names g' :
  groupby_size df keys Count = Ok g ->
  set_columns g (names ++ [Count]) = Ok g' ->
  ~ In Count names ->
  exists idx, lookup_columns df keys = Ok idx
    /\ counts_total g' (length (List.filter (complete idx) (rows df)))
    /\ columns g' = names ++ [Count]
    /\ Forall (fun r => exists k n, r = k ++ [Int n]
                 /\ length k = length names /\ forallb notnull k = true)
              (rows g').
Proof.
  intros Hg Hs Hc. apply groupby_size_shape in Hg as (idx & Hi & ->).
  unfold set_columns in Hs. cbn [columns rows] in Hs.
  destruct (_ =? _)%nat eqn:El; [|discriminate]. injection Hs as <-.
  apply Nat.eqb_eq in El. rewrite !length_app in El. cbn in El.
  pose proof (mapR_length _ _ _ Hi) as Hli.
  exists idx. split; [assumption|]. split; [|split].
  - eexists. split.
    + apply (getitem_count_last names); [reflexivity|assumption|].
      intros g Hg. apply groupby_size_keys in Hg as [-> _]. lia.
    + rewrite series_sum_counts, group_rows_total. now rewrite length_map.
  - reflexivity.
  - cbn [rows]. apply List.Forall_forall. intros r Hr.
    apply in_map_iff in Hr as (g & <- & Hg).
    apply groupby_size_keys in Hg as [Hl Hn].
    exists (fst g), (count_of g). repeat split; [lia|assumption].
Qed.

Lemma complete_pairs i j (rws : list row) :
  length (List.filter (complete [i; j]) rws)
  = length (List.filter both_present
              (combine (List.map (fun r => nth i r Null) rws)
                       (List.map (fun r => nth j r Null) rws))).
Proof.
  induction rws as [|r rws IH]; simpl; [reflexivity|].
  unfold complete at 1, both_present at 1. cbn.
  rewrite andb_true_r.
  destruct (notnull (nth i r Null) && notnull (nth j r Null)); simpl;
    now rewrite IH.
Qed.

Lemma lookup_columns_pair df k1 k2 idx :
  lookup_columns df [k1; k2] = Ok idx ->
  exists i j, idx = [i; j]
    /\ getitem df k1 = Ok (List.map (fun r => nth i r Null) (rows df))
    /\ getitem df k2 = Ok (List.map (fun r => nth j r Null) (rows df)).
Proof.
  unfold lookup_columns, getitem. cbn [mapR]. intros H.
  inv_bind H as i Hi. inv_bind H as l Hl. inv_bind Hl as j Hj.
  injection Hl as <-. injection H as <-.
  exists i, j. rewrite Hi, Hj. auto.
Qed.

Lemma dropna_keys d a b :
  a <> b ->
  columns d = [a; b; Count] ->
  Forall (fun r => exists k n, r = k ++ [Int n]
            /\ length k = 2%nat /\ forallb notnull k = true) (rows d) ->
  dropna d [a; b] = Ok d.
Proof.
  intros Hab Hc Hr. destruct d as [cols rws]. cbn in Hc, Hr. subst cols.
  unfold dropna, lookup_columns. cbn [columns rows mapR].
  rewrite index_of_head, (index_of_tail b a), index_of_head by congruence.
  cbn. do 2 f_equal.
  induction Hr as [|r rws (k & n & -> & Hl & Hn) Hr IH]; [reflexivity|].
  cbn [List.filter]. rewrite IH.
  destruct k as [|x [|y [|z k]]]; try discriminate Hl.
  unfold complete. cbn in *. now rewrite Hn.
Qed.

(** The pandas aggregation of data_analytics5.py: what each summary counts. *)
Lemma aggregate5_sums float chi2 fmt df s chi :
  aggregate5 float chi2 fmt df = Ok (s, chi) ->
  exists aw rp tr ge,
    getitem df AWARE = Ok aw /\ getitem df REPORT = Ok rp
    /\ getitem df TRAINING = Ok tr /\ getitem df GENDER = Ok ge
    /\ counts_total (awareness_df s) (length (List.filter notnull aw))
    /\ counts_total (awareness_reporting_df s)
         (length (List.filter both_present (combine aw rp)))
    /\ counts_total (training_reporting_df s)
         (length (List.filter both_present (combine tr rp)))
    /\ counts_total (gender_awareness_df s)
         (length (List.filter both_present (combine ge aw))).
Proof.
  unfold aggregate5. intros H.
  inv_bind H as aw Haw. inv_bind H as a Ha.
  inv_bind H as ar0 Har0. inv_bind H as ar Har. inv_bind H as c1 Hc1.
  inv_bind H as tr0 Htr0. inv_bind H as tr1 Htr1. inv_bind H as tr2 Htr2.
  inv_bind H as c2 Hc2.
  inv_bind H as ga0 Hga0. inv_bind H as ga Hga. inv_bind H as c3 Hc3.
  injection H as <- <-.
  cbn [awareness_df awareness_reporting_df training_reporting_df
       gender_awareness_df].
  destruct (groupby_size_sum _ _ _ [Awareness; Know_Whom] _ Har0 Har)
    as (i1 & Hi1 & T1 & _ & _); [cbn; intuition discriminate|].
  destruct (groupby_size_sum _ _ _ [Training; Know_Whom] _ Htr0 Htr1)
    as (i2 & Hi2 & T2 & C2 & R2); [cbn; intuition discriminate|].
  destruct (groupby_size_sum _ _ _ [Gender; Awareness] _ Hga0 Hga)
    as (i3 & Hi3 & T3 & _ & _); [cbn; intuition discriminate|].
  apply lookup_columns_pair in Hi1 as (a1 & b1 & -> & Ga1 & Gb1).
  apply lookup_columns_pair in Hi2 as (a2 & b2 & -> & Ga2 & Gb2).
  apply lookup_columns_pair in Hi3 as (a3 & b3 & -> & Ga3 & Gb3).
  rewrite (dropna_keys tr1 Training Know_Whom) in Htr2;
    [|discriminate|exact C2|exact R2].
  injection Htr2 as <-.
  rewrite complete_pairs in T1, T2, T3.
  assert (Eaw : aw = List.map (fun r => nth a1 r Null) (rows df)) by congruence.
  assert (Eaw' : aw = List.map (fun r => nth b3 r Null) (rows df)) by congruence.
  assert (Erp : List.map (fun r => nth b1 r Null) (rows df)
                = List.map (fun r => nth b2 r Null) (rows df)) by congruence.
  eexists aw, _, _, _. repeat split; try eassumption.
  - now apply (value_counts_sum AWARE).
  - now rewrite Eaw, <- Erp.
  - now rewrite Eaw'.
Qed.

(** C1: in every group-by summary table the Count column adds up to the
    number of input rows considered.  The SQL scripts count every row of
    the stored table (a missing answer is a group of its own); in
    data_analytics5.py [value_counts] counts the rows whose answer is
    present and [groupby(...).size()] the rows with both answers present. *)
Theorem summary_counts_sum_to_rows :
  (forall know conn s,
      know = Know_Whom_To_Report \/ know = Know_Whom ->
      aggregate_sql know conn = Ok s ->
      exists df, conn !! survey = Some df
        /\ Forall (fun d => counts_total d (length (rows df))) (tables s))
  /\ (forall float chi2 fmt df s chi,
      aggregate5 float chi2 fmt df = Ok (s, chi) ->
      exists aw rp tr ge,
        getitem df AWARE = Ok aw /\ getitem df REPORT = Ok rp
        /\ getitem df TRAINING = Ok tr /\ getitem df GENDER = Ok ge
        /\ counts_total (awareness_df s) (length (List.filter notnull aw))
        /\ counts_total (awareness_reporting_df s)
             (length (List.filter both_present (combine aw rp)))
        /\ counts_total (training_reporting_df s)
             (length (List.filter both_present (combine tr rp)))
        /\ counts_total (gender_awareness_df s)
             (length (List.filter both_present (combine ge aw)))).
Proof.
  split.
  - intros know conn s Hk. apply aggregate_sql_sums.
    destruct Hk as [->| ->]; discriminate.
  - intros float chi2 fmt df s chi. apply aggregate5_sums.
Qed.

Lemma summary_counts_sum_to_rows_witness :
  (exists s, aggregate_sql Know_Whom_To_Report
               (<[survey := sample_clean]> sample_conn) = Ok s
     /\ Forall (fun d => counts_total d 5) (tables s))
  /\ (exists s chi, aggregate5 Z sample_chi2 sample_fmt sample_clean
                    = Ok (s, chi)
        /\ counts_total (awareness_df s) 5
        /\ counts_total (awareness_reporting_df s) 4
        /\ counts_total (training_reporting_df s) 3
        /\ counts_total (gender_awareness_df s) 4).
Proof.
  destruct summary_counts_sum_to_rows as [Hsql Hpd]. split.
  - eexists. split; [vm_compute; reflexivity|].
    edestruct (Hsql Know_Whom_To_Report (<[survey := sample_clean]> sample_conn))
      as (df & Hdf & Hall); [now left|vm_compute; reflexivity|].
    rewrite lookup_insert_eq in Hdf. injection Hdf as <-. exact Hall.
  - do 2 eexists. split; [vm_compute; reflexivity|].
    edestruct (Hpd Z sample_chi2 sample_fmt sample_clean)
      as (aw & rp & tr & ge & Haw & Hrp & Htr & Hge & H1 & H2 & H3 & H4);
      [vm_compute; reflexivity|].
    vm_compute in Haw, Hrp, Htr, Hge.
    injection Haw as <-. injection Hrp as <-.
    injection Htr as <-. injection Hge as <-.
    repeat split; assumption.
Defined.

(** ** Column order *)

Lemma aggregate5_inv float chi2 fmt df s chi :
  aggregate5 float chi2 fmt df = Ok (s, chi) ->
  exists aw ar0 tr0 ga0,
    getitem df AWARE = Ok aw
    /\ set_columns (value_counts_frame AWARE aw) [Awareness; Count]
       = Ok (awareness_df s)
    /\ groupby_size df [AWARE; REPORT] Count = Ok ar0
    /\ set_columns ar0 [Awareness; Know_Whom; Count]
       = Ok (awareness_reporting_df s)
    /\ groupby_size df [TRAINING; REPORT] Count = Ok tr0
    /\ set_columns tr0 [Training; Know_Whom; Count]
       = Ok (training_reporting_df s)
    /\ groupby_size df [GENDER; AWARE] Count = Ok ga0
    /\ set_columns ga0 [Gender; Awareness; Count]
       = Ok (gender_awareness_df s).
Proof.
  unfold aggregate5. intros H.
  inv_bind H as aw Haw. inv_bind H as a Ha.
  inv_bind H as ar0 Har0. inv_bind H as ar Har. inv_bind H as c1 Hc1.
  inv_bind H as tr0 Htr0. inv_bind H as tr1 Htr1. inv_bind H as tr2 Htr2.
  inv_bind H as c2 Hc2.
  inv_bind H as ga0 Hga0. inv_bind H as ga Hga. inv_bind H as c3 Hc3.
  injection H as <- <-.
  cbn [awareness_df awareness_reporting_df training_reporting_df
       gender_awareness_df].
  destruct (groupby_size_sum _ _ _ [Training; Know_Whom] _ Htr0 Htr1)
    as (i2 & Hi2 & T2 & C2 & R2); [cbn; intuition discriminate|].
  rewrite (dropna_keys tr1 Training Know_Whom) in Htr2;
    [|discriminate|exact C2|exact R2].
  injection Htr2 as <-.
  exists aw, ar0, tr0, ga0. repeat split; assumption.
Qed.

Lemma set_columns_Ok d names d' :
  set_columns d names = Ok d' -> columns d' = names /\ rows d' = rows d.
Proof.
  unfold set_columns. destruct (_ =? _)%nat; [|discriminate].
  intros H. injection H as <-. auto.
Qed.

Lemma run_select_count_shape keys t s :
  run_select (count_query keys) t = Ok s ->
  columns s = List.map snd keys ++ [Count]
  /\ Forall (fun r => exists k n, r = k ++ [Int n]
               /\ length k = length keys) (rows s).
Proof.
  intros H.
  apply run_select_count in H as (cidx & kidx & Hci & _ & Hcols & Hrows).
  split; [assumption|]. rewrite Hrows. apply List.Forall_forall.
  intros r Hr. apply in_map_iff in Hr as (g & <- & _).
  eexists _, _. split; [reflexivity|].
  rewrite project_length. apply (mapR_length _ _ _ Hci).
Qed.

(** C6: every summary table lists the group keys first, in the order the
    query or [groupby] names them, and the count last; each row holds the
    key values followed by an integer count. *)
Theorem summary_columns_keys_then_count :
  (forall keys t s,
      run_select (count_query keys) t = Ok s ->
      columns s = List.map snd keys ++ [Count]
      /\ Forall (fun r => exists k n, r = k ++ [Int n]
                   /\ length k = length keys) (rows s))
  /\ (forall know conn s,
      aggregate_sql know conn = Ok s ->
      List.map columns (tables s)
      = [[Awareness; Count]; [Awareness; know; Count];
         [Training; know; Count]; [Gender; Awareness; Count]])
  /\ (forall float chi2 fmt df s chi,
      aggregate5 float chi2 fmt df = Ok (s, chi) ->
      List.map columns (tables s)
      = [[Awareness; Count]; [Awareness; Know_Whom; Count];
         [Training; Know_Whom; Count]; [Gender; Awareness; Count]]).
Proof.
  split; [exact run_select_count_shape|]. split.
  - intros know conn s H. unfold aggregate_sql in H.
    inv_bind H as a Ha. inv_bind H as ar Har. inv_bind H as tr Htr.
    inv_bind H as ga Hga. injection H as <-.
    apply read_sql_query_Ok in Ha as (? & _ & Ha).
    apply read_sql_query_Ok in Har as (? & _ & Har).
    apply read_sql_query_Ok in Htr as (? & _ & Htr).
    apply read_sql_query_Ok in Hga as (? & _ & Hga).
    apply run_select_count_shape in Ha as [Ha _].
    apply run_select_count_shape in Har as [Har _].
    apply run_select_count_shape in Htr as [Htr _].
    apply run_select_count_shape in Hga as [Hga _].
    cbn. rewrite Ha, Har, Htr, Hga. reflexivity.
  - intros float chi2 fmt df s chi H.
    apply aggregate5_inv in H
      as (aw & ar0 & tr0 & ga0 & _ & Ha & _ & Har & _ & Htr & _ & Hga).
    apply set_columns_Ok in Ha as [Ha _].
    apply set_columns_Ok in Har as [Har _].
    apply set_columns_Ok in Htr as [Htr _].
    apply set_columns_Ok in Hga as [Hga _].
    cbn. now rewrite Ha, Har, Htr, Hga.
Qed.

Lemma summary_columns_witness :
  (exists s, aggregate_sql Know_Whom_To_Report
               (<[survey := sample_clean]> sample_conn) = Ok s
     /\ List.map columns (tables s)
        = [[Awareness; Count]; [Awareness; Know_Whom_To_Report; Count];
           [Training; Know_Whom_To_Report; Count]; [Gender; Awareness; Count]])
  /\ (exists s chi, aggregate5 Z sample_chi2 sample_fmt sample_clean
                    = Ok (s, chi)
        /\ List.map columns (tables s)
           = [[Awareness; Count]; [Awareness; Know_Whom; Count];
              [Training; Know_Whom; Count]; [Gender; Awareness; Count]]).
Proof.
  destruct summary_columns_keys_then_count as (_ & Hsql & Hpd). split.
  - eexists. split; [vm_compute; reflexivity|].
    apply (Hsql _ (<[survey := sample_clean]> sample_conn)).
    vm_compute. reflexivity.
  - do 2 eexists. split; [vm_compute; reflexivity|].
    eapply (Hpd Z sample_chi2 sample_fmt sample_clean).
    vm_compute. reflexivity.
Defined.

(** ** Persister *)

Lemma persist_eq df conn :
  persist df conn
  = if forallb valid_sqlite_name (columns df)
    then if creatable (columns df)
         then Ok (<[survey := sql_store df]> conn)
         else Raise DatabaseError
    else Raise ValueError.
Proof. reflexivity. Qed.

Lemma persist_succeeds df conn :
  forallb valid_sqlite_name (columns df) = true ->
  creatable (columns df) = true ->
  persist df conn = Ok (<[survey := sql_store df]> conn).
Proof. intros Hv Hc. rewrite persist_eq. now rewrite Hv, Hc. Qed.

Lemma persist_Ok df conn conn' :
  persist df conn = Ok conn' ->
  forallb valid_sqlite_name (columns df) = true
  /\ creatable (columns df) = true
  /\ conn' = <[survey := sql_store df]> conn.
Proof.
  rewrite persist_eq.
  destruct (forallb valid_sqlite_name (columns df)); [|discriminate].
  destruct (creatable (columns df)); [|discriminate].
  intros H. injection H as <-. auto.
Qed.

Lemma imap_Forall2 {A B : Type} (R : A -> B -> Prop) (f : nat -> A -> B)
    (l : list A) :
  (forall j a, R a (f j a)) -> List.Forall2 R l (imap f l).
Proof.
  revert f. induction l as [|a l IH]; intros f H; cbn; constructor.
  - apply H.
  - apply IH. intros j b. apply H.
Qed.

Lemma to_text_stored c : stored_as c (to_text c).
Proof. destruct c; cbn; [now left|right; eauto|now left]. Qed.

Lemma store_rows_stored (all l : list row) :
  List.Forall2 (List.Forall2 stored_as) l (List.map (store_row all) l).
Proof.
  induction l as [|r l IH]; cbn [List.map]; constructor; [|exact IH].
  apply imap_Forall2. intros j c.
  destruct (text_column j all); [apply to_text_stored|now left].
Qed.

Lemma sql_store_rows df :
  List.Forall2 (List.Forall2 stored_as) (rows df) (rows (sql_store df)).
Proof. apply store_rows_stored. Qed.

Lemma sql_store_length df : length (rows (sql_store df)) = length (rows df).
Proof. unfold sql_store. cbn [rows]. apply length_map. Qed.

Lemma imap_id_in {A : Type} (f : nat -> A -> A) (d : A) (l : list A) :
  (forall j, (j < length l)%nat -> f j (nth j l d) = nth j l d) ->
  imap f l = l.
Proof.
  revert f. induction l as [|a l IH]; intros f H; [reflexivity|].
  cbn. f_equal.
  - apply (H 0%nat). cbn. lia.
  - apply IH. intros j Hj. apply (H (S j)). cbn. lia.
Qed.

(** A table without a mixed column is stored as it is. *)
Lemma sql_store_unmixed df : unmixed df -> sql_store df = df.
Proof.
  intros Hu. destruct df as [cols rws]. unfold sql_store, unmixed in *.
  cbn [columns rows] in *. f_equal.
  transitivity (List.map (fun r : row => r) rws); [|apply map_id].
  apply map_ext_in. intros r Hr.
  unfold store_row. apply (imap_id_in _ Null). intros j _.
  destruct (text_column j rws) eqn:Et; [|reflexivity].
  specialize (Hu j Et).
  pose proof (proj1 (List.Forall_forall _ _) Hu r Hr) as Hint.
  cbn beta in Hint. destruct (nth j r Null); [reflexivity|discriminate|
                                               reflexivity].
Qed.

(** A table with no number in it has no mixed column. *)
Lemma unmixed_no_number df :
  Forall (Forall (fun c => is_int c = false)) (rows df) -> unmixed df.
Proof.
  intros H j _. apply List.Forall_forall. intros r Hr.
  pose proof (proj1 (List.Forall_forall _ _) H r Hr) as Hrow.
  destruct (Nat.lt_ge_cases j (length r)) as [Hlt|Hge].
  - apply (proj1 (List.Forall_forall _ _) Hrow). now apply nth_In.
  - now rewrite nth_overflow.
Qed.

(** C7, as stated, fails on a column that holds numbers and text: the
    store keeps the numbers of such a column as text, so the rows of the
    stored table are not those of the table in memory. *)
Lemma persist_mixed_column_as_text :
  exists conn',
    persist sample_mixed ∅ = Ok conn'
    /\ conn' !! survey
       = Some {| columns := [py "Age"];
                 rows := [[Text (py "25")]; [Text (py "25")];
                          [Text (py "7")]] |}
    /\ conn' !! survey <> Some sample_mixed.
Proof.
  eexists. split; [reflexivity|]. split.
  - rewrite lookup_insert_eq. vm_compute. reflexivity.
  - rewrite lookup_insert_eq. vm_compute. discriminate.
Qed.

(** C7, amended: the persister replaces on write.  After it has run, the
    table [survey] of the store is the in-memory table as SQLite keeps
    it, whatever the store held before: the same columns, one row for each
    row and in the same order, every cell the cell of the table or, in a
    column that holds text, the decimal text of its number; it is exactly
    the in-memory table when no column mixes text and numbers.  Other
    tables are left alone. *)
Theorem persist_replaces_table (df : DataFrame)
    (conn conn' : gmap pystr DataFrame) :
  persist df conn = Ok conn' ->
  conn' !! survey = Some (sql_store df)
  /\ columns (sql_store df) = columns df
  /\ List.Forall2 (List.Forall2 stored_as) (rows df) (rows (sql_store df))
  /\ (unmixed df -> conn' !! survey = Some df)
  /\ forall name, name <> survey -> conn' !! name = conn !! name.
Proof.
  intros H. apply persist_Ok in H as (_ & _ & ->).
  split; [apply lookup_insert_eq|]. split; [reflexivity|].
  split; [apply sql_store_rows|]. split.
  - intros Hu. rewrite lookup_insert_eq. now rewrite sql_store_unmixed.
  - intros name Hne. now apply lookup_insert_ne.
Qed.

Lemma persist_lookup (df : DataFrame)
    (conn conn' : gmap pystr DataFrame) :
  persist df conn = Ok conn' -> conn' !! survey = Some (sql_store df).
Proof.
  intros H. apply persist_Ok in H as (_ & _ & ->). apply lookup_insert_eq.
Qed.

Lemma sample_clean_unmixed : unmixed sample_clean.
Proof.
  apply unmixed_no_number. cbn [rows sample_clean sample_table].
  repeat constructor.
Qed.

Lemma persist_replaces_table_witness :
  exists conn',
    persist sample_clean sample_conn = Ok conn'
    /\ conn' !! survey = Some sample_clean.
Proof.
  destruct (persist sample_clean sample_conn) as [conn'|] eqn:H;
    [|vm_compute in H; discriminate H].
  exists conn'. split; [reflexivity|].
  exact (proj1 (proj2 (proj2 (proj2 (persist_replaces_table _ _ _ H))))
               sample_clean_unmixed).
Defined.

(** ** Loader *)

Lemma rename_text clean names rws :
  rename clean {| headers := List.map HText names; body := rws |}
  = Ok {| columns := List.map clean names; rows := rws |}.
Proof.
  unfold rename. cbn [headers body]. rewrite mapR_map. cbn [clean_header].
  assert (E : mapR (fun a => Ok (clean a)) names = Ok (List.map clean names)).
  { induction names as [|n names IH]; [reflexivity|].
    cbn [mapR List.map]. now rewrite IH. }
  now rewrite E.
Qed.

Lemma rename_sheet_of clean df :
  rename clean (sheet_of df)
  = Ok {| columns := List.map clean (columns df); rows := rows df |}.
Proof. apply rename_text. Qed.

Lemma clean_headers_cases clean (hs : list header) :
  (exists names, hs = List.map HText names
     /\ mapR (clean_header clean) hs = Ok (List.map clean names))
  \/ ((exists n, In (HNumber n) hs)
      /\ mapR (clean_header clean) hs = Raise AttributeError).
Proof.
  induction hs as [|h hs IH].
  - left. exists []. auto.
  - destruct h as [s|n].
    + destruct IH as [(names & -> & E)|[(n & Hn) E]].
      * left. exists (s :: names). split; [reflexivity|].
        cbn [mapR clean_header]. rewrite bind_ret_l.
        change (mapR (clean_header clean) (List.map HText names))
          with (mapR (clean_header clean) (List.map HText names)).
        rewrite E. reflexivity.
      * right. split; [exists n; now right|].
        cbn [mapR clean_header]. rewrite bind_ret_l. now rewrite E.
    + right. split; [exists n; now left|reflexivity].
Qed.

Lemma rename_cases clean sheet :
  (exists names, headers sheet = List.map HText names
     /\ rename clean sheet
        = Ok {| columns := List.map clean names; rows := body sheet |})
  \/ ((exists n, In (HNumber n) (headers sheet))
      /\ rename clean sheet = Raise AttributeError).
Proof.
  unfold rename.
  destruct (clean_headers_cases clean (headers sheet))
    as [(names & Hn & ->)|[Hn ->]]; [left|right]; eauto.
Qed.

Lemma load_eq rw clean fs path :
  load rw clean fs path
  = match fs !! path with
    | None => Raise FileNotFoundError
    | Some bytes =>
        match rw bytes with
        | None => Raise ParseError
        | Some sheet => rename clean sheet
        end
    end.
Proof.
  unfold load, read_excel. destruct (fs !! path) as [bytes|]; cbn;
    [|reflexivity].
  now destruct (rw bytes).
Qed.

Lemma HText_not_number names n : ~ In (HNumber n) (List.map HText names).
Proof.
  intros H. apply in_map_iff in H as (s & E & _). discriminate E.
Qed.

(** C8, as stated, fails: a file that is there and is a spreadsheet, but
    has a number in a header cell, is neither loaded nor rejected with one
    of the two errors; cleaning the names stops with [AttributeError]. *)
Lemma loader_numeric_header :
  sample_fs !! py "data.xlsx" = Some ["P"; "K"]%byte
  /\ sample_numeric_reader ["P"; "K"]%byte = Some sample_numeric_header
  /\ load sample_numeric_reader clean_column sample_fs (py "data.xlsx")
     = Raise AttributeError
  /\ load sample_numeric_reader clean_column5 sample_fs (py "data.xlsx")
     = Raise AttributeError.
Proof. repeat split; vm_compute; reflexivity. Qed.

(** C8, amended: the loader raises [FileNotFoundError] exactly when
    nothing is at the path, a parse error exactly when the file there is
    not a spreadsheet the reader accepts, and [AttributeError] exactly when
    the sheet read has a header that is not text; otherwise it returns the
    table, with the column names cleaned.  It raises nothing else. *)
Theorem loader_outcomes (rw : list byte -> option Sheet)
    (clean : pystr -> pystr) (fs : gmap pystr (list byte)) (path : pystr) :
  (load rw clean fs path = Raise FileNotFoundError <-> fs !! path = None)
  /\ (load rw clean fs path = Raise ParseError
      <-> exists bytes, fs !! path = Some bytes /\ rw bytes = None)
  /\ (load rw clean fs path = Raise AttributeError
      <-> exists bytes sheet n,
            fs !! path = Some bytes /\ rw bytes = Some sheet
            /\ In (HNumber n) (headers sheet))
  /\ (forall bytes sheet names,
        fs !! path = Some bytes -> rw bytes = Some sheet ->
        headers sheet = List.map HText names ->
        load rw clean fs path
        = Ok {| columns := List.map clean names; rows := body sheet |})
  /\ (forall e, load rw clean fs path = Raise e ->
        e = FileNotFoundError \/ e = ParseError \/ e = AttributeError).
Proof.
  rewrite load_eq. destruct (fs !! path) as [bytes|] eqn:Ef.
  - destruct (rw bytes) as [sheet|] eqn:Er.
    + destruct (rename_cases clean sheet)
        as [(names & Hn & ->)|[(n & Hn) ->]].
      * repeat split; try discriminate.
        -- intros (b & Hb & Hr). congruence.
        -- intros (b & sh & n & Hb & Hsh & Hin).
           assert (sh = sheet) by congruence. subst sh.
           rewrite Hn in Hin. now apply HText_not_number in Hin.
        -- intros b sh names' Hb Hsh Hnames.
           assert (sh = sheet) by congruence. subst sh.
           rewrite Hn in Hnames.
           assert (names = names').
           { clear -Hnames. revert names' Hnames.
             induction names as [|x names IH]; intros [|y names'] H;
               try discriminate; [reflexivity|].
             injection H as -> H. f_equal. now apply IH. }
           now subst names'.
      * repeat split; try discriminate.
        -- intros (b & Hb & Hr). congruence.
        -- intros _. exists bytes, sheet, n. auto.
        -- intros b sh names Hb Hsh Hnames.
           assert (sh = sheet) by congruence. subst sh.
           rewrite Hnames in Hn. now apply HText_not_number in Hn.
        -- intros e He. injection He as <-. auto.
    + repeat split; try discriminate.
      * intros _. eauto.
      * intros (b & sh & n & Hb & Hsh & _). congruence.
      * intros b sh names Hb Hsh. congruence.
      * intros e He. injection He as <-. auto.
  - repeat split; try discriminate; try reflexivity.
    + intros (b & Hb & _). discriminate.
    + intros (b & sh & n & Hb & _). discriminate.
    + intros e He. injection He as <-. auto.
Qed.

Lemma loader_outcomes_witness :
  load sample_reader clean_column sample_fs (py "missing.xlsx")
    = Raise FileNotFoundError
  /\ load sample_reader clean_column (<[py "data.xlsx" := []]> sample_fs)
          (py "data.xlsx") = Raise ParseError
  /\ load sample_numeric_reader clean_column sample_fs (py "data.xlsx")
     = Raise AttributeError
  /\ load sample_reader clean_column sample_fs (py "data.xlsx")
     = Ok sample_clean.
Proof.
  split; [|split; [|split]].
  - apply (loader_outcomes sample_reader clean_column sample_fs
             (py "missing.xlsx")).
    vm_compute. reflexivity.
  - apply (loader_outcomes sample_reader clean_column
             (<[py "data.xlsx" := []]> sample_fs) (py "data.xlsx")).
    exists []. split; vm_compute; reflexivity.
  - apply (loader_outcomes sample_numeric_reader clean_column sample_fs
             (py "data.xlsx")).
    exists ["P"; "K"]%byte, sample_numeric_header, 2024%Z.
    split; [vm_compute; reflexivity|]. split; [reflexivity|].
    right. now left.
  - apply (proj1 (proj2 (proj2 (proj2
             (loader_outcomes sample_reader clean_column sample_fs
                (py "data.xlsx")))))
           ["P"; "K"]%byte (sheet_of sample_table)
           (columns sample_table));
      [vm_compute; reflexivity|reflexivity|reflexivity].
Defined.

(** ** The embedded dataset *)

Lemma embed_dataset_eq ww df embed fs :
  embed_dataset ww df embed fs
  = Ok (<[embed := ww df]> fs, b64encode (ww df)).
Proof.
  unfold embed_dataset, read_bytes, to_excel.
  now rewrite lookup_insert_eq.
Qed.

(** C9: the attachment round-trips.  Writing the cleaned table, reading
    the file back and encoding it never fails; the link of the report is
    the data URL of the spreadsheet type followed by the encoded text, and
    decoding the text put after [base64,] gives back exactly the bytes of
    the file written to disk. *)
Theorem embedded_dataset_roundtrip :
  (forall ww df embed fs,
      exists fs' encoded,
        embed_dataset ww df embed fs = Ok (fs', encoded)
        /\ fs' !! embed = Some (ww df)
        /\ b64decode encoded = Some (ww df))
  /\ (forall rw ww path embed fs conn r,
      run3 rw ww path embed fs conn = Ok r ->
      exists df encoded,
        load rw clean_column fs path = Ok df
        /\ run_href r
           = Some (py "data:application/vnd.openxmlformats-officedocument.spreadsheetml.sheet;base64,"
                   ++ encoded)
        /\ run_fs r !! embed = Some (ww df)
        /\ b64decode encoded = Some (ww df))
  /\ (forall rw ww float chi2 fmt path embed fs conn r,
      run5 rw ww float chi2 fmt path embed fs conn = Ok r ->
      exists df encoded,
        load rw clean_column5 fs path = Ok df
        /\ run_href r
           = Some (py "data:application/vnd.openxmlformats-officedocument.spreadsheetml.sheet;base64,"
                   ++ encoded)
        /\ run_fs r !! embed = Some (ww df)
        /\ b64decode encoded = Some (ww df)).
Proof.
  split; [|split].
  - intros ww df embed fs. rewrite embed_dataset_eq. eexists _, _.
    split; [reflexivity|]. split.
    + apply lookup_insert_eq.
    + apply b64decode_b64encode.
  - intros rw ww path embed fs conn r H. unfold run3 in H.
    inv_bind H as df Hdf. rewrite embed_dataset_eq, bind_ret_l in H.
    cbv beta iota in H.
    inv_bind H as conn' Hc. inv_bind H as s Hs. inv_bind H as u Hu.
    inv_bind H as counts Hn.
    inv_bind H as pct Hp. injection H as <-. cbn [run_href run_fs].
    exists df, (b64encode (ww df)).
    split; [assumption|]. split; [reflexivity|].
    split; [apply lookup_insert_eq|apply b64decode_b64encode].
  - intros rw ww float chi2 fmt path embed fs conn r H. unfold run5 in H.
    inv_bind H as df Hdf. rewrite embed_dataset_eq, bind_ret_l in H.
    cbv beta iota in H.
    inv_bind H as conn' Hc. inv_bind H as sc Hs. destruct sc as [s chi].
    inv_bind H as yp Hp. destruct yp as [yes pct]. injection H as <-.
    cbn [run_href run_fs].
    exists df, (b64encode (ww df)).
    split; [assumption|]. split; [reflexivity|].
    split; [apply lookup_insert_eq|apply b64decode_b64encode].
Qed.

Lemma embedded_dataset_roundtrip_witness :
  exists r encoded,
    run5 sample_reader sample_writer Z sample_chi2 sample_fmt
         (py "data.xlsx") (py "survey_data.xlsx") sample_fs sample_conn = Ok r
    /\ run_href r
       = Some (py "data:application/vnd.openxmlformats-officedocument.spreadsheetml.sheet;base64,"
               ++ encoded)
    /\ run_fs r !! py "survey_data.xlsx" = Some (sample_writer sample_clean)
    /\ b64decode encoded = Some (sample_writer sample_clean).
Proof.
  destruct embedded_dataset_roundtrip as (_ & _ & H5).
  assert (Hrun : exists r,
    run5 sample_reader sample_writer Z sample_chi2 sample_fmt
         (py "data.xlsx") (py "survey_data.xlsx") sample_fs sample_conn = Ok r).
  { eexists. vm_compute. reflexivity. }
  destruct Hrun as [r Hr].
  destruct (H5 _ _ _ _ _ _ _ _ _ _ Hr) as (df & encoded & Hl & Hh & Hf & Hd).
  exists r, encoded. repeat split; assumption.
Defined.

(** ** Determinism of the aggregation *)

Lemma load_same_file rw clean fs1 fs2 path :
  fs1 !! path = fs2 !! path ->
  load rw clean fs1 path = load rw clean fs2 path.
Proof. intros H. now rewrite !load_eq, H. Qed.

Lemma read_sql_query_insert (q : select_stmt) (df : DataFrame)
    (conn : gmap pystr DataFrame) :
  sel_from q = survey ->
  read_sql_query q (<[survey := df]> conn) = run_select q df.
Proof.
  intros H. unfold read_sql_query. rewrite H, lookup_insert_eq. reflexivity.
Qed.

Lemma aggregate_sql_insert (know : pystr) (df : DataFrame)
    (conn1 conn2 : gmap pystr DataFrame) :
  aggregate_sql know (<[survey := df]> conn1)
  = aggregate_sql know (<[survey := df]> conn2).
Proof.
  unfold aggregate_sql. now rewrite !read_sql_query_insert.
Qed.

(** What follows the persister depends on the table only. *)
Lemma persist_then {A : Type} (df : DataFrame) (conn1 conn2 : gmap pystr DataFrame)
    (k1 k2 : gmap pystr DataFrame -> result A) :
  (forall c1 c2,
     k1 (<[survey := sql_store df]> c1) = k2 (<[survey := sql_store df]> c2)) ->
  persist df conn1 ≫= k1 = persist df conn2 ≫= k2.
Proof.
  intros Hk. rewrite !persist_eq.
  destruct (forallb valid_sqlite_name (columns df)); [|reflexivity].
  destruct (creatable (columns df)); [|reflexivity].
  apply Hk.
Qed.

Lemma fmap_bind {A B C} (f : B -> C) (m : result A) (k : A -> result B) :
  f <$> (m ≫= k) = m ≫= (fun a => f <$> k a).
Proof. now destruct m. Qed.

Lemma bind_ext {A B} (m : result A) (k1 k2 : A -> result B) :
  (forall a, k1 a = k2 a) -> m ≫= k1 = m ≫= k2.
Proof. intros H. destruct m; [apply H|reflexivity]. Qed.

(** C5: the summary tables are a function of the input file alone.  Two
    runs that find the same spreadsheet at the input path produce the same
    four summary tables, rows and row order included (or stop with the
    same exception), whatever else is on disk and whatever the store held
    before each run. *)
Theorem same_input_same_summaries
    (rw : list byte -> option Sheet) (ww : DataFrame -> list byte)
    (float : Type) (chi2 : list (list Z) -> float * float * Z)
    (fmt : nat -> float -> pystr) (path embed : pystr)
    (fs1 fs2 : gmap pystr (list byte)) (conn1 conn2 : gmap pystr DataFrame) :
  fs1 !! path = fs2 !! path ->
  run_tables <$> run_sql rw path fs1 conn1
    = run_tables <$> run_sql rw path fs2 conn2
  /\ run_tables <$> run3 rw ww path embed fs1 conn1
    = run_tables <$> run3 rw ww path embed fs2 conn2
  /\ run_tables <$> run5 rw ww float chi2 fmt path embed fs1 conn1
    = run_tables <$> run5 rw ww float chi2 fmt path embed fs2 conn2.
Proof.
  intros Hfs. repeat split.
  - unfold run_sql. rewrite (load_same_file _ _ _ _ _ Hfs).
    rewrite !fmap_bind. apply bind_ext. intros df.
    rewrite !fmap_bind. apply persist_then. intros c1 c2.
    rewrite !fmap_bind, (aggregate_sql_insert _ _ c1 c2).
    apply bind_ext. intros s. rewrite !fmap_bind. apply bind_ext.
    intros u. rewrite ?fmap_bind. apply bind_ext.
    intros pct. reflexivity.
  - unfold run3. rewrite (load_same_file _ _ _ _ _ Hfs).
    rewrite !fmap_bind. apply bind_ext. intros df.
    rewrite !embed_dataset_eq, !bind_ret_l. cbv beta iota.
    rewrite !fmap_bind. apply persist_then. intros c1 c2.
    rewrite !fmap_bind, (aggregate_sql_insert _ _ c1 c2).
    apply bind_ext. intros s. rewrite !fmap_bind. apply bind_ext.
    intros u. rewrite ?fmap_bind. apply bind_ext.
    intros counts. rewrite ?fmap_bind. apply bind_ext.
    intros pct. reflexivity.
  - unfold run5. rewrite (load_same_file _ _ _ _ _ Hfs).
    rewrite !fmap_bind. apply bind_ext. intros df.
    rewrite !embed_dataset_eq, !bind_ret_l. cbv beta iota.
    rewrite !fmap_bind. apply persist_then. intros c1 c2.
    rewrite !fmap_bind. apply bind_ext. intros [s chi].
    rewrite !fmap_bind. apply bind_ext. intros [yes pct]. reflexivity.
Qed.

Lemma same_input_same_summaries_witness :
  sample_fs !! py "data.xlsx" = sample_fs_after !! py "data.xlsx"
  /\ run_tables <$> run_sql sample_reader (py "data.xlsx") sample_fs ∅
     = run_tables <$> run_sql sample_reader (py "data.xlsx") sample_fs_after
                        (<[survey := sample_clean]> sample_conn)
  /\ run_tables <$> run3 sample_reader sample_writer (py "data.xlsx")
                      (py "survey_data.xlsx") sample_fs ∅
     = run_tables <$> run3 sample_reader sample_writer (py "data.xlsx")
                        (py "survey_data.xlsx") sample_fs_after
                        (<[survey := sample_clean]> sample_conn)
  /\ run_tables <$> run5 sample_reader sample_writer Z sample_chi2 sample_fmt
                      (py "data.xlsx") (py "survey_data.xlsx") sample_fs ∅
     = run_tables <$> run5 sample_reader sample_writer Z sample_chi2
                        sample_fmt (py "data.xlsx") (py "survey_data.xlsx")
                        sample_fs_after
                        (<[survey := sample_clean]> sample_conn).
Proof.
  assert (H : sample_fs !! py "data.xlsx" = sample_fs_after !! py "data.xlsx")
    by (vm_compute; reflexivity).
  split; [exact H|].
  exact (same_input_same_summaries sample_reader sample_writer Z sample_chi2
           sample_fmt (py "data.xlsx") (py "survey_data.xlsx")
           sample_fs sample_fs_after ∅
           (<[survey := sample_clean]> sample_conn) H).
Defined.

(** ** The awareness figure: no [Yes] row *)

Lemma getitem_eq d col j :
  index_of col (columns d) = Some j ->
  getitem d col = Ok (List.map (fun r => nth j r Null) (rows d)).
Proof. unfold getitem. now intros ->. Qed.

Lemma select_eq_eq d col v i :
  index_of col (columns d) = Some i ->
  select_eq d col v
  = Ok {| columns := columns d;
          rows := List.filter (fun r => bool_decide (nth i r Null = Text v))
                              (rows d) |}.
Proof. unfold select_eq. now intros ->. Qed.

(** C10: when no row of the awareness summary has the exact value [Yes],
    selecting the first count of the empty selection raises [IndexError];
    no percentage is produced, in the SQL scripts and in
    data_analytics5.py alike. *)
Theorem no_yes_row_raises_IndexError (a df : DataFrame) (i j : nat) :
  index_of Awareness (columns a) = Some i ->
  index_of Count (columns a) = Some j ->
  (forall r, In r (rows a) -> nth i r Null <> Text Yes) ->
  yes_count a = Raise IndexError
  /\ awareness_pct a = Raise IndexError
  /\ awareness_pct5 df a = Raise IndexError.
Proof.
  intros Hi Hj Hno.
  assert (Hsel : List.filter
            (fun r => bool_decide (nth i r Null = Text Yes)) (rows a) = []).
  { induction (rows a) as [|r l IH]; [reflexivity|]. cbn [List.filter].
    rewrite bool_decide_false by (apply Hno; now left).
    apply IH. intros r' Hr'. apply Hno. now right. }
  assert (Hy : yes_count a = Raise IndexError).
  { unfold yes_count. rewrite (select_eq_eq _ _ _ _ Hi), bind_ret_l.
    rewrite (getitem_eq _ _ j) by exact Hj. rewrite bind_ret_l.
    cbn [rows]. rewrite Hsel. reflexivity. }
  repeat split; [assumption| |].
  - unfold awareness_pct. rewrite (getitem_eq _ _ _ Hj), bind_ret_l.
    now rewrite Hy.
  - unfold awareness_pct5. now rewrite Hy.
Qed.

Lemma no_yes_row_witness :
  exists a,
    run_select q_awareness sample_no_yes_clean = Ok a
    /\ awareness_pct a = Raise IndexError
    /\ run_sql sample_no_yes_reader (py "data.xlsx") sample_no_yes_fs ∅
       = Raise IndexError.
Proof.
  eexists. split; [vm_compute; reflexivity|]. split.
  - refine (proj1 (proj2 (no_yes_row_raises_IndexError _ sample_no_yes
                            0%nat 1%nat _ _ _))).
    + vm_compute. reflexivity.
    + vm_compute. reflexivity.
    + intros r Hr. vm_compute in Hr.
      destruct Hr as [<-|[<-|[]]]; vm_compute; discriminate.
  - vm_compute. reflexivity.
Defined.

(** ** The association test *)

Lemma insert_distinct_nonempty v l : insert_distinct v l <> [].
Proof.
  destruct l as [|x l]; simpl; [discriminate|].
  destruct (cell_compare v x); discriminate.
Qed.

Lemma distinct_sorted_nil l : distinct_sorted l = [] <-> l = [].
Proof.
  split; [|now intros ->].
  unfold distinct_sorted. destruct l as [|v l]; [reflexivity|].
  cbn [fold_left]. intros H. exfalso.
  assert (Hne : insert_distinct v [] <> []) by apply insert_distinct_nonempty.
  revert H Hne. generalize (insert_distinct v []).
  induction l as [|x l IH]; cbn [fold_left]; intros acc H Hne;
    [contradiction|].
  apply (IH _ H), insert_distinct_nonempty.
Qed.

(** The table is empty exactly when no row has both answers. *)
Lemma ct_empty_iff a b :
  ct_empty (crosstab a b) = true
  <-> List.filter both_present (combine a b) = [].
Proof.
  unfold ct_empty, crosstab. cbn [ct_index ct_columns].
  set (pairs := List.filter both_present (combine a b)).
  rewrite orb_true_iff, !Nat.eqb_eq, !length_zero_iff_nil,
    !distinct_sorted_nil.
  destruct pairs; simpl; intuition discriminate.
Qed.

(** C3, as stated, fails: with a single respondent the contingency table
    has one row and one column, yet it is not empty, so the test goes on to
    the chi-square routine and returns a numeric p-value. *)
Lemma chi_square_one_cell_not_sentinel :
  ~ (forall (float : Type) (chi2 : list (list Z) -> float * float * Z)
            (fmt : nat -> float -> pystr) (df : DataFrame)
            (col1 col2 : pystr) (a b : list cell),
        getitem df col1 = Ok a -> getitem df col2 = Ok b ->
        (length (ct_index (crosstab a b)) < 2
         \/ length (ct_columns (crosstab a b)) < 2)%nat ->
        chi_square_test float chi2 fmt df col1 col2
        = Ok (no_data_message col1 col2, None)).
Proof.
  intros H.
  specialize (H Z sample_chi2 sample_fmt sample_single AWARE REPORT
                [Text Yes] [Text Yes] eq_refl eq_refl).
  assert (Hlt : (length (ct_index (crosstab [Text Yes] [Text Yes])) < 2
                 \/ length (ct_columns (crosstab [Text Yes] [Text Yes])) < 2)%nat)
    by (left; vm_compute; lia).
  specialize (H Hlt). vm_compute in H. discriminate H.
Qed.

(** C3, amended: the test returns the no-data message and no p-value
    exactly when the contingency table is empty, that is when no row has
    both answers present; on any other table, also one with a single row or
    column of categories, it hands the table to the chi-square routine and
    returns the message made of the routine's statistic, p-value and
    degrees of freedom, together with that p-value. *)
Theorem chi_square_no_data_iff_empty
    (float : Type) (chi2 : list (list Z) -> float * float * Z)
    (fmt : nat -> float -> pystr) (df : DataFrame) (col1 col2 : pystr)
    (a b : list cell) :
  getitem df col1 = Ok a ->
  getitem df col2 = Ok b ->
  (List.filter both_present (combine a b) = [] ->
     chi_square_test float chi2 fmt df col1 col2
     = Ok (no_data_message col1 col2, None))
  /\ (List.filter both_present (combine a b) <> [] ->
      forall c p dof,
        chi2 (ct_table (crosstab a b)) = (c, p, dof) ->
        chi_square_test float chi2 fmt df col1 col2
        = Ok (stat_message float fmt col1 col2 c p dof, Some p)).
Proof.
  intros Ha Hb. unfold chi_square_test. rewrite Ha, Hb, !bind_ret_l.
  cbv zeta. destruct (ct_empty (crosstab a b)) eqn:E.
  - apply ct_empty_iff in E. split; [reflexivity|contradiction].
  - split.
    + intros H. apply ct_empty_iff in H. congruence.
    + intros _ c p dof ->. reflexivity.
Qed.

Lemma chi_square_no_data_witness :
  chi_square_test Z sample_chi2 sample_fmt sample_disjoint AWARE REPORT
  = Ok (no_data_message AWARE REPORT, None)
  /\ chi_square_test Z sample_chi2 sample_fmt sample_single AWARE REPORT
     = Ok (stat_message Z sample_fmt AWARE REPORT 0%Z 1%Z 0%Z, Some 1%Z).
Proof.
  split.
  - refine (proj1 (chi_square_no_data_iff_empty Z sample_chi2 sample_fmt
                     sample_disjoint AWARE REPORT [Text Yes; Null] [Null; Text No]
                     eq_refl eq_refl) eq_refl).
  - refine (proj2 (chi_square_no_data_iff_empty Z sample_chi2 sample_fmt
                     sample_single AWARE REPORT [Text Yes] [Text Yes]
                     eq_refl eq_refl) _ 0%Z 1%Z 0%Z eq_refl).
    vm_compute. discriminate.
Defined.

(** ** Double-precision arithmetic

    Every operation is within one part in [2 ^ 53] of the exact result;
    counts below [2 ^ 53] convert exactly. *)

Local Open Scope Z_scope.

Lemma round_half_even_Z n d :
  0 < d -> 2 * Z.abs (round_half_even n d * d - n) <= d.
Proof.
  intros Hd. unfold round_half_even.
  pose proof (Z.div_mod n d ltac:(lia)) as E.
  pose proof (Z.mod_pos_bound n d Hd) as B.
  destruct (Z.compare_spec (2 * (n mod d)) d) as [H|H|H].
  - destruct (Z.even (n / d)); nia.
  - nia.
  - nia.
Qed.

Lemma IZR_pow2 z : 0 <= z -> IZR (2 ^ z) = powerRZ 2 z.
Proof.
  intros Hz. rewrite <- (Z2Nat.id z Hz) at 1. rewrite <- pow_IZR.
  rewrite <- (Z2Nat.id z Hz) at 2. now rewrite <- pow_powerRZ.
Qed.

Lemma powerRZ2_pos z : (0 < powerRZ 2 z)%R.
Proof. apply powerRZ_lt. lra. Qed.

Lemma IZR_scale_up x e :
  IZR (scale_up x e) = (IZR x * powerRZ 2 (Z.max 0 e))%R.
Proof. unfold scale_up. rewrite mult_IZR, IZR_pow2 by lia. reflexivity. Qed.

Lemma scale_ratio a b e :
  b <> 0 ->
  (IZR (scale_up a e) / IZR (scale_up b (- e)) = IZR a / IZR b * powerRZ 2 e)%R.
Proof.
  intros Hb. rewrite !IZR_scale_up.
  assert (Hb' : IZR b <> 0%R) by (now apply not_0_IZR).
  pose proof (powerRZ2_pos (Z.max 0 (- e))) as Hp.
  replace e with (Z.max 0 e - Z.max 0 (- e)) at 3 by lia.
  unfold Zminus. rewrite powerRZ_add by lra. rewrite powerRZ_neg' by lra.
  field. split; lra.
Qed.

Lemma Rabs_le_between x y : (Rabs x <= y -> - y <= x <= y)%R.
Proof. unfold Rabs. destruct (Rcase_abs x); lra. Qed.

Lemma round_half_even_R n d :
  0 < d ->
  (Rabs (IZR (round_half_even n d) - IZR n / IZR d) <= / 2)%R.
Proof.
  intros Hd. pose proof (round_half_even_Z n d Hd) as H.
  set (m := round_half_even n d) in *.
  assert (H1 : - d <= 2 * (m * d - n)) by lia.
  assert (H2 : 2 * (m * d - n) <= d) by lia.
  apply IZR_le in H1, H2.
  rewrite opp_IZR in H1. rewrite !mult_IZR, minus_IZR, mult_IZR in H1, H2.
  assert (Hd' : (0 < IZR d)%R) by (now apply IZR_lt).
  assert (E : (IZR n = IZR n / IZR d * IZR d)%R) by (field; lra).
  set (x := (IZR n / IZR d)%R) in *. clearbody x.
  apply Rabs_le. split; nra.
Qed.

Lemma floor_log2_ratio n d :
  0 < n -> 0 < d ->
  let k := Z.log2 n - Z.log2 d in
  let fl := if scale_up d k <=? scale_up n (- k) then k else k - 1 in
  (powerRZ 2 fl <= IZR n / IZR d)%R.
Proof.
  intros Hn Hd k fl.
  assert (Hn' : (0 < IZR n)%R) by (now apply IZR_lt).
  assert (Hd' : (0 < IZR d)%R) by (now apply IZR_lt).
  subst fl. destruct (Z.leb_spec (scale_up d k) (scale_up n (- k))) as [H|H].
  - apply IZR_le in H. rewrite !IZR_scale_up in H.
    pose proof (powerRZ2_pos (Z.max 0 k)) as P1.
    pose proof (powerRZ2_pos (Z.max 0 (- k))) as P2.
    replace k with (Z.max 0 k - Z.max 0 (- k)) at 1 by lia.
    unfold Zminus. rewrite powerRZ_add, powerRZ_neg' by lra.
    apply (Rmult_le_reg_r (IZR d * powerRZ 2 (Z.max 0 (- k)))); [nra|].
    field_simplify; [|lra|lra]. nra.
  - destruct (Z.log2_spec n Hn) as [L1 _].
    destruct (Z.log2_spec d Hd) as [_ L2].
    apply IZR_le in L1. apply IZR_lt in L2.
    rewrite IZR_pow2 in L1 by apply Z.log2_nonneg.
    rewrite IZR_pow2 in L2 by (pose proof (Z.log2_nonneg d); lia).
    replace (k - 1) with (Z.log2 n + - Z.succ (Z.log2 d)) by (subst k; lia).
    rewrite powerRZ_add, powerRZ_neg' by lra.
    pose proof (powerRZ2_pos (Z.succ (Z.log2 d))) as P1.
    pose proof (powerRZ2_pos (Z.log2 n)) as P2.
    apply (Rmult_le_reg_r (IZR d * powerRZ 2 (Z.succ (Z.log2 d)))); [nra|].
    field_simplify; [|lra|lra]. nra.
Qed.

Lemma round_ratio_R n d :
  0 < n -> 0 < d ->
  (Rabs (F2R (round_ratio n d) - IZR n / IZR d)
   <= IZR n / IZR d * powerRZ 2 (-53))%R.
Proof.
  intros Hn Hd. unfold round_ratio.
  destruct (Z.leb_spec n 0) as [?|_]; [lia|].
  pose proof (floor_log2_ratio n d Hn Hd) as Hfl. cbv zeta in Hfl |- *.
  set (fl := if _ <=? _ then _ else _) in *. clearbody fl.
  unfold F2R. cbn [mant expo].
  set (e := fl - 52).
  assert (Hd' : (0 < IZR d)%R) by (now apply IZR_lt).
  assert (Hn' : (0 < IZR n)%R) by (now apply IZR_lt).
  assert (HB : 0 < scale_up d e) by (unfold scale_up; nia).
  pose proof (round_half_even_R (scale_up n (- e)) (scale_up d e) HB) as Hr.
  replace (scale_up d e) with (scale_up d (- - e)) in Hr at 2
    by (now rewrite Z.opp_involutive).
  rewrite scale_ratio in Hr by lia.
  set (m := IZR (round_half_even _ _)) in *. clearbody m.
  pose proof (powerRZ2_pos e) as Pe.
  assert (Ee : (powerRZ 2 (- e) = / powerRZ 2 e)%R)
    by (apply powerRZ_neg'; lra).
  rewrite Ee in Hr.
  assert (Efl : (powerRZ 2 fl = powerRZ 2 e * 2 ^ 52)%R).
  { replace fl with (e + 52) by (subst e; lia).
    rewrite powerRZ_add by lra. f_equal. }
  assert (E53 : (powerRZ 2 (-53) = / 2 ^ 53)%R) by reflexivity.
  rewrite E53. rewrite Efl in Hfl.
  set (q := (IZR n / IZR d)%R) in *. clearbody q.
  set (p := powerRZ 2 e) in *. clearbody p.
  apply Rabs_le. apply Rabs_le_between in Hr.
  assert (Hq : (q * / p * p = q)%R) by (field; lra).
  split.
  - apply (Rmult_le_reg_r (2 ^ 53)); [lra|]. 
    replace (- (q * / 2 ^ 53) * 2 ^ 53)%R with (- q)%R by (field; lra).
    nra.
  - apply (Rmult_le_reg_r (2 ^ 53)); [lra|].
    replace (q * / 2 ^ 53 * 2 ^ 53)%R with q by (field; lra).
    nra.
Qed.

Lemma round_ratio_mant_pos n d :
  0 < n -> 0 < d -> 0 < mant (round_ratio n d).
Proof.
  intros Hn Hd.
  pose proof (round_ratio_R n d Hn Hd) as H.
  assert (Hd' : (0 < IZR d)%R) by (now apply IZR_lt).
  assert (Hn' : (0 < IZR n)%R) by (now apply IZR_lt).
  assert (Hq : (0 < IZR n / IZR d)%R) by (now apply Rdiv_lt_0_compat).
  apply Rabs_le_between in H.
  assert (E53 : (powerRZ 2 (-53) = / 2 ^ 53)%R) by reflexivity.
  rewrite E53 in H. unfold F2R in H.
  pose proof (powerRZ2_pos (expo (round_ratio n d))) as P.
  apply lt_IZR.
  set (q := (IZR n / IZR d)%R) in *. clearbody q.
  set (p := powerRZ 2 _) in *. clearbody p.
  set (m := IZR (mant _)) in *. clearbody m.
  assert (Hlow : (0 < m * p)%R) by (destruct H as [H _]; nra).
  nra.
Qed.

Lemma round_half_even_unit x : round_half_even x 1 = x.
Proof.
  unfold round_half_even. rewrite Z.mod_1_r, Z.div_1_r. reflexivity.
Qed.

Lemma float_of_int_exact n :
  0 < n < 2 ^ 53 -> F2R (float_of_int n) = IZR n.
Proof.
  intros [Hn Hb]. unfold float_of_int, round_ratio.
  destruct (Z.leb_spec n 0) as [?|_]; [lia|].
  change (Z.log2 1) with 0. rewrite Z.sub_0_r.
  assert (Hk : 0 <= Z.log2 n <= 52).
  { split; [apply Z.log2_nonneg|].
    assert (Z.log2 n < 53) by (apply Z.log2_lt_pow2; lia). lia. }
  destruct (Z.log2_spec n Hn) as [L1 _].
  destruct (Z.leb_spec (scale_up 1 (Z.log2 n)) (scale_up n (- Z.log2 n)))
    as [_|H].
  - cbv zeta. unfold F2R. cbn [mant expo].
    set (e := Z.log2 n - 52).
    replace (scale_up 1 e) with 1
      by (unfold scale_up; rewrite Z.max_l by lia; reflexivity).
    rewrite round_half_even_unit, IZR_scale_up.
    rewrite Z.max_r by lia. rewrite Rmult_assoc, <- powerRZ_add by lra.
    replace (- e + e) with 0 by lia. simpl. lra.
  - exfalso. unfold scale_up in H.
    rewrite (Z.max_r 0 (Z.log2 n)), (Z.max_l 0 (- Z.log2 n)) in H by lia.
    change (2 ^ 0) with 1 in H. lia.
Qed.

Lemma fdiv_R x y :
  0 < mant x -> 0 < mant y ->
  (Rabs (F2R (fdiv x y) - F2R x / F2R y)
   <= F2R x / F2R y * powerRZ 2 (-53))%R
  /\ 0 < mant (fdiv x y).
Proof.
  intros Hx Hy. unfold fdiv.
  set (e := expo x - expo y).
  replace (expo y - expo x) with (- e) by (subst e; lia).
  assert (Hn : 0 < scale_up (mant x) e) by (unfold scale_up; nia).
  assert (Hd : 0 < scale_up (mant y) (- e)) by (unfold scale_up; nia).
  split; [|now apply round_ratio_mant_pos].
  pose proof (round_ratio_R _ _ Hn Hd) as H.
  rewrite scale_ratio in H by lia.
  replace (F2R x / F2R y)%R
    with (IZR (mant x) / IZR (mant y) * powerRZ 2 e)%R; [exact H|].
  unfold F2R, e. unfold Zminus. rewrite powerRZ_add, powerRZ_neg' by lra.
  pose proof (powerRZ2_pos (expo y)).
  assert (0 < IZR (mant y))%R by (now apply IZR_lt).
  field. split; lra.
Qed.

Lemma fmul_R x y :
  0 < mant x -> 0 < mant y ->
  (Rabs (F2R (fmul x y) - F2R x * F2R y)
   <= F2R x * F2R y * powerRZ 2 (-53))%R
  /\ 0 < mant (fmul x y).
Proof.
  intros Hx Hy. unfold fmul.
  set (e := expo x + expo y).
  assert (Hn : 0 < scale_up (mant x * mant y) e) by (unfold scale_up; nia).
  assert (Hd : 0 < scale_up 1 (- e)) by (unfold scale_up; nia).
  split; [|now apply round_ratio_mant_pos].
  pose proof (round_ratio_R _ _ Hn Hd) as H.
  rewrite scale_ratio in H by lia.
  replace (F2R x * F2R y)%R
    with (IZR (mant x * mant y) / 1 * powerRZ 2 e)%R; [exact H|].
  unfold F2R, e. rewrite powerRZ_add, mult_IZR by lra. field.
Qed.

Lemma tenths_R x :
  (Rabs (IZR (tenths x) - 10 * F2R x) <= / 2)%R.
Proof.
  unfold tenths.
  assert (Hd : 0 < scale_up 1 (- expo x)) by (unfold scale_up; nia).
  pose proof (round_half_even_R (scale_up (10 * mant x) (expo x)) _ Hd) as H.
  rewrite scale_ratio in H by lia.
  replace (10 * F2R x)%R
    with (IZR (10 * mant x) / 1 * powerRZ 2 (expo x))%R; [exact H|].
  unfold F2R. rewrite mult_IZR. field.
Qed.

Lemma percentage_tenths_R yes total :
  1 <= yes <= total -> total <= 2 ^ 40 ->
  (Rabs (IZR (tenths (percentage yes total)) * IZR total - 1000 * IZR yes)
   <= IZR total / 2 + 3 / 8)%R.
Proof.
  intros Hy Ht. unfold percentage.
  assert (B40 : 2 ^ 40 < 2 ^ 53) by reflexivity.
  pose proof (float_of_int_exact yes ltac:(lia)) as EX.
  pose proof (float_of_int_exact total ltac:(lia)) as EY.
  pose proof (float_of_int_exact 100 ltac:(split; reflexivity)) as EC.
  assert (PX : 0 < mant (float_of_int yes))
    by (apply round_ratio_mant_pos; lia).
  assert (PY : 0 < mant (float_of_int total))
    by (apply round_ratio_mant_pos; lia).
  assert (PC : 0 < mant (float_of_int 100))
    by (apply round_ratio_mant_pos; lia).
  destruct (fdiv_R _ _ PX PY) as [HD PD].
  destruct (fmul_R _ _ PD PC) as [HP _].
  pose proof (tenths_R (fmul (fdiv (float_of_int yes) (float_of_int total))
                             (float_of_int 100))) as HT.
  rewrite EX, EY in HD. rewrite EC in HP.
  set (d := F2R (fdiv _ _)) in *. clearbody d.
  set (p := F2R (fmul _ _)) in *. clearbody p.
  set (t := IZR (tenths _)) in *. clearbody t.
  assert (E53 : (powerRZ 2 (-53) = / 2 ^ 53)%R) by reflexivity.
  rewrite E53 in HD, HP.
  assert (HY : (1 <= IZR yes)%R) by (apply IZR_le; lia).
  assert (HYT : (IZR yes <= IZR total)%R) by (apply IZR_le; lia).
  assert (HT40 : (IZR total <= 2 ^ 40)%R).
  { apply IZR_le in Ht. rewrite IZR_pow2 in Ht by lia. exact Ht. }
  assert (Eq : (IZR yes = IZR yes / IZR total * IZR total)%R)
    by (field; lra).
  set (q := (IZR yes / IZR total)%R) in *. clearbody q.
  set (Y := IZR yes) in *. clearbody Y.
  set (T := IZR total) in *. clearbody T.
  apply Rabs_le_between in HD, HP, HT.
  set (u := (/ 2 ^ 53)%R) in *.
  assert (Hu : (0 < u <= / 2 ^ 53)%R) by (subst u; lra).
  assert (Hu' : (u * 2 ^ 53 = 1)%R) by (subst u; field).
  clearbody u.
  assert (Hq0 : (0 < q)%R) by nra.
  assert (Hq1 : (q <= 1)%R) by nra.
  assert (Hd0 : (0 <= d)%R) by nra.
  assert (Up : (10 * p <= 1000 * q + 3000 * u)%R).
  { assert (p <= 100 * d * (1 + u))%R by nra.
    assert (d * (1 + u) <= q * (1 + u) * (1 + u))%R by nra.
    assert (q * (1 + u) * (1 + u) <= q + 3 * u)%R by nra.
    nra. }
  assert (Lo : (1000 * q - 3000 * u <= 10 * p)%R).
  { assert (100 * d * (1 - u) <= p)%R by nra.
    assert (q * (1 - u) * (1 - u) <= d * (1 - u))%R by nra.
    assert (q - 3 * u <= q * (1 - u) * (1 - u))%R by nra.
    nra. }
  assert (HuT : (3000 * u * T <= 3 / 8)%R).
  { assert (u * T <= u * 2 ^ 40)%R by nra. 
    assert (u * 2 ^ 40 * 2 ^ 13 = 1)%R by (rewrite <- Hu'; ring).
    nra. }
  apply Rabs_le. split.
  - assert ((t - 1000 * q) * T >= (- / 2 - 3000 * u) * T)%R by nra. nra.
  - assert ((t - 1000 * q) * T <= (/ 2 + 3000 * u) * T)%R by nra. nra.
Qed.

Theorem percentage_tenths_nearest yes total :
  1 <= yes <= total -> total <= 2 ^ 40 ->
  2 * Z.abs (tenths (percentage yes total) * total - 1000 * yes) <= total.
Proof.
  intros Hy Ht. pose proof (percentage_tenths_R yes total Hy Ht) as H.
  set (t := tenths _) in *. clearbody t.
  apply Rabs_le_between in H.
  destruct (Z_le_gt_dec (2 * Z.abs (t * total - 1000 * yes)) total) as [|Hgt];
    [assumption|exfalso].
  assert (Hc : 2 * (t * total - 1000 * yes) >= total + 1
               \/ 2 * (t * total - 1000 * yes) <= - (total + 1)) by lia.
  destruct Hc as [Hc|Hc].
  - apply Z.ge_le, IZR_le in Hc.
    rewrite plus_IZR, !mult_IZR, minus_IZR, !mult_IZR in Hc. lra.
  - apply IZR_le in Hc.
    rewrite opp_IZR, plus_IZR, !mult_IZR, minus_IZR, !mult_IZR in Hc. lra.
Qed.

Local Close Scope Z_scope.

(** ** The awareness figure *)

Lemma filter_unique_key {K V : Type} `{EqDecision K} (l : list (K * V)) k v :
  NoDup (List.map fst l) -> In (k, v) l ->
  List.filter (fun g => bool_decide (fst g = k)) l = [(k, v)].
Proof.
  induction l as [|[k' v'] l IH]; simpl; [tauto|].
  intros Hnd Hin. apply NoDup_cons in Hnd as [Hk Hnd].
  assert (Hno : forall v0, In (k', v0) l -> False).
  { intros v0 H0. apply Hk, list_elem_of_In.
    change k' with (fst (k', v0)). now apply in_map. }
  destruct Hin as [E|Hin].
  - injection E as -> ->. rewrite bool_decide_true by reflexivity. f_equal.
    clear IH Hk Hnd. induction l as [|[k0 v0] l IH]; [reflexivity|].
    simpl. destruct (bool_decide_reflect (k0 = k)) as [->|Hne].
    + exfalso. apply (Hno v0). now left.
    + apply IH. intros v1 H1. apply (Hno v1). now right.
  - destruct (bool_decide_reflect (k' = k)) as [->|Hne].
    + exfalso. now apply (Hno v).
    + now apply IH.
Qed.

Lemma filter_absent_key {K V : Type} `{EqDecision K} (l : list (K * V)) k :
  (forall v, ~ In (k, v) l) ->
  List.filter (fun g => bool_decide (fst g = k)) l = [].
Proof.
  induction l as [|[k' v'] l IH]; simpl; [reflexivity|]. intros Hno.
  destruct (bool_decide_reflect (k' = k)) as [->|Hne].
  - exfalso. apply (Hno v'). now left.
  - apply IH. intros v Hv. apply (Hno v). now right.
Qed.

Lemma filter_map_comm {A B} (f : A -> B) (P : B -> bool) (l : list A) :
  List.filter P (List.map f l)
  = List.map f (List.filter (fun a => P (f a)) l).
Proof.
  induction l as [|a l IH]; simpl; [reflexivity|].
  destruct (P (f a)); simpl; now rewrite IH.
Qed.

Lemma filter_ext_in' {A} (P Q : A -> bool) (l : list A) :
  (forall a, In a l -> P a = Q a) -> List.filter P l = List.filter Q l.
Proof.
  induction l as [|a l IH]; simpl; intros H; [reflexivity|].
  rewrite (H a) by auto. rewrite IH by auto. reflexivity.
Qed.

(** The rows of a one-key grouping that carry the key [[Text v]]. *)
Lemma with_key_count i rws v :
  Z.of_nat (length (with_key [Text v]
                      (List.map (fun r => (project [i] r, r)) rws)))
  = count_text v (List.map (fun r => nth i r Null) rws).
Proof.
  unfold with_key, count_text.
  rewrite !filter_map_comm, !length_map. do 2 f_equal.
  apply filter_ext_in'. intros r _. cbn [fst project List.map].
  destruct (bool_decide_reflect (nth i r Null = Text v)) as [E|E].
  - rewrite E. now rewrite bool_decide_true.
  - rewrite bool_decide_false; [reflexivity|]. intros H. injection H. auto.
Qed.

Lemma yes_count_rows (rws : list row) :
  yes_count {| columns := [Awareness; Count]; rows := rws |}
  = (c ← values0 (List.map (fun r => nth 1 r Null)
                    (List.filter
                       (fun r => bool_decide (nth 0 r Null = Text Yes)) rws));
     as_int c).
Proof.
  unfold yes_count.
  rewrite (select_eq_eq _ _ _ 0%nat) by reflexivity. rewrite bind_ret_l.
  rewrite (getitem_eq _ _ 1%nat) by reflexivity. rewrite bind_ret_l.
  reflexivity.
Qed.

Lemma total_rows (rws : list row) :
  getitem {| columns := [Awareness; Count]; rows := rws |} Count
  = Ok (List.map (fun r => nth 1 r Null) rws).
Proof. now rewrite (getitem_eq _ _ 1%nat). Qed.

Lemma hd_Forall {A} (P : A -> Prop) (l : list A) (d : A) :
  l <> [] -> Forall P l -> P (hd d l).
Proof.
  destruct l as [|x l]; [congruence|]. intros _ H.
  now apply List.Forall_cons_iff in H as [H _].
Qed.

(** The awareness query, on a table with the question column at [i] and no
    column that goes by the alias. *)
Lemma q_awareness_result df i a :
  find_column Awareness (columns df) = None ->
  find_column AWARE (columns df) = Some i ->
  run_select q_awareness df = Ok a ->
  a = {| columns := [Awareness; Count];
         rows := List.map (fun g => fst g ++ [Int (count_of g)])
                   (group_rows (List.map (fun r => (project [i] r, r))
                                         (rows df))) |}.
Proof.
  intros Hno Hi H.
  apply run_select_count in H as (cidx & kidx & Hc & Hk & Hcols & Hrows).
  cbn [mapR List.map snd fst] in Hc, Hk.
  unfold column_of in Hc. cbn [fst] in Hc. rewrite Hi in Hc.
  cbn in Hc. injection Hc as <-.
  unfold resolve_group in Hk. rewrite Hno in Hk.
  assert (Ea : find_alias Awareness (sel_list (count_query [(AWARE, Awareness)]))
               = Some (Col AWARE)) by reflexivity.
  rewrite Ea, Hi in Hk. cbn in Hk. injection Hk as <-.
  destruct a as [cols rws]. cbn in Hcols, Hrows. subst cols rws. f_equal.
  apply map_ext_in. intros g Hg.
  apply group_rows_project in Hg as (r & _ & _ & Hin & Hall).
  assert (Hhd : project [i] (hd [] (snd g)) = fst g).
  { apply (hd_Forall (fun r' => project [i] r' = fst g)); [|exact Hall].
    intros E. rewrite E in Hin. destruct Hin. }
  rewrite <- Hhd. reflexivity.
Qed.

Lemma one_key_groups i rws g :
  In g (group_rows (List.map (fun r => (project [i] r, r)) rws)) ->
  exists c, fst g = [c].
Proof.
  intros Hg. apply group_rows_project in Hg as (r & _ & -> & _).
  eexists. reflexivity.
Qed.

Lemma awareness_pct_sql df i a :
  find_column Awareness (columns df) = None ->
  find_column AWARE (columns df) = Some i ->
  run_select q_awareness df = Ok a ->
  (1 <= count_text Yes (column_at i df))%Z ->
  awareness_pct a
  = Ok (format_1f (percentage (count_text Yes (column_at i df))
                              (Z.of_nat (length (rows df))))).
Proof.
  intros Hno Hi Ha Hyes. rewrite (q_awareness_result _ _ _ Hno Hi Ha).
  set (keyed := List.map (fun r => (project [i] r, r)) (rows df)).
  set (groups := group_rows keyed).
  assert (Hshape : forall g, In g groups -> exists c, fst g = [c])
    by apply one_key_groups.
  unfold awareness_pct. rewrite total_rows, bind_ret_l. cbv zeta.
  assert (Etot : series_sum
            (List.map (fun r => nth 1 r Null)
               (List.map (fun g => fst g ++ [Int (count_of g)]) groups))
          = Z.of_nat (length (rows df))).
  { rewrite map_map.
    rewrite (map_ext_in _ (fun g => Int (count_of g))).
    - rewrite series_sum_counts. subst groups.
      rewrite group_rows_total. subst keyed. now rewrite length_map.
    - intros g Hg. destruct (Hshape g Hg) as [c ->]. reflexivity. }
  rewrite Etot.
  assert (Eyes : yes_count
            {| columns := [Awareness; Count];
               rows := List.map (fun g => fst g ++ [Int (count_of g)]) groups |}
          = Ok (count_text Yes (column_at i df))).
  { rewrite yes_count_rows, filter_map_comm.
    rewrite (filter_ext_in' _ (fun g => bool_decide (fst g = [Text Yes]))).
    - assert (Hne : with_key [Text Yes] keyed <> []).
      { intros E. pose proof (with_key_count i (rows df) Yes) as H.
        fold keyed in H. rewrite E in H. unfold column_at in Hyes.
        rewrite <- H in Hyes. simpl in Hyes. lia. }
      rewrite (filter_unique_key groups [Text Yes] (with_key [Text Yes] keyed)).
      + cbn [List.map app nth values0 as_int fst snd].
        rewrite bind_ret_l. cbn [as_int]. unfold count_of. cbn [snd]. f_equal.
        apply (with_key_count i (rows df) Yes).
      + apply group_rows_NoDup.
      + now apply group_rows_key.
    - intros g Hg. destruct (Hshape g Hg) as [c Hc]. rewrite Hc.
      cbn [app nth].
      destruct (bool_decide_reflect (c = Text Yes)) as [->|Hn].
      + now rewrite bool_decide_true.
      + rewrite bool_decide_false; [reflexivity|]. intros E. injection E. auto. }
  rewrite Eyes, bind_ret_l. reflexivity.
Qed.

Lemma with_key_values v (s : list cell) :
  Z.of_nat (length (with_key (Text v)
                      (List.map (fun c => (c, c)) (List.filter notnull s))))
  = count_text v s.
Proof.
  unfold with_key, count_text. rewrite length_map, filter_map_comm, length_map.
  f_equal. cbn [fst]. induction s as [|c s IH]; [reflexivity|].
  cbn [List.filter]. destruct c as [|n|t]; cbn [notnull isnull negb].
  - rewrite bool_decide_false by discriminate. exact IH.
  - cbn [List.filter fst]. rewrite bool_decide_false by discriminate. exact IH.
  - cbn [List.filter fst].
    destruct (bool_decide (Text t = Text v)); cbn [length]; now rewrite IH.
Qed.

Lemma tally_NoDup s : NoDup (List.map fst (tally s)).
Proof.
  unfold tally. rewrite map_map. cbn [fst].
  unfold collect.
  destruct (collect_invariant
              (List.map (fun v : cell => (v, v)) (List.filter notnull s)) [])
    as (H & _ & _).
  apply H. constructor.
Qed.

Lemma tally_In v s :
  (1 <= count_text v s)%Z ->
  In (Text v, Z.to_nat (count_text v s)) (tally s).
Proof.
  intros Hc. unfold tally.
  set (keyed := List.map (fun c : cell => (c, c)) (List.filter notnull s)).
  pose proof (with_key_values v s) as Hw. fold keyed in Hw.
  assert (Hne : members (Text v) (collect keyed) <> []).
  { rewrite members_collect. intros E. rewrite E in Hw. simpl in Hw. lia. }
  apply members_nonempty in Hne.
  apply (in_map (fun g : cell * list cell => (fst g, length (snd g)))) in Hne.
  cbn [fst snd] in Hne. rewrite members_collect in Hne.
  rewrite <- Hw, Nat2Z.id. exact Hne.
Qed.

Lemma awareness_pct5_pandas df aw a :
  set_columns (value_counts_frame AWARE aw) [Awareness; Count] = Ok a ->
  (1 <= count_text Yes aw)%Z ->
  awareness_pct5 df a
  = Ok (count_text Yes aw,
        format_1f (percentage (count_text Yes aw)
                              (Z.of_nat (length (rows df))))).
Proof.
  intros Ha Hyes. apply set_columns_Ok in Ha as [Hc Hr].
  destruct a as [cols rws]. cbn [columns rows] in Hc, Hr. subst cols rws.
  unfold awareness_pct5, value_counts_frame. cbn [rows].
  rewrite yes_count_rows, filter_map_comm. cbn [nth].
  rewrite (filter_unique_key (value_counts aw) (Text Yes)
             (Z.to_nat (count_text Yes aw))).
  - cbn [List.map nth values0 fst snd]. rewrite !bind_ret_l. cbn [as_int].
    rewrite Z2Nat.id by lia. reflexivity.
  - rewrite (Permutation_map fst (value_counts_perm aw)). apply tally_NoDup.
  - apply (Permutation_in _ (Permutation_sym (value_counts_perm aw))).
    now apply tally_In.
Qed.

Lemma count_text_le v s : (count_text v s <= Z.of_nat (length s))%Z.
Proof.
  unfold count_text. apply inj_le. apply List.filter_length_le.
Qed.

Lemma getitem_length df col s :
  getitem df col = Ok s -> length s = length (rows df).
Proof.
  unfold getitem. intros H. inv_bind H as i Hi. injection H as <-.
  apply length_map.
Qed.

(** Where the figure goes: the percentage the scripts print is the one
    computed from the awareness summary. *)
Lemma run_sql_reports_pct rw path fs conn r :
  run_sql rw path fs conn = Ok r ->
  exists df a,
    load rw clean_column fs path = Ok df
    /\ run_select q_awareness (sql_store df) = Ok a
    /\ awareness_pct a = Ok (run_pct r)
    /\ run_summary r = summary_sql (run_pct r).
Proof.
  unfold run_sql. intros H.
  inv_bind H as df Hdf. inv_bind H as conn' Hc. inv_bind H as s Hs.
  inv_bind H as u Hu.
  inv_bind H as pct Hp. injection H as <-. cbn [run_pct run_summary].
  apply persist_lookup in Hc.
  unfold aggregate_sql in Hs. inv_bind Hs as a Ha.
  inv_bind Hs as ar Har. inv_bind Hs as tr Htr. inv_bind Hs as ga Hga.
  injection Hs as <-. cbn [awareness_df] in Hp.
  apply read_sql_query_Ok in Ha as (t & Ht & Ha).
  cbn [sel_from q_awareness count_query] in Ht.
  assert (t = sql_store df) by congruence. subst t.
  exists df, a. auto.
Qed.

Lemma run5_reports_pct rw ww float chi2 fmt path embed fs conn r :
  run5 rw ww float chi2 fmt path embed fs conn = Ok r ->
  exists df aw yes chi,
    load rw clean_column5 fs path = Ok df
    /\ getitem df AWARE = Ok aw
    /\ set_columns (value_counts_frame AWARE aw) [Awareness; Count]
       = Ok (awareness_df (run_tables r))
    /\ awareness_pct5 df (awareness_df (run_tables r)) = Ok (yes, run_pct r)
    /\ run_summary r = summary5 df yes (run_pct r) chi.
Proof.
  unfold run5. intros H.
  inv_bind H as df Hdf. rewrite embed_dataset_eq, bind_ret_l in H.
  cbv beta iota in H.
  inv_bind H as conn' Hc. inv_bind H as sc Hs. destruct sc as [s chi].
  inv_bind H as yp Hp. destruct yp as [yes pct]. injection H as <-.
  cbn [run_pct run_summary run_tables].
  apply aggregate5_inv in Hs as (aw & ar0 & tr0 & ga0 & Haw & Ha & _).
  exists df, aw, yes, chi. auto.
Qed.

(** X20: on a table with at least one [Yes] answer and, for the SQL
    query, no column of its own called [Awareness], the percentage is
    [yes / total * 100], computed in double precision and printed with one
    decimal: the text is [t / 10], a point and [t mod 10] where [t], the
    number of tenths, is an integer nearest to [1000 * yes / total].  Here
    [yes] is the number of rows answering [Yes] and [total] the number of
    rows of the table; the SQL scripts get [total] as the sum of the
    counts, data_analytics5.py as [len(df)]. *)
Theorem awareness_percentage_one_decimal :
  (forall df i a,
      find_column Awareness (columns df) = None ->
      find_column AWARE (columns df) = Some i ->
      run_select q_awareness df = Ok a ->
      let yes := count_text Yes (column_at i df) in
      let total := Z.of_nat (length (rows df)) in
      (1 <= yes)%Z -> (total <= 2 ^ 40)%Z ->
      awareness_pct a = Ok (format_1f (percentage yes total))
      /\ format_1f (percentage yes total)
         = str_of_Z (tenths (percentage yes total) / 10) ++ py "."
           ++ str_of_Z (tenths (percentage yes total) mod 10)
      /\ (2 * Z.abs (tenths (percentage yes total) * total - 1000 * yes)
          <= total)%Z)
  /\ (forall df aw a,
      getitem df AWARE = Ok aw ->
      set_columns (value_counts_frame AWARE aw) [Awareness; Count] = Ok a ->
      let yes := count_text Yes aw in
      let total := Z.of_nat (length (rows df)) in
      (1 <= yes)%Z -> (total <= 2 ^ 40)%Z ->
      awareness_pct5 df a = Ok (yes, format_1f (percentage yes total))
      /\ format_1f (percentage yes total)
         = str_of_Z (tenths (percentage yes total) / 10) ++ py "."
           ++ str_of_Z (tenths (percentage yes total) mod 10)
      /\ (2 * Z.abs (tenths (percentage yes total) * total - 1000 * yes)
          <= total)%Z).
Proof.
  split.
  - intros df i a Hno Hi Ha yes total Hyes Htot.
    split; [now apply awareness_pct_sql|]. split; [reflexivity|].
    apply percentage_tenths_nearest; [|assumption].
    split; [assumption|]. subst yes total.
    pose proof (count_text_le Yes (column_at i df)) as Hle.
    unfold column_at in Hle at 2. rewrite length_map in Hle. exact Hle.
  - intros df aw a Haw Ha yes total Hyes Htot.
    split; [now apply awareness_pct5_pandas|]. split; [reflexivity|].
    apply percentage_tenths_nearest; [|assumption].
    split; [assumption|]. subst yes total.
    pose proof (count_text_le Yes aw) as Hle.
    rewrite (getitem_length _ _ _ Haw) in Hle. exact Hle.
Qed.

Lemma awareness_percentage_witness :
  (exists a, run_select q_awareness sample_clean = Ok a
     /\ awareness_pct a = Ok (py "60.0"))
  /\ (exists aw a, getitem sample_clean AWARE = Ok aw
        /\ set_columns (value_counts_frame AWARE aw) [Awareness; Count] = Ok a
        /\ awareness_pct5 sample_clean a = Ok (3%Z, py "60.0")).
Proof.
  destruct awareness_percentage_one_decimal as [Hsql Hpd]. split.
  - destruct (run_select q_awareness sample_clean) as [a|] eqn:Ha;
      [|vm_compute in Ha; discriminate Ha].
    exists a. split; [reflexivity|].
    assert (Hno : find_column Awareness (columns sample_clean) = None)
      by (vm_compute; reflexivity).
    assert (Hi : find_column AWARE (columns sample_clean) = Some 1%nat)
      by (vm_compute; reflexivity).
    destruct (Hsql sample_clean 1%nat a Hno Hi Ha) as (H & _);
      [vm_compute; discriminate ..|].
    rewrite H. vm_compute. reflexivity.
  - destruct (getitem sample_clean AWARE) as [aw|] eqn:Haw;
      [|vm_compute in Haw; discriminate Haw].
    destruct (set_columns (value_counts_frame AWARE aw) [Awareness; Count])
      as [a|] eqn:Ha; [|vm_compute in Ha; discriminate Ha].
    exists aw, a. split; [reflexivity|]. split; [exact Ha|].
    assert (Eaw : aw = [Text Yes; Text Yes; Text No; Text Yes; Text No]).
    { vm_compute in Haw. injection Haw as <-. reflexivity. }
    destruct (Hpd sample_clean aw a Haw Ha) as (H & _);
      [subst aw; vm_compute; discriminate ..|].
    rewrite H. subst aw. vm_compute. reflexivity.
Defined.

(** C2: the SQL scripts get the figure wrong on a sheet that has a column
    of its own headed [Awareness].  [GROUP BY Awareness] then groups by
    that column, not by the aliased question: with answers Yes, Yes, No
    and three different values in the other column the awareness summary
    has three rows of count 1, and data_analytics.py, data_analytics2.py
    and data_analytics3.py print 33.3 where two respondents out of three
    answered Yes; data_analytics5.py prints 66.7 on the same sheet. *)
Theorem awareness_percentage_alias_clash :
  load sample_clash5_reader clean_column sample_fs (py "data.xlsx")
  = Ok {| columns := [GENDER; AWARE; TRAINING; REPORT; Awareness];
          rows := rows sample_clash5 |}
  /\ count_text Yes (List.map (fun r => nth 1 r Null) (rows sample_clash5))
     = 2%Z
  /\ length (rows sample_clash5) = 3%nat
  /\ (exists r,
        run_sql sample_clash5_reader (py "data.xlsx") sample_fs ∅ = Ok r
        /\ run_pct r = py "33.3")
  /\ (exists r,
        run3 sample_clash5_reader sample_writer (py "data.xlsx")
             (py "survey_data.xlsx") sample_fs ∅ = Ok r
        /\ run_pct r = py "33.3")
  /\ (exists r,
        run5 sample_clash5_reader sample_writer Z sample_chi2 sample_fmt
             (py "data.xlsx") (py "survey_data.xlsx") sample_fs ∅ = Ok r
        /\ run_pct r = py "66.7").
Proof.
  split; [vm_compute; reflexivity|]. split; [vm_compute; reflexivity|].
  split; [reflexivity|]. split; [|split].
  - destruct (run_sql sample_clash5_reader (py "data.xlsx") sample_fs ∅)
      as [r|] eqn:Hr; [|vm_compute in Hr; discriminate Hr].
    exists r. split; [reflexivity|].
    vm_compute in Hr. injection Hr as <-. reflexivity.
  - destruct (run3 sample_clash5_reader sample_writer (py "data.xlsx")
                (py "survey_data.xlsx") sample_fs ∅)
      as [r|] eqn:Hr; [|vm_compute in Hr; discriminate Hr].
    exists r. split; [reflexivity|].
    vm_compute in Hr. injection Hr as <-. reflexivity.
  - destruct (run5 sample_clash5_reader sample_writer Z sample_chi2
                sample_fmt (py "data.xlsx") (py "survey_data.xlsx")
                sample_fs ∅)
      as [r|] eqn:Hr; [|vm_compute in Hr; discriminate Hr].
    exists r. split; [reflexivity|].
    vm_compute in Hr. injection Hr as <-. reflexivity.
Qed.

(** * Further properties of the scripts *)

(** ** What cleaning leaves in a name *)

Lemma replace_keeps c old new s :
  c <> old -> In c s -> In c (replace old new s).
Proof.
  intros Hne. induction s as [|x s IH]; simpl; [tauto|].
  rewrite in_app_iff. intros [->|H].
  - left. destruct (N.eqb_spec c old); [contradiction|now left].
  - right. now apply IH.
Qed.

Lemma lstrip_keeps c s :
  py_isspace c = false -> In c s -> In c (lstrip s).
Proof.
  intros Hc. induction s as [|x s IH]; simpl; [tauto|].
  intros [->|H].
  - rewrite Hc. now left.
  - destruct (py_isspace x); [now apply IH|now right].
Qed.

Lemma strip_keeps c s :
  py_isspace c = false -> In c s -> In c (strip s).
Proof.
  intros Hc H. unfold strip, rstrip.
  apply (proj1 (in_rev _ _)). apply lstrip_keeps; [assumption|].
  apply (proj1 (in_rev _ _)). now apply lstrip_keeps.
Qed.

Lemma cleaned_name_parens (s : pystr) :
  (In LPAREN (clean_column5 s) <-> In LPAREN s)
  /\ (In RPAREN (clean_column5 s) <-> In RPAREN s).
Proof.
  assert (H : forall c, c = LPAREN \/ c = RPAREN ->
                (In c (clean_column5 s) <-> In c s)).
  { intros c Hc. split.
    - intros H. unfold clean_column5 in H.
      repeat (apply replace_In in H as [H|H];
              [|destruct Hc as [->| ->]; simpl in H;
                intuition discriminate]).
      now apply strip_In in H.
    - intros H. unfold clean_column5.
      assert (Hs : py_isspace c = false)
        by (destruct Hc as [->| ->]; reflexivity).
      repeat (apply replace_keeps;
              [destruct Hc as [->| ->]; discriminate|]).
      now apply strip_keeps. }
  split; apply H; auto.
Qed.

(** X1: a cleaned column name holds none of the characters the chain of
    [replace] calls targets: no space, [?], [,], [(], [)] or [/] after
    [clean_column], no space, [?], [,] or [/] after the shorter chain of
    data_analytics5.py, which keeps every parenthesis of the header. *)
Theorem cleaned_name_characters (s : pystr) :
  Forall (fun c => ~ In c [SPACE; QUESTION; COMMA; LPAREN; RPAREN; SLASH])
         (clean_column s)
  /\ Forall (fun c => ~ In c [SPACE; QUESTION; COMMA; SLASH])
            (clean_column5 s)
  /\ (forall c, c = LPAREN \/ c = RPAREN ->
        (In c (clean_column5 s) <-> In c s)).
Proof.
  split; [|split].
  - apply List.Forall_forall. intros c Hc Hin.
    rewrite clean_column_rules in Hc. revert Hc.
    assert (Hr : exists new, In (c, new) rules_full).
    { simpl in Hin. unfold rules_full.
      destruct Hin as [<-|[<-|[<-|[<-|[<-|[<-|[]]]]]]]; eexists; simpl; eauto 10. }
    destruct Hr as [new Hr].
    apply (apply_rules_removes rules_full rules_full_separate rules_full
             (strip s) (incl_refl _) _ Hr).
  - apply List.Forall_forall. intros c Hc Hin.
    rewrite clean_column5_rules in Hc. revert Hc.
    assert (Hr : exists new, In (c, new) rules5).
    { simpl in Hin. unfold rules5.
      destruct Hin as [<-|[<-|[<-|[<-|[]]]]]; eexists; simpl; eauto 10. }
    destruct Hr as [new Hr].
    apply (apply_rules_removes rules5 rules5_separate rules5
             (strip s) (incl_refl _) _ Hr).
  - intros c [->| ->]; apply cleaned_name_parens.
Qed.

Lemma replace_app old new s1 s2 :
  replace old new (s1 ++ s2) = replace old new s1 ++ replace old new s2.
Proof.
  induction s1 as [|x s1 IH]; simpl; [reflexivity|].
  now rewrite IH, app_assoc.
Qed.

(** Deleting one character commutes with replacing another one. *)
Lemma delete_replace_comm a b new s :
  a <> b -> ~ In a new ->
  replace a [] (replace b new s) = replace b new (replace a [] s).
Proof.
  intros Hab Hnew. induction s as [|x s IH]; simpl; [reflexivity|].
  rewrite replace_app, IH.
  destruct (N.eqb_spec x b) as [->|Hxb].
  - rewrite (replace_absent a [] new Hnew).
    destruct (N.eqb_spec b a) as [E|_]; [congruence|].
    simpl. now rewrite N.eqb_refl.
  - simpl. destruct (N.eqb_spec x a) as [->|Hxa]; simpl.
    + reflexivity.
    + destruct (N.eqb_spec x b); [contradiction|reflexivity].
Qed.

(** X2: the two cleaning chains differ by the parentheses only.  The
    cleaner of data_analytics.py is that of data_analytics5.py followed by
    the removal of [(] and [)]; on a header without parentheses the two
    scripts produce the same column name. *)
Theorem clean_column_variants (s : pystr) :
  clean_column s = replace RPAREN [] (replace LPAREN [] (clean_column5 s))
  /\ (~ In LPAREN s -> ~ In RPAREN s -> clean_column s = clean_column5 s).
Proof.
  assert (E : clean_column s
              = replace RPAREN [] (replace LPAREN [] (clean_column5 s))).
  { unfold clean_column, clean_column5.
    rewrite (delete_replace_comm LPAREN SLASH) by (simpl; intuition discriminate).
    rewrite (delete_replace_comm RPAREN SLASH) by (simpl; intuition discriminate).
    reflexivity. }
  split; [exact E|]. intros Hl Hr. rewrite E.
  destruct (cleaned_name_parens s) as [Kl Kr].
  rewrite (replace_absent LPAREN) by (rewrite Kl; exact Hl).
  apply replace_absent. rewrite Kr. exact Hr.
Qed.

(** ** Missing columns and tables *)

Lemma mapR_Ok_all {A B} (f : A -> result B) (l : list A) :
  (forall a, In a l -> exists b, f a = Ok b) -> exists l', mapR f l = Ok l'.
Proof.
  induction l as [|a l IH]; simpl; intros H; [eauto|].
  destruct (H a (or_introl eq_refl)) as [b ->].
  destruct IH as [l' ->]; [auto|]. simpl. eauto.
Qed.

Lemma mapR_Ok_each {A B} (f : A -> result B) (l : list A) l' :
  mapR f l = Ok l' -> forall a, In a l -> exists b, f a = Ok b.
Proof.
  revert l'. induction l as [|a l IH]; simpl; intros l' H x Hx; [tauto|].
  inv_bind H as b Hb. inv_bind H as bs Hbs. destruct Hx as [<-|Hx]; eauto.
Qed.

Lemma mapR_Raise_some {A B} (f : A -> result B) (l : list A) e :
  mapR f l = Raise e -> exists a, In a l /\ f a = Raise e.
Proof.
  induction l as [|a l IH]; simpl; [discriminate|].
  destruct (f a) eqn:Ea; simpl.
  - destruct (mapR f l); simpl; [discriminate|].
    intros H. injection H as <-. destruct IH as (x & Hx & Hfx); eauto.
  - intros H. injection H as <-. eauto.
Qed.

(** In a count query every GROUP BY alias names a column item. *)
Lemma find_alias_keys keys rest ca :
  In ca keys ->
  exists ca', In ca' keys
    /\ find_alias (snd ca)
         (List.map (fun ca => (Col (fst ca), snd ca)) keys ++ rest)
       = Some (Col (fst ca')).
Proof.
  induction keys as [|k keys IH]; simpl; [tauto|].
  destruct (sql_ident_eqb (snd ca) (snd k)) eqn:E.
  - intros _. exists k. auto.
  - intros [->|H].
    + unfold sql_ident_eqb in E. now rewrite bool_decide_true in E.
    + destruct (IH H) as (ca' & Hin & ->). eauto.
Qed.

Lemma run_select_count_Ok keys t :
  (forall ca, In ca keys -> find_column (fst ca) (columns t) <> None) ->
  exists s, run_select (count_query keys) t = Ok s.
Proof.
  intros Hcols. unfold run_select.
  cbn [sel_list sel_group_by count_query].
  assert (Hfind : forall ca, In ca keys ->
            exists i, find_column (fst ca) (columns t) = Some i).
  { intros ca Hca. specialize (Hcols ca Hca).
    destruct (find_column (fst ca) (columns t)); [eauto|congruence]. }
  destruct (mapR_Ok_all (resolve_expr (columns t))
              (List.map fst (List.map (fun ca => (Col (fst ca), snd ca)) keys
                             ++ [(CountStar, Count)]))) as [terms ->].
  { intros e He. rewrite map_app, map_map in He. cbn [fst] in He.
    apply in_app_iff in He as [He|[<-|[]]]; [|cbn; eauto].
    apply in_map_iff in He as (ca & <- & Hca).
    destruct (Hfind ca Hca) as [i Hi]. cbn. rewrite Hi. cbn. eauto. }
  rewrite bind_ret_l.
  destruct (mapR_Ok_all
              (resolve_group (columns t)
                 (List.map (fun ca => (Col (fst ca), snd ca)) keys
                  ++ [(CountStar, Count)]))
              (List.map snd keys)) as [kidx ->].
  { intros name Hn. apply in_map_iff in Hn as (ca & <- & Hca).
    unfold resolve_group.
    destruct (find_column (snd ca) (columns t)); [eauto|].
    destruct (find_alias_keys keys [(CountStar, Count)] ca Hca)
      as (ca' & Hca' & ->).
    destruct (Hfind ca' Hca') as [i ->]. cbn. eauto. }
  rewrite bind_ret_l. eauto.
Qed.

Lemma run_select_count_columns keys t s :
  run_select (count_query keys) t = Ok s ->
  forall ca, In ca keys -> find_column (fst ca) (columns t) <> None.
Proof.
  intros H ca Hca.
  apply run_select_count in H as (cidx & _ & Hc & _).
  destruct (mapR_Ok_each _ _ _ Hc ca Hca) as [i Hi].
  unfold column_of in Hi. destruct (find_column (fst ca) (columns t));
    [discriminate|discriminate Hi].
Qed.

Lemma run_select_Raise q t e :
  run_select q t = Raise e -> e = DatabaseError.
Proof.
  unfold run_select. intros H.
  destruct (mapR _ (List.map fst (sel_list q))) as [terms|e1] eqn:E1.
  - rewrite bind_ret_l in H.
    destruct (mapR _ (sel_group_by q)) as [kidx|e2] eqn:E2; [discriminate|].
    cbn in H. injection H as <-.
    apply mapR_Raise_some in E2 as (name & _ & Hn).
    unfold resolve_group in Hn.
    destruct (find_column name (columns t)); [discriminate|].
    destruct (find_alias name (sel_list q)) as [[n|]|];
      try (injection Hn as <-; reflexivity).
    destruct (find_column n (columns t)); [discriminate|].
    injection Hn as <-. reflexivity.
  - cbn in H. injection H as <-.
    apply mapR_Raise_some in E1 as (x & _ & Hx).
    destruct x as [n|]; [|discriminate]. cbn in Hx.
    destruct (find_column n (columns t)); [discriminate|].
    injection Hx as <-. reflexivity.
Qed.

Lemma read_sql_query_Raise q conn e :
  read_sql_query q conn = Raise e -> e = DatabaseError.
Proof.
  unfold read_sql_query. destruct (conn !! sel_from q) as [t|]; cbn.
  - apply run_select_Raise.
  - intros H. injection H as <-. reflexivity.
Qed.

(** With the table in the store and the four question columns in it, the
    four queries run. *)
Lemma aggregate_sql_Ok_if (know : pystr) (conn : gmap pystr DataFrame)
    (df : DataFrame) :
  conn !! survey = Some df ->
  (forall c, In c [AWARE; REPORT; TRAINING; GENDER] ->
             find_column c (columns df) <> None) ->
  exists s, aggregate_sql know conn = Ok s.
Proof.
  intros Hdf Hc. unfold aggregate_sql, read_sql_query.
  cbn [sel_from q_awareness q_awareness_reporting q_training_reporting
       q_gender_awareness count_query].
  rewrite Hdf. cbn [from_option]. rewrite !bind_ret_l.
  destruct (run_select_count_Ok [(AWARE, Awareness)] df) as [a Ha].
  { intros ca [<-|[]]. apply Hc. simpl. auto. }
  destruct (run_select_count_Ok [(AWARE, Awareness); (REPORT, know)] df)
    as [ar Har].
  { intros ca [<-|[<-|[]]]; apply Hc; simpl; auto. }
  destruct (run_select_count_Ok [(TRAINING, Training); (REPORT, know)] df)
    as [tr Htr].
  { intros ca [<-|[<-|[]]]; apply Hc; simpl; auto. }
  destruct (run_select_count_Ok [(GENDER, Gender); (AWARE, Awareness)] df)
    as [ga Hga].
  { intros ca [<-|[<-|[]]]; apply Hc; simpl; auto. }
  unfold q_awareness, q_awareness_reporting, q_training_reporting,
    q_gender_awareness.
  rewrite Ha, bind_ret_l, Har, bind_ret_l, Htr, bind_ret_l, Hga, bind_ret_l.
  eauto.
Qed.

Lemma aggregate_sql_Raise (know : pystr) (conn : gmap pystr DataFrame)
    (e : exn) :
  aggregate_sql know conn = Raise e -> e = DatabaseError.
Proof.
  intros H. unfold aggregate_sql in H.
  destruct (read_sql_query q_awareness conn) as [a|e1] eqn:E1;
    [|cbn in H; injection H as <-; now apply read_sql_query_Raise in E1].
  rewrite bind_ret_l in H.
  destruct (read_sql_query (q_awareness_reporting know) conn) as [ar|e2] eqn:E2;
    [|cbn in H; injection H as <-; now apply read_sql_query_Raise in E2].
  rewrite bind_ret_l in H.
  destruct (read_sql_query (q_training_reporting know) conn) as [tr|e3] eqn:E3;
    [|cbn in H; injection H as <-; now apply read_sql_query_Raise in E3].
  rewrite bind_ret_l in H.
  destruct (read_sql_query q_gender_awareness conn) as [ga|e4] eqn:E4;
    [|cbn in H; injection H as <-; now apply read_sql_query_Raise in E4].
  rewrite bind_ret_l in H. discriminate H.
Qed.

(** X3: the SQL aggregation returns its four summary tables exactly when
    the store holds a [survey] table with the four question columns (names
    compared as SQL identifiers); a missing table or a missing column stops
    it, and the only exception it raises is the database error. *)
Theorem aggregate_sql_outcome (know : pystr) (conn : gmap pystr DataFrame) :
  ((exists s, aggregate_sql know conn = Ok s)
   <-> exists df, conn !! survey = Some df
         /\ forall c, In c [AWARE; REPORT; TRAINING; GENDER] ->
                      find_column c (columns df) <> None)
  /\ (forall e, aggregate_sql know conn = Raise e -> e = DatabaseError).
Proof.
  split; [split|].
  - intros [s H]. unfold aggregate_sql in H.
    inv_bind H as a Ha. inv_bind H as ar Har. inv_bind H as tr Htr.
    inv_bind H as ga Hga.
    apply read_sql_query_Ok in Ha as (df & Hdf & Ha).
    apply read_sql_query_Ok in Har as (df1 & Hdf1 & Har).
    apply read_sql_query_Ok in Htr as (df2 & Hdf2 & Htr).
    apply read_sql_query_Ok in Hga as (df3 & Hdf3 & Hga).
    cbn in Hdf, Hdf1, Hdf2, Hdf3.
    assert (df1 = df) by congruence. assert (df2 = df) by congruence.
    assert (df3 = df) by congruence. subst df1 df2 df3.
    exists df. split; [assumption|]. intros c Hc.
    pose proof (run_select_count_columns _ _ _ Har) as H1.
    pose proof (run_select_count_columns _ _ _ Htr) as H2.
    pose proof (run_select_count_columns _ _ _ Hga) as H3.
    simpl in Hc. destruct Hc as [<-|[<-|[<-|[<-|[]]]]].
    + apply (H1 (AWARE, Awareness)). now left.
    + apply (H1 (REPORT, know)). right. now left.
    + apply (H2 (TRAINING, Training)). now left.
    + apply (H3 (GENDER, Gender)). now left.
  - intros (df & Hdf & Hc). now apply (aggregate_sql_Ok_if know conn df).
  - intros e. apply aggregate_sql_Raise.
Qed.

Lemma getitem_outcome df col :
  getitem df col
  = match index_of col (columns df) with
    | Some i => Ok (column_at i df)
    | None => Raise KeyError
    end.
Proof. unfold getitem. now destruct (index_of col (columns df)). Qed.

Lemma groupby_size_pair df k1 k2 :
  groupby_size df [k1; k2] Count
  = match index_of k1 (columns df), index_of k2 (columns df) with
    | Some i, Some j =>
        Ok {| columns := [k1; k2; Count];
              rows := List.map (fun g => fst g ++ [Int (count_of g)])
                (group_rows (List.map (fun r => (project [i; j] r, r))
                               (List.filter (complete [i; j]) (rows df)))) |}
    | _, _ => Raise KeyError
    end.
Proof.
  unfold groupby_size, lookup_columns. cbn [mapR].
  destruct (index_of k1 (columns df)); [|reflexivity].
  destruct (index_of k2 (columns df)); reflexivity.
Qed.

Lemma chi_square_test_outcome float chi2 fmt df col1 col2 :
  match index_of col1 (columns df), index_of col2 (columns df) with
  | Some _, Some _ =>
      exists r, chi_square_test float chi2 fmt df col1 col2 = Ok r
  | _, _ => chi_square_test float chi2 fmt df col1 col2 = Raise KeyError
  end.
Proof.
  unfold chi_square_test. rewrite !getitem_outcome.
  destruct (index_of col1 (columns df)); [|reflexivity].
  destruct (index_of col2 (columns df)); [|reflexivity].
  rewrite !bind_ret_l. cbv zeta. destruct (ct_empty _); [eauto|].
  destruct (chi2 _) as [[c p] dof]. eauto.
Qed.

(** The pandas aggregation either returns, and then the table has the four
    question columns, or stops with [KeyError] at a missing one. *)
Lemma aggregate5_cases (float : Type)
    (chi2 : list (list Z) -> float * float * Z) (fmt : nat -> float -> pystr)
    (df : DataFrame) :
  (exists r, aggregate5 float chi2 fmt df = Ok r)
  /\ (forall c, In c [AWARE; REPORT; TRAINING; GENDER] ->
                index_of c (columns df) <> None)
  \/ aggregate5 float chi2 fmt df = Raise KeyError
     /\ exists c, In c [AWARE; REPORT; TRAINING; GENDER]
                  /\ index_of c (columns df) = None.
Proof.
  unfold aggregate5. rewrite getitem_outcome.
  destruct (index_of AWARE (columns df)) as [ia|] eqn:Ea;
    [|right; split; [reflexivity|exists AWARE; simpl; auto 10]].
  rewrite bind_ret_l.
  change (set_columns (value_counts_frame AWARE (column_at ia df))
            [Awareness; Count])
    with (Ok {| columns := [Awareness; Count];
                rows := rows (value_counts_frame AWARE (column_at ia df)) |}).
  rewrite bind_ret_l, (groupby_size_pair df AWARE REPORT), Ea.
  destruct (index_of REPORT (columns df)) as [ir|] eqn:Er;
    [|right; split; [reflexivity|exists REPORT; simpl; auto 10]].
  rewrite bind_ret_l.
  match goal with |- context [set_columns ?d [Awareness; Know_Whom; Count]] =>
    change (set_columns d [Awareness; Know_Whom; Count])
      with (Ok {| columns := [Awareness; Know_Whom; Count]; rows := rows d |})
  end.
  rewrite bind_ret_l.
  pose proof (chi_square_test_outcome float chi2 fmt df AWARE REPORT) as C1.
  rewrite Ea, Er in C1. destruct C1 as [c1 ->]. rewrite bind_ret_l.
  rewrite (groupby_size_pair df TRAINING REPORT), Er.
  destruct (index_of TRAINING (columns df)) as [it|] eqn:Et;
    [|right; split; [reflexivity|exists TRAINING; simpl; auto 10]].
  rewrite bind_ret_l.
  match goal with |- context [set_columns ?d [Training; Know_Whom; Count]] =>
    change (set_columns d [Training; Know_Whom; Count])
      with (Ok {| columns := [Training; Know_Whom; Count]; rows := rows d |})
  end.
  rewrite bind_ret_l.
  match goal with |- context [dropna ?d [Training; Know_Whom]] =>
    change (dropna d [Training; Know_Whom])
      with (Ok {| columns := columns d;
                  rows := List.filter (complete [0; 1]%nat) (rows d) |})
  end.
  rewrite bind_ret_l.
  match goal with |- context [chi_square_test _ _ _ ?d Training Know_Whom] =>
    assert (C2 : exists r, chi_square_test float chi2 fmt d Training Know_Whom
                           = Ok r)
      by exact (chi_square_test_outcome float chi2 fmt d Training Know_Whom)
  end.
  destruct C2 as [c2 ->]. rewrite bind_ret_l.
  rewrite (groupby_size_pair df GENDER AWARE), Ea.
  destruct (index_of GENDER (columns df)) as [ig|] eqn:Eg;
    [|right; split; [reflexivity|exists GENDER; simpl; auto 10]].
  rewrite bind_ret_l.
  match goal with |- context [set_columns ?d [Gender; Awareness; Count]] =>
    change (set_columns d [Gender; Awareness; Count])
      with (Ok {| columns := [Gender; Awareness; Count]; rows := rows d |})
  end.
  rewrite bind_ret_l.
  pose proof (chi_square_test_outcome float chi2 fmt df GENDER AWARE) as C3.
  rewrite Eg, Ea in C3. destruct C3 as [c3 ->]. rewrite bind_ret_l.
  left. split; [eauto|].
  intros c Hc.
  destruct Hc as [<-|[<-|[<-|[<-|[]]]]]; congruence.
Qed.

(** X4: the pandas aggregation of data_analytics5.py returns its summaries
    and test messages exactly when the table has the four question columns
    under their exact cleaned names; when one is missing it stops with
    [KeyError], and it raises nothing else. *)
Theorem aggregate5_outcome (float : Type)
    (chi2 : list (list Z) -> float * float * Z) (fmt : nat -> float -> pystr)
    (df : DataFrame) :
  ((exists r, aggregate5 float chi2 fmt df = Ok r)
   <-> forall c, In c [AWARE; REPORT; TRAINING; GENDER] ->
                 index_of c (columns df) <> None)
  /\ (forall e, aggregate5 float chi2 fmt df = Raise e -> e = KeyError).
Proof.
  pose proof (aggregate5_cases float chi2 fmt df) as Hcases.
  split; [split|].
  - intros [r Hr]. destruct Hcases as [[_ H]|[H _]]; [exact H|congruence].
  - intros Hall. destruct Hcases as [[H _]|[_ (c & Hc & Hn)]]; [exact H|].
    destruct (Hall c Hc Hn).
  - intros e He. destruct Hcases as [[[r Hr] _]|[H _]]; congruence.
Qed.

(** ** Header collisions *)

Lemma persist_collision df conn :
  ~ NoDup (List.map sql_ident (columns df)) ->
  persist df conn = Raise (refusal (columns df)).
Proof.
  intros H. rewrite persist_eq. unfold refusal, creatable.
  destruct (forallb valid_sqlite_name (columns df)); [|reflexivity].
  rewrite (bool_decide_false _ H). now rewrite andb_false_r.
Qed.

(** X5: when two headers clean to the same SQL identifier (the same name
    up to ASCII case), every script stops at [to_sql]: with [ValueError]
    when one of the cleaned names is one pandas refuses (the empty name
    above all), with the database error otherwise.  Nothing is aggregated
    and no report is produced. *)
Theorem colliding_headers_abort
    (rw : list byte -> option Sheet) (ww : DataFrame -> list byte)
    (float : Type) (chi2 : list (list Z) -> float * float * Z)
    (fmt : nat -> float -> pystr) (path embed : pystr)
    (fs : gmap pystr (list byte)) (conn : gmap pystr DataFrame)
    (names : list pystr) (rws : list row) :
  read_excel rw fs path
  = Ok {| headers := List.map HText names; body := rws |} ->
  ~ NoDup (List.map sql_ident (List.map clean_column names)) ->
  ~ NoDup (List.map sql_ident (List.map clean_column5 names)) ->
  run_sql rw path fs conn
  = Raise (refusal (List.map clean_column names))
  /\ run3 rw ww path embed fs conn
     = Raise (refusal (List.map clean_column names))
  /\ run5 rw ww float chi2 fmt path embed fs conn
     = Raise (refusal (List.map clean_column5 names)).
Proof.
  intros Hraw H1 H5. unfold run_sql, run3, run5, load.
  rewrite Hraw, !bind_ret_l, !rename_text, !bind_ret_l.
  rewrite !embed_dataset_eq, !bind_ret_l. cbv beta iota.
  rewrite !persist_collision by assumption. auto.
Qed.

Lemma colliding_headers_abort_witness :
  (run_sql sample_colliding_reader (py "data.xlsx") sample_fs ∅
     = Raise DatabaseError
   /\ run3 sample_colliding_reader sample_writer (py "data.xlsx")
           (py "survey_data.xlsx") sample_fs ∅ = Raise DatabaseError
   /\ run5 sample_colliding_reader sample_writer Z sample_chi2 sample_fmt
           (py "data.xlsx") (py "survey_data.xlsx") sample_fs ∅
      = Raise DatabaseError)
  /\ (run_sql sample_punctuation_reader (py "data.xlsx") sample_fs ∅
        = Raise ValueError
      /\ run3 sample_punctuation_reader sample_writer (py "data.xlsx")
              (py "survey_data.xlsx") sample_fs ∅ = Raise ValueError
      /\ run5 sample_punctuation_reader sample_writer Z sample_chi2
              sample_fmt (py "data.xlsx") (py "survey_data.xlsx")
              sample_fs ∅ = Raise ValueError).
Proof.
  split.
  - apply (colliding_headers_abort sample_colliding_reader sample_writer Z
             sample_chi2 sample_fmt (py "data.xlsx") (py "survey_data.xlsx")
             sample_fs ∅ (columns sample_colliding) (rows sample_colliding)).
    + vm_compute. reflexivity.
    + intros H. apply (bool_decide_pack _) in H. vm_compute in H. exact H.
    + intros H. apply (bool_decide_pack _) in H. vm_compute in H. exact H.
  - apply (colliding_headers_abort sample_punctuation_reader sample_writer Z
             sample_chi2 sample_fmt (py "data.xlsx") (py "survey_data.xlsx")
             sample_fs ∅ (columns sample_punctuation)
             (rows sample_punctuation)).
    + vm_compute. reflexivity.
    + intros H. apply (bool_decide_pack _) in H. vm_compute in H. exact H.
    + intros H. apply (bool_decide_pack _) in H. vm_compute in H. exact H.
Defined.

(** ** The rows of a summary *)

Lemma group_rows_count_pos keyed g :
  In g (group_rows keyed) -> (1 <= count_of g)%Z.
Proof.
  intros Hg. apply group_rows_In in Hg as [_ Hne]. unfold count_of.
  destruct (snd g); [congruence|]. simpl. lia.
Qed.

Lemma groups_le_total {K R} (gs : list (K * list R)) :
  Forall (fun g => snd g <> []) gs -> (length gs <= total_size gs)%nat.
Proof.
  induction 1 as [|g gs Hg _ IH]; simpl; [lia|].
  destruct (snd g); [congruence|]. simpl. lia.
Qed.

Lemma group_rows_length keyed :
  (length (group_rows keyed) <= length keyed)%nat.
Proof.
  rewrite <- (group_rows_total keyed). apply groups_le_total.
  apply List.Forall_forall. intros g Hg.
  now apply group_rows_In in Hg as [_ Hne].
Qed.

(** X6: a [COUNT( * ) ... GROUP BY] summary has no row with a count below
    one, never has more rows than the table it is computed from, and is
    empty when the table is. *)
Theorem sql_summary_rows (keys : list (pystr * pystr)) (t s : DataFrame) :
  run_select (count_query keys) t = Ok s ->
  Forall (fun r => exists k n, r = k ++ [Int n]
             /\ length k = length keys /\ (1 <= n)%Z) (rows s)
  /\ (length (rows s) <= length (rows t))%nat
  /\ (rows t = [] -> rows s = []).
Proof.
  intros H.
  apply run_select_count in H as (cidx & kidx & Hci & _ & _ & Hrows).
  rewrite Hrows. split; [|split].
  - apply List.Forall_forall. intros r Hr.
    apply in_map_iff in Hr as (g & <- & Hg).
    eexists _, _. split; [reflexivity|]. split.
    + rewrite project_length. apply (mapR_length _ _ _ Hci).
    + now apply group_rows_count_pos in Hg.
  - rewrite length_map.
    etransitivity; [apply group_rows_length|]. now rewrite length_map.
  - intros ->. reflexivity.
Qed.

Lemma sql_summary_rows_witness :
  exists s, run_select (q_awareness_reporting Know_Whom) sample_clean = Ok s
    /\ (length (rows s) <= length (rows sample_clean))%nat.
Proof.
  destruct (run_select (q_awareness_reporting Know_Whom) sample_clean)
    as [s|] eqn:Hs; [|vm_compute in Hs; discriminate Hs].
  exists s. split; [reflexivity|].
  exact (proj1 (proj2 (sql_summary_rows _ _ _ Hs))).
Defined.

(** The groups behind a [groupby(keys).size()] summary. *)
Lemma groupby_size_groups (df : DataFrame) (keys : list pystr) (g : DataFrame) :
  groupby_size df keys Count = Ok g ->
  exists groups : list (list cell * list row),
    rows g = List.map (fun gr => fst gr ++ [Int (count_of gr)]) groups
    /\ NoDup (List.map fst groups)
    /\ Forall (fun gr => length (fst gr) = length keys
                 /\ forallb notnull (fst gr) = true
                 /\ (1 <= count_of gr)%Z) groups.
Proof.
  intros H. apply groupby_size_shape in H as (idx & Hi & ->).
  eexists. split; [reflexivity|]. split; [apply group_rows_NoDup|].
  apply List.Forall_forall. intros gr Hg.
  pose proof (group_rows_count_pos _ _ Hg) as Hc.
  apply groupby_size_keys in Hg as [Hl Hn].
  rewrite Hl. split; [apply (mapR_length _ _ _ Hi)|]. auto.
Qed.

(** X7: a [groupby(keys).size()] summary has one row per combination of
    key values that occurs with every key present: no two rows carry the
    same keys, no key in it is missing, and every count is at least one. *)
Theorem groupby_size_rows (df : DataFrame) (keys : list pystr) (g : DataFrame) :
  groupby_size df keys Count = Ok g ->
  exists groups : list (list cell * list row),
    rows g = List.map (fun gr => fst gr ++ [Int (count_of gr)]) groups
    /\ NoDup (List.map fst groups)
    /\ Forall (fun gr => length (fst gr) = length keys
                 /\ forallb notnull (fst gr) = true
                 /\ (1 <= count_of gr)%Z) groups.
Proof. apply groupby_size_groups. Qed.

Lemma groupby_size_rows_witness :
  exists g groups,
    groupby_size sample_clean [TRAINING; REPORT] Count = Ok g
    /\ rows g = List.map (fun gr : list cell * list row =>
                            fst gr ++ [Int (count_of gr)]) groups
    /\ NoDup (List.map fst groups).
Proof.
  destruct (groupby_size sample_clean [TRAINING; REPORT] Count)
    as [g|] eqn:Hg; [|vm_compute in Hg; discriminate Hg].
  destruct (groupby_size_rows _ _ _ Hg) as (groups & Hr & Hn & _).
  exists g, groups. auto.
Defined.

(** ** [value_counts] *)

Lemma collect_In {K R : Type} `{EqDecision K} (keyed : list (K * R)) g :
  In g (collect keyed) ->
  snd g = with_key (fst g) keyed /\ snd g <> [].
Proof.
  intros Hin. unfold collect in Hin.
  destruct (collect_invariant keyed []) as (Hnd & Hne & _).
  fold (collect keyed) in Hnd, Hne, Hin. split.
  - rewrite <- members_collect. symmetry. apply members_In.
    + apply Hnd. constructor.
    + now destruct g.
  - specialize (Hne (Forall_nil_2 _)). rewrite Forall_forall in Hne.
    apply Hne. now apply list_elem_of_In.
Qed.

Lemma with_key_cells v (s : list cell) :
  length (with_key v (List.map (fun c => (c, c)) s)) = count_cell v s.
Proof.
  unfold with_key, count_cell. rewrite length_map, filter_map_comm, length_map.
  reflexivity.
Qed.

Lemma count_cell_present v s :
  notnull v = true -> count_cell v (List.filter notnull s) = count_cell v s.
Proof.
  intros Hv. unfold count_cell. induction s as [|c s IH]; [reflexivity|].
  cbn [List.filter]. destruct (notnull c) eqn:Ec; cbn [List.filter].
  - destruct (bool_decide (c = v)); cbn [length]; now rewrite IH.
  - rewrite bool_decide_false by congruence. exact IH.
Qed.

Lemma tally_entries s vn :
  In vn (tally s) ->
  notnull (fst vn) = true /\ (1 <= snd vn)%nat
  /\ snd vn = count_cell (fst vn) s.
Proof.
  unfold tally. intros H. apply in_map_iff in H as (g & <- & Hg).
  apply collect_In in Hg as [Hm Hne]. cbn [fst snd].
  assert (Hv : notnull (fst g) = true).
  { rewrite Hm in Hne. apply with_key_nonempty in Hne as [r Hr].
    apply in_map_iff in Hr as (c & E & Hc). injection E as <- _.
    now apply filter_In in Hc as [_ Hc]. }
  split; [exact Hv|]. rewrite Hm at 2. rewrite Hm.
  rewrite with_key_cells, count_cell_present by exact Hv.
  split; [|reflexivity].
  rewrite <- (count_cell_present _ _ Hv), <- with_key_cells, <- Hm.
  destruct (snd g); [congruence|simpl; lia].
Qed.

Lemma tally_complete s v :
  In v s -> notnull v = true -> In (v, count_cell v s) (tally s).
Proof.
  intros Hin Hv. unfold tally.
  set (keyed := List.map (fun c : cell => (c, c)) (List.filter notnull s)).
  assert (Hne : members v (collect keyed) <> []).
  { rewrite members_collect. intros E.
    assert (Hk : In v (with_key v keyed)).
    { unfold with_key. apply in_map_iff. exists (v, v). split; [reflexivity|].
      apply filter_In. cbn [fst]. rewrite bool_decide_true by reflexivity.
      split; [|reflexivity]. subst keyed.
      apply in_map_iff. exists v. split; [reflexivity|].
      apply filter_In. auto. }
    rewrite E in Hk. destruct Hk. }
  apply members_nonempty in Hne.
  apply (in_map (fun g : cell * list cell => (fst g, length (snd g)))) in Hne.
  cbn [fst snd] in Hne. rewrite members_collect in Hne.
  subst keyed. rewrite with_key_cells, count_cell_present in Hne by exact Hv.
  exact Hne.
Qed.

Lemma insert_desc_sorted x l :
  StronglySorted by_count_desc l ->
  StronglySorted by_count_desc (insert_desc x l).
Proof.
  induction 1 as [|y r Hr IH Hy]; simpl.
  - repeat constructor.
  - destruct (Nat.leb_spec (snd y) (snd x)) as [Hle|Hlt].
    + constructor; [now constructor|]. constructor; [exact Hle|].
      eapply List.Forall_impl; [|exact Hy].
      unfold by_count_desc. intros z Hz. lia.
    + constructor; [exact IH|].
      apply (Permutation_Forall (Permutation_sym (insert_desc_perm x r))).
      constructor; [unfold by_count_desc; lia|exact Hy].
Qed.

(** X8: [value_counts] lists every value that is present in the column
    exactly once, with the exact number of its occurrences, the most
    frequent first; a missing value is never listed. *)
Theorem value_counts_listing (s : list cell) :
  StronglySorted by_count_desc (value_counts s)
  /\ NoDup (List.map fst (value_counts s))
  /\ (forall v n, In (v, n) (value_counts s)
        <-> In v s /\ notnull v = true /\ n = count_cell v s).
Proof.
  split; [|split].
  - unfold value_counts. induction (tally s) as [|x l IH]; simpl.
    + constructor.
    + now apply insert_desc_sorted.
  - rewrite (Permutation_map fst (value_counts_perm s)). apply tally_NoDup.
  - intros v n. split.
    + intros H. apply (Permutation_in _ (value_counts_perm s)) in H.
      destruct (tally_entries s _ H) as (Hv & Hpos & Hn). cbn in Hv, Hpos, Hn.
      split; [|auto]. subst n. unfold count_cell in Hpos.
      destruct (List.filter _ s) as [|c l] eqn:E; [simpl in Hpos; lia|].
      assert (Hc : In c (List.filter (fun c => bool_decide (c = v)) s))
        by (rewrite E; now left).
      apply filter_In in Hc as [Hc Hcv]. apply bool_decide_eq_true in Hcv.
      now subst c.
    + intros (Hin & Hv & ->).
      apply (Permutation_in _ (Permutation_sym (value_counts_perm s))).
      now apply tally_complete.
Qed.

(** ** The encoded text *)

Lemma b64_char_text (i : N) : i < 64 -> b64_text_char (b64_char i) = true.
Proof.
  intros H. unfold b64_text_char. now rewrite b64_index_char.
Qed.

(** X9: the Base64 text of [n] bytes has [4 * ceil (n / 3)] characters, all
    of them letters, digits, [+], [/] or [=]; in particular it holds no
    quote and no angle bracket, so it cannot end the [href] attribute it is
    written into. *)
Theorem b64encode_text (bs : list byte) :
  length (b64encode bs) = (4 * ((length bs + 2) / 3))%nat
  /\ Forall (fun c => b64_text_char c = true) (b64encode bs)
  /\ ~ In 34 (b64encode bs) /\ ~ In 60 (b64encode bs)
  /\ ~ In 62 (b64encode bs).
Proof.
  assert (Hchars : Forall (fun c => b64_text_char c = true) (b64encode bs)).
  { induction bs as [|a|a b|a b c rest IH] using list_ind3.
    - constructor.
    - pose proof (Byte.to_N_bounded a) as Ha.
      assert (H0 : 0 <= 255) by lia.
      destruct (sextets_bounded _ 0 0 Ha H0 H0) as (B1 & B2 & _ & _).
      replace (Byte.to_N a * 65536 + 0 * 256 + 0)
        with (Byte.to_N a * 65536) in * by lia.
      cbn [b64encode]. repeat constructor; now apply b64_char_text.
    - pose proof (Byte.to_N_bounded a) as Ha.
      pose proof (Byte.to_N_bounded b) as Hb.
      assert (H0 : 0 <= 255) by lia.
      destruct (sextets_bounded _ _ 0 Ha Hb H0) as (B1 & B2 & B3 & _).
      replace (Byte.to_N a * 65536 + Byte.to_N b * 256 + 0)
        with (Byte.to_N a * 65536 + Byte.to_N b * 256) in * by lia.
      cbn [b64encode]. repeat constructor; now apply b64_char_text.
    - pose proof (Byte.to_N_bounded a) as Ha.
      pose proof (Byte.to_N_bounded b) as Hb.
      pose proof (Byte.to_N_bounded c) as Hc.
      destruct (sextets_bounded _ _ _ Ha Hb Hc) as (B1 & B2 & B3 & B4).
      cbn [b64encode]. cbv zeta. cbn [app].
      repeat (constructor; [now apply b64_char_text|]). exact IH. }
  split; [|split; [exact Hchars|]].
  - clear Hchars.
    induction bs as [|a|a b|a b c rest IH] using list_ind3;
      try reflexivity.
    cbn [b64encode]. cbv zeta. cbn [app length]. rewrite IH.
    replace (S (S (S (length rest))) + 2)%nat
      with (length rest + 2 + 1 * 3)%nat by lia.
    rewrite Nat.div_add by lia. lia.
  - rewrite List.Forall_forall in Hchars.
    repeat split; intros H; apply Hchars in H; discriminate H.
Qed.

(** ** The test on the training summary *)

Lemma filter_eq_absent {A} `{EqDecision A} (l : list A) (p : A) :
  ~ In p l -> List.filter (fun x => bool_decide (x = p)) l = [].
Proof.
  induction l as [|x l IH]; simpl; [reflexivity|]. intros H.
  rewrite bool_decide_false by (intros ->; tauto). apply IH. tauto.
Qed.

Lemma NoDup_filter_eq {A} `{EqDecision A} (l : list A) (p : A) :
  NoDup l ->
  (length (List.filter (fun x => bool_decide (x = p)) l) <= 1)%nat.
Proof.
  induction 1 as [|x l Hx Hl IH]; simpl; [lia|].
  destruct (bool_decide_reflect (x = p)) as [->|Hne]; [|exact IH].
  simpl. rewrite filter_eq_absent; [simpl; lia|].
  intros Hin. apply Hx. now apply list_elem_of_In.
Qed.

Lemma crosstab_of_distinct_pairs a b :
  NoDup (combine a b) ->
  Forall (Forall (fun n => n = 0%Z \/ n = 1%Z)) (ct_table (crosstab a b)).
Proof.
  intros Hnd. unfold crosstab. cbn [ct_table].
  apply List.Forall_forall. intros rw Hrw.
  apply in_map_iff in Hrw as (i & <- & _).
  apply List.Forall_forall. intros n Hn.
  apply in_map_iff in Hn as (j & <- & _).
  unfold pair_count.
  assert (Hf : NoDup (List.filter both_present (combine a b))).
  { clear -Hnd. induction Hnd as [|x l Hx Hl IH]; simpl; [constructor|].
    destruct (both_present x); [|exact IH]. constructor; [|exact IH].
    intros Hin. apply Hx. apply list_elem_of_In in Hin.
    apply filter_In in Hin as [Hin _]. now apply list_elem_of_In. }
  pose proof (NoDup_filter_eq _ (i, j) Hf) as Hle. lia.
Qed.

Lemma aggregate5_training_test float chi2 fmt df s chi :
  aggregate5 float chi2 fmt df = Ok (s, chi) ->
  exists tr0 c2,
    groupby_size df [TRAINING; REPORT] Count = Ok tr0
    /\ set_columns tr0 [Training; Know_Whom; Count]
       = Ok (training_reporting_df s)
    /\ chi_square_test float chi2 fmt (training_reporting_df s)
         Training Know_Whom = Ok c2
    /\ snd (fst chi) = fst c2.
Proof.
  unfold aggregate5. intros H.
  inv_bind H as aw Haw. inv_bind H as a Ha.
  inv_bind H as ar0 Har0. inv_bind H as ar Har. inv_bind H as c1 Hc1.
  inv_bind H as tr0 Htr0. inv_bind H as tr1 Htr1. inv_bind H as tr2 Htr2.
  inv_bind H as c2 Hc2.
  inv_bind H as ga0 Hga0. inv_bind H as ga Hga. inv_bind H as c3 Hc3.
  injection H as <- <-. cbn [training_reporting_df fst snd].
  destruct (groupby_size_sum _ _ _ [Training; Know_Whom] _ Htr0 Htr1)
    as (i2 & Hi2 & T2 & C2 & R2); [cbn; intuition discriminate|].
  rewrite (dropna_keys tr1 Training Know_Whom) in Htr2;
    [|discriminate|exact C2|exact R2].
  injection Htr2 as <-. exists tr0, c2. auto.
Qed.

(** X10: in data_analytics5.py the training test is run on the summary
    table, not on the respondents: its contingency table counts each
    combination of training and reporting answers once, so every cell is 0
    or 1 whatever the counts of the summary are. *)
Theorem training_test_table_is_binary (float : Type)
    (chi2 : list (list Z) -> float * float * Z) (fmt : nat -> float -> pystr)
    (df : DataFrame) (s : Summaries) (chi : pystr * pystr * pystr) :
  aggregate5 float chi2 fmt df = Ok (s, chi) ->
  exists a b c2,
    getitem (training_reporting_df s) Training = Ok a
    /\ getitem (training_reporting_df s) Know_Whom = Ok b
    /\ chi_square_test float chi2 fmt (training_reporting_df s)
         Training Know_Whom = Ok c2
    /\ snd (fst chi) = fst c2
    /\ Forall (Forall (fun n => n = 0%Z \/ n = 1%Z))
              (ct_table (crosstab a b)).
Proof.
  intros H.
  apply aggregate5_training_test in H as (tr0 & c2 & Hg & Hs & Hc & Hm).
  destruct (groupby_size_groups _ _ _ Hg) as (groups & Hr & Hnd & Hall).
  apply set_columns_Ok in Hs as [Hcols Hrows].
  destruct (training_reporting_df s) as [cols rws].
  cbn [columns rows] in Hcols, Hrows. subst cols. rewrite Hr in Hrows.
  subst rws.
  exists (List.map (fun r => nth 0 r Null)
            (List.map (fun gr : list cell * list row =>
                         fst gr ++ [Int (count_of gr)]) groups)),
         (List.map (fun r => nth 1 r Null)
            (List.map (fun gr : list cell * list row =>
                         fst gr ++ [Int (count_of gr)]) groups)), c2.
  split; [reflexivity|]. split; [reflexivity|].
  split; [exact Hc|]. split; [exact Hm|].
  apply crosstab_of_distinct_pairs.
  clear Hc Hg Hr. induction groups as [|g groups IH]; [constructor|].
  cbn [List.map combine].
  apply NoDup_cons in Hnd as [Hg Hnd].
  apply List.Forall_cons_iff in Hall as [(Hl & _ & _) Hall].
  constructor; [|now apply IH].
  intros Hin. apply Hg. apply list_elem_of_In in Hin. apply list_elem_of_In.
  apply in_combine_l in Hin as Hin1.
  destruct (fst g) as [|x [|y [|z k]]] eqn:Eg; try discriminate Hl.
  cbn [app nth] in Hin.
  clear -Hin Hall. induction groups as [|g' groups IH]; [destruct Hin|].
  apply List.Forall_cons_iff in Hall as [(Hl' & _ & _) Hall].
  cbn [List.map combine] in Hin. destruct Hin as [E|Hin].
  - left. destruct (fst g') as [|x' [|y' [|z' k']]]; try discriminate Hl'.
    cbn [app nth] in E. now injection E as -> ->.
  - right. now apply IH.
Qed.

Lemma training_test_table_witness :
  exists s chi a b,
    aggregate5 Z sample_chi2 sample_fmt sample_clean = Ok (s, chi)
    /\ getitem (training_reporting_df s) Training = Ok a
    /\ getitem (training_reporting_df s) Know_Whom = Ok b
    /\ Forall (Forall (fun n => n = 0%Z \/ n = 1%Z))
              (ct_table (crosstab a b)).
Proof.
  destruct (aggregate5 Z sample_chi2 sample_fmt sample_clean)
    as [[s chi]|] eqn:H; [|vm_compute in H; discriminate H].
  destruct (training_test_table_is_binary _ _ _ _ _ _ H)
    as (a & b & c2 & Ha & Hb & _ & _ & Ht).
  exists s, chi, a, b. auto.
Defined.

(** ** The range of the printed percentage *)

Lemma tenths_range (yes total : Z) :
  (1 <= yes <= total)%Z -> (total <= 2 ^ 40)%Z ->
  (0 <= tenths (percentage yes total) <= 1000)%Z.
Proof.
  intros Hy Ht. pose proof (percentage_tenths_nearest yes total Hy Ht) as H.
  set (t := tenths _) in *. clearbody t. split.
  - destruct (Z_le_gt_dec 0 t) as [|Hneg]; [assumption|exfalso].
    assert (t * total <= - total)%Z by nia. lia.
  - destruct (Z_le_gt_dec t 1000) as [|Hbig]; [assumption|exfalso].
    assert (1001 * total <= t * total)%Z by nia. lia.
Qed.

Lemma group_size_le_total {K R} (gs : list (K * list R)) g :
  In g gs -> (length (snd g) <= total_size gs)%nat.
Proof.
  induction gs as [|h gs IH]; simpl; [tauto|].
  intros [->|Hin]; [lia|]. specialize (IH Hin). lia.
Qed.

Lemma values0_In (s : list cell) c : values0 s = Ok c -> In c s.
Proof. destruct s; simpl; [discriminate|]. intros [= ->]. now left. Qed.

(** The awareness figure of the SQL scripts is computed from one of the
    counts of the summary and their sum, whatever the grouping column. *)
Lemma awareness_pct_counts df a pct :
  run_select q_awareness df = Ok a ->
  awareness_pct a = Ok pct ->
  exists yes,
    (1 <= yes <= Z.of_nat (length (rows df)))%Z
    /\ pct = format_1f (percentage yes (Z.of_nat (length (rows df)))).
Proof.
  intros Ha Hp.
  apply run_select_count in Ha as (cidx & kidx & Hci & _ & Hcols & Hrows).
  apply mapR_length in Hci. cbn [length] in Hci.
  destruct cidx as [|i [|? ?]]; try discriminate Hci. clear Hci.
  destruct a as [cols rws]. cbn [columns rows List.map snd app] in Hcols, Hrows.
  subst cols.
  set (groups := group_rows _) in Hrows.
  assert (Erws : rws = List.map (fun g => [nth i (hd [] (snd g)) Null;
                                          Int (count_of g)]) groups)
    by (rewrite Hrows; reflexivity).
  clear Hrows. subst rws.
  unfold awareness_pct in Hp. rewrite total_rows, bind_ret_l in Hp.
  cbv zeta in Hp. rewrite map_map in Hp. cbn [nth] in Hp.
  rewrite series_sum_counts in Hp. unfold groups in Hp at 1.
  rewrite group_rows_total, length_map in Hp.
  inv_bind Hp as yes Hy. injection Hp as <-.
  rewrite yes_count_rows, filter_map_comm, map_map in Hy. cbn [nth] in Hy.
  inv_bind Hy as c Hc. apply values0_In in Hc.
  apply in_map_iff in Hc as (g & <- & Hg). apply filter_In in Hg as [Hg _].
  cbn [as_int] in Hy. injection Hy as <-.
  exists (count_of g). split; [|reflexivity]. split.
  - now apply group_rows_count_pos in Hg.
  - pose proof (group_size_le_total _ _ Hg) as Hle. unfold groups in Hle.
    rewrite group_rows_total, length_map in Hle. unfold count_of.
    apply inj_le. exact Hle.
Qed.

(** In data_analytics5.py the count divided is the number of [Yes]
    answers, and there is at least one when a figure is produced. *)
Lemma awareness_pct5_counts df aw a yes pct :
  set_columns (value_counts_frame AWARE aw) [Awareness; Count] = Ok a ->
  awareness_pct5 df a = Ok (yes, pct) ->
  (1 <= yes)%Z /\ yes = count_text Yes aw
  /\ pct = format_1f (percentage yes (Z.of_nat (length (rows df)))).
Proof.
  intros Ha Hp.
  destruct (Z_le_gt_dec 1 (count_text Yes aw)) as [Hyes|Hno].
  - rewrite (awareness_pct5_pandas df aw a Ha Hyes) in Hp.
    injection Hp as <- <-. auto.
  - exfalso. apply set_columns_Ok in Ha as [Hc Hr].
    destruct a as [cols rws]. cbn [columns rows] in Hc, Hr. subst cols rws.
    unfold awareness_pct5, value_counts_frame in Hp. cbn [rows] in Hp.
    rewrite yes_count_rows, filter_map_comm in Hp. cbn [nth] in Hp.
    rewrite (filter_absent_key (value_counts aw) (Text Yes)) in Hp;
      [discriminate Hp|].
    intros n Hn. apply (Permutation_in _ (value_counts_perm aw)) in Hn.
    apply tally_entries in Hn as (_ & Hpos & Hcnt). cbn [fst snd] in Hpos, Hcnt.
    unfold count_text in Hno. unfold count_cell in Hcnt. lia.
Qed.

(** X11: whenever a script completes on a sheet of at most 2^40 rows, the
    percentage it prints lies between 0.0 and 100.0: it is the rendering
    of a number of tenths between 0 and 1000.  This holds in the SQL
    scripts whichever column the awareness query ends up grouping by. *)
Theorem printed_percentage_range :
  (forall rw path fs conn df r,
      load rw clean_column fs path = Ok df ->
      (Z.of_nat (length (rows df)) <= 2 ^ 40)%Z ->
      run_sql rw path fs conn = Ok r ->
      exists x, run_pct r = format_1f x /\ (0 <= tenths x <= 1000)%Z)
  /\ (forall rw ww path embed fs conn df r,
      load rw clean_column fs path = Ok df ->
      (Z.of_nat (length (rows df)) <= 2 ^ 40)%Z ->
      run3 rw ww path embed fs conn = Ok r ->
      exists x, run_pct r = format_1f x /\ (0 <= tenths x <= 1000)%Z)
  /\ (forall rw ww float chi2 fmt path embed fs conn df r,
      load rw clean_column5 fs path = Ok df ->
      (Z.of_nat (length (rows df)) <= 2 ^ 40)%Z ->
      run5 rw ww float chi2 fmt path embed fs conn = Ok r ->
      exists x, run_pct r = format_1f x /\ (0 <= tenths x <= 1000)%Z).
Proof.
  split; [|split].
  - intros rw path fs conn df r Hdf Hlen H.
    apply run_sql_reports_pct in H as (df' & a & Hdf' & Ha & Hp & _).
    assert (df' = df) by congruence. subst df'.
    destruct (awareness_pct_counts _ _ _ Ha Hp) as (yes & Hy & ->).
    rewrite sql_store_length in *.
    eexists. split; [reflexivity|]. now apply tenths_range.
  - intros rw ww path embed fs conn df r Hdf Hlen H.
    unfold run3 in H. rewrite Hdf, bind_ret_l in H.
    rewrite embed_dataset_eq, bind_ret_l in H. cbv beta iota in H.
    inv_bind H as conn' Hc. inv_bind H as s Hs. inv_bind H as u Hu.
    inv_bind H as counts Hcounts. inv_bind H as pct Hp. injection H as <-.
    cbn [run_pct]. apply persist_lookup in Hc.
    unfold aggregate_sql in Hs. inv_bind Hs as a Ha.
    inv_bind Hs as ar Har. inv_bind Hs as tr Htr. inv_bind Hs as ga Hga.
    injection Hs as <-. cbn [awareness_df] in Hp.
    apply read_sql_query_Ok in Ha as (t & Ht & Ha).
    cbn [sel_from q_awareness count_query] in Ht.
    assert (t = sql_store df) by congruence. subst t.
    destruct (awareness_pct_counts _ _ _ Ha Hp) as (yes & Hy & ->).
    rewrite sql_store_length in *.
    eexists. split; [reflexivity|]. now apply tenths_range.
  - intros rw ww float chi2 fmt path embed fs conn df r Hdf Hlen H.
    apply run5_reports_pct in H
      as (df' & aw & yes & chi & Hdf' & Haw & Ha & Hp & _).
    assert (df' = df) by congruence. subst df'.
    destruct (awareness_pct5_counts _ _ _ _ _ Ha Hp) as (Hpos & Hy & Hpct).
    rewrite Hpct. eexists. split; [reflexivity|].
    apply tenths_range; [|assumption]. split; [assumption|]. subst yes.
    pose proof (count_text_le Yes aw) as Hle.
    now rewrite (getitem_length _ _ _ Haw) in Hle.
Qed.

Lemma printed_percentage_range_witness :
  exists r x,
    run_sql sample_reader (py "data.xlsx") sample_fs ∅ = Ok r
    /\ run_pct r = format_1f x /\ (0 <= tenths x <= 1000)%Z.
Proof.
  destruct (run_sql sample_reader (py "data.xlsx") sample_fs ∅)
    as [r|] eqn:Hr; [|vm_compute in Hr; discriminate Hr].
  destruct (proj1 printed_percentage_range sample_reader (py "data.xlsx")
              sample_fs ∅ sample_clean r) as (x & Hx);
    [vm_compute; reflexivity|vm_compute; discriminate|exact Hr|].
  exists r, x. split; [reflexivity|exact Hx].
Defined.

(** ** The order of group keys *)

Section Lex.
Context {A : Type} (cmp : A -> A -> comparison).
Hypothesis cmp_eq : forall x y, cmp x y = Eq -> x = y.
Hypothesis cmp_refl : forall x, cmp x x = Eq.
Hypothesis cmp_antisym : forall x y, cmp y x = CompOpp (cmp x y).
Hypothesis cmp_trans :
  forall x y z, cmp x y = Lt -> cmp y z = Lt -> cmp x z = Lt.

Lemma lex_compare_eq (a b : list A) : lex_compare cmp a b = Eq -> a = b.
Proof.
  revert b. induction a as [|x a IH]; intros [|y b]; simpl;
    try discriminate; [reflexivity|].
  destruct (cmp x y) eqn:E; try discriminate.
  intros H. apply cmp_eq in E. apply IH in H. congruence.
Qed.

Lemma lex_compare_refl (a : list A) : lex_compare cmp a a = Eq.
Proof.
  induction a as [|x a IH]; simpl; [reflexivity|]. now rewrite cmp_refl.
Qed.

Lemma lex_compare_antisym (a b : list A) :
  lex_compare cmp b a = CompOpp (lex_compare cmp a b).
Proof.
  revert b. induction a as [|x a IH]; intros [|y b]; simpl; try reflexivity.
  rewrite (cmp_antisym x y). destruct (cmp x y); simpl; auto.
Qed.

Lemma lex_compare_trans (a b c : list A) :
  lex_compare cmp a b = Lt -> lex_compare cmp b c = Lt ->
  lex_compare cmp a c = Lt.
Proof.
  revert b c. induction a as [|x a IH]; intros [|y b] [|z c]; simpl;
    try discriminate; try reflexivity.
  destruct (cmp x y) eqn:Exy; try discriminate;
    destruct (cmp y z) eqn:Eyz; try discriminate; intros H1 H2.
  - apply cmp_eq in Exy, Eyz. subst y z. rewrite cmp_refl. eauto.
  - apply cmp_eq in Exy. subst y. now rewrite Eyz.
  - apply cmp_eq in Eyz. subst z. now rewrite Exy.
  - now rewrite (cmp_trans _ _ _ Exy Eyz).
Qed.
End Lex.

Lemma str_compare_lex (a b : pystr) :
  str_compare a b = lex_compare N.compare a b.
Proof.
  revert b. induction a as [|x a IH]; intros [|y b]; simpl; try reflexivity.
  now rewrite IH.
Qed.

Lemma key_compare_lex (a b : list cell) :
  key_compare a b = lex_compare cell_compare a b.
Proof.
  revert b. induction a as [|x a IH]; intros [|y b]; simpl; try reflexivity.
  now rewrite IH.
Qed.

Lemma N_compare_trans (x y z : N) :
  N.compare x y = Lt -> N.compare y z = Lt -> N.compare x z = Lt.
Proof. rewrite !N.compare_lt_iff. lia. Qed.

Lemma Z_compare_trans (x y z : Z) :
  Z.compare x y = Lt -> Z.compare y z = Lt -> Z.compare x z = Lt.
Proof. rewrite !Z.compare_lt_iff. lia. Qed.

Lemma str_compare_eq (a b : pystr) : str_compare a b = Eq -> a = b.
Proof.
  rewrite str_compare_lex. apply lex_compare_eq. apply N.compare_eq.
Qed.

Lemma str_compare_refl (a : pystr) : str_compare a a = Eq.
Proof. rewrite str_compare_lex. apply lex_compare_refl, N.compare_refl. Qed.

Lemma str_compare_antisym (a b : pystr) :
  str_compare b a = CompOpp (str_compare a b).
Proof.
  rewrite !str_compare_lex. apply lex_compare_antisym.
  intros x y. apply N.compare_antisym.
Qed.

Lemma str_compare_trans (a b c : pystr) :
  str_compare a b = Lt -> str_compare b c = Lt -> str_compare a c = Lt.
Proof.
  rewrite !str_compare_lex.
  apply lex_compare_trans;
    [apply N.compare_eq|apply N.compare_refl|apply N_compare_trans].
Qed.

Lemma cell_compare_eq (a b : cell) : cell_compare a b = Eq -> a = b.
Proof.
  destruct a, b; simpl; try discriminate; try reflexivity; intros H.
  - apply Z.compare_eq in H. congruence.
  - apply str_compare_eq in H. congruence.
Qed.

Lemma cell_compare_refl (a : cell) : cell_compare a a = Eq.
Proof.
  destruct a; simpl; [reflexivity|apply Z.compare_refl|apply str_compare_refl].
Qed.

Lemma cell_compare_antisym (a b : cell) :
  cell_compare b a = CompOpp (cell_compare a b).
Proof.
  destruct a, b; simpl; try reflexivity;
    [apply Z.compare_antisym|apply str_compare_antisym].
Qed.

Lemma cell_compare_trans (a b c : cell) :
  cell_compare a b = Lt -> cell_compare b c = Lt -> cell_compare a c = Lt.
Proof.
  destruct a, b, c; simpl; try discriminate; try reflexivity;
    [apply Z_compare_trans|apply str_compare_trans].
Qed.

Lemma key_compare_eq (a b : list cell) : key_compare a b = Eq -> a = b.
Proof.
  rewrite key_compare_lex. apply lex_compare_eq, cell_compare_eq.
Qed.

Lemma key_compare_refl (a : list cell) : key_compare a a = Eq.
Proof. rewrite key_compare_lex. apply lex_compare_refl, cell_compare_refl. Qed.

Lemma key_compare_antisym (a b : list cell) :
  key_compare b a = CompOpp (key_compare a b).
Proof.
  rewrite !key_compare_lex. apply lex_compare_antisym, cell_compare_antisym.
Qed.

Lemma key_compare_trans (a b c : list cell) :
  key_compare a b = Lt -> key_compare b c = Lt -> key_compare a c = Lt.
Proof.
  rewrite !key_compare_lex.
  apply lex_compare_trans;
    [apply cell_compare_eq|apply cell_compare_refl|apply cell_compare_trans].
Qed.

Lemma key_le_trans (g h k : list cell * list row) :
  key_le g h -> key_le h k -> key_le g k.
Proof.
  unfold key_le. intros Hgh Hhk.
  destruct (key_compare (fst g) (fst h)) eqn:E1; [| |congruence].
  - apply key_compare_eq in E1. now rewrite E1.
  - destruct (key_compare (fst h) (fst k)) eqn:E2; [| |congruence].
    + apply key_compare_eq in E2. rewrite <- E2, E1. discriminate.
    + rewrite (key_compare_trans _ _ _ E1 E2). discriminate.
Qed.

Lemma key_le_total (g h : list cell * list row) :
  key_compare (fst g) (fst h) = Gt -> key_le h g.
Proof.
  unfold key_le. intros E. rewrite key_compare_antisym, E. discriminate.
Qed.

Lemma insert_by_key_sorted g l :
  StronglySorted key_le l -> StronglySorted key_le (insert_by_key g l).
Proof.
  induction 1 as [|h t Ht IH Hh]; simpl.
  - repeat constructor.
  - destruct (key_compare (fst g) (fst h)) eqn:E.
    + constructor; [now constructor|]. constructor.
      * unfold key_le. rewrite E. discriminate.
      * eapply List.Forall_impl; [|exact Hh]. intros k Hk.
        apply (key_le_trans g h k); [|exact Hk].
        unfold key_le. rewrite E. discriminate.
    + constructor; [now constructor|]. constructor.
      * unfold key_le. rewrite E. discriminate.
      * eapply List.Forall_impl; [|exact Hh]. intros k Hk.
        apply (key_le_trans g h k); [|exact Hk].
        unfold key_le. rewrite E. discriminate.
    + constructor; [exact IH|].
      apply (Permutation_Forall (Permutation_sym (insert_by_key_perm g t))).
      constructor; [now apply key_le_total|exact Hh].
Qed.

Lemma sort_groups_sorted l : StronglySorted key_le (sort_groups l).
Proof.
  induction l as [|g l IH]; simpl; [constructor|].
  now apply insert_by_key_sorted.
Qed.

(** ** The pandas summaries against the SQL summaries *)

Lemma add_to_group_filter {K R : Type} `{EqDecision K} (P : K -> bool)
    (k : K) (r : R) (acc : list (K * list R)) :
  List.filter (fun g => P (fst g)) (add_to_group k r acc)
  = if P k then add_to_group k r (List.filter (fun g => P (fst g)) acc)
    else List.filter (fun g => P (fst g)) acc.
Proof.
  induction acc as [|[k' rs] acc IH]; cbn [add_to_group List.filter fst].
  - now destruct (P k).
  - destruct (bool_decide_reflect (k = k')) as [<-|Hne];
      cbn [List.filter fst].
    + destruct (P k); cbn [add_to_group]; [|reflexivity].
      now rewrite bool_decide_true.
    + rewrite IH. destruct (P k), (P k'); cbn [add_to_group]; try reflexivity.
      now rewrite bool_decide_false.
Qed.

Lemma collect_filter {K R : Type} `{EqDecision K} (P : K -> bool)
    (keyed : list (K * R)) :
  collect (List.filter (fun kr => P (fst kr)) keyed)
  = List.filter (fun g => P (fst g)) (collect keyed).
Proof.
  unfold collect.
  change (@nil (K * list R))
    with (List.filter (fun g : K * list R => P (fst g)) []) at 1.
  generalize (@nil (K * list R)) as acc.
  induction keyed as [|[k r] keyed IH]; intros acc; [reflexivity|].
  cbn [List.filter fold_left fst snd].
  rewrite <- IH, add_to_group_filter.
  destruct (P k); reflexivity.
Qed.

Lemma insert_by_key_filter (P : list cell * list row -> bool) g l :
  StronglySorted key_le l ->
  List.filter P (insert_by_key g l)
  = if P g then insert_by_key g (List.filter P l) else List.filter P l.
Proof.
  induction 1 as [|h t Ht IH Hh]; cbn [insert_by_key List.filter].
  - now destruct (P g).
  - destruct (key_compare (fst g) (fst h)) eqn:E.
    1,2: cbn [List.filter]; destruct (P g); [|reflexivity];
      assert (Hle : Forall (key_le g) (h :: t))
        by (constructor;
            [unfold key_le; rewrite E; discriminate
            |eapply List.Forall_impl; [|exact Hh]; intros k Hk;
             apply (key_le_trans g h k); [|exact Hk];
             unfold key_le; rewrite E; discriminate]);
      assert (Hf : Forall (key_le g) (List.filter P (h :: t)))
        by (apply List.Forall_forall; intros k Hk;
            apply filter_In in Hk as [Hk _];
            now apply (proj1 (List.Forall_forall _ _) Hle));
      cbn [List.filter] in Hf;
      destruct (if P h then h :: List.filter P t else List.filter P t)
        as [|k l'] eqn:El; [reflexivity|];
      apply List.Forall_cons_iff in Hf as [Hk _];
      cbn [insert_by_key]; unfold key_le in Hk;
      destruct (key_compare (fst g) (fst k)); congruence.
    + cbn [List.filter]. rewrite IH.
      destruct (P h), (P g); cbn [insert_by_key]; try reflexivity.
      now rewrite E.
Qed.

Lemma sort_groups_filter (P : list cell * list row -> bool) l :
  sort_groups (List.filter P l) = List.filter P (sort_groups l).
Proof.
  induction l as [|g l IH]; [reflexivity|].
  cbn [sort_groups fold_right List.filter]. fold (sort_groups l).
  rewrite (insert_by_key_filter P g _ (sort_groups_sorted l)), <- IH.
  destruct (P g); reflexivity.
Qed.

(** Grouping the rows whose key passes a test gives the groups whose key
    passes it, in the same order. *)
Lemma group_rows_filter (P : list cell -> bool) keyed :
  group_rows (List.filter (fun kr => P (fst kr)) keyed)
  = List.filter (fun g => P (fst g)) (group_rows keyed).
Proof.
  unfold group_rows. now rewrite collect_filter, sort_groups_filter.
Qed.

Lemma index_of_In c cols i : index_of c cols = Some i -> In c cols.
Proof.
  revert i. induction cols as [|x cols IH]; simpl; intros i; [discriminate|].
  destruct (bool_decide_reflect (c = x)) as [->|Hne]; [now left|].
  destruct (index_of c cols) as [j|]; [|discriminate]. intros _.
  right. now apply (IH j).
Qed.

(** In a table SQLite accepts, a column found by its exact name is the
    column SQLite finds. *)
Lemma find_column_index_of c cols i :
  NoDup (List.map sql_ident cols) ->
  index_of c cols = Some i -> find_column c cols = Some i.
Proof.
  revert i. induction cols as [|x cols IH]; simpl; intros i Hnd;
    [discriminate|].
  apply NoDup_cons in Hnd as [Hx Hnd].
  destruct (bool_decide_reflect (c = x)) as [->|Hne].
  - intros H. unfold sql_ident_eqb. now rewrite bool_decide_true.
  - destruct (index_of c cols) as [j|] eqn:Ej; [|discriminate].
    intros H. unfold sql_ident_eqb.
    rewrite bool_decide_false.
    + now rewrite (IH j Hnd eq_refl).
    + intros E. apply Hx. rewrite <- E. apply list_elem_of_In.
      apply in_map. now apply (index_of_In _ _ j).
Qed.

Lemma find_alias_own keys rest ca :
  NoDup (List.map (fun ca => sql_ident (snd ca)) keys) ->
  In ca keys ->
  find_alias (snd ca)
    (List.map (fun ca => (Col (fst ca), snd ca)) keys ++ rest)
  = Some (Col (fst ca)).
Proof.
  induction keys as [|k keys IH]; simpl; [tauto|]. intros Hnd Hin.
  apply NoDup_cons in Hnd as [Hk Hnd]. unfold sql_ident_eqb.
  destruct Hin as [->|Hin]; [now rewrite bool_decide_true|].
  rewrite bool_decide_false; [now apply IH|].
  intros E. apply Hk. rewrite <- E. apply list_elem_of_In.
  now apply (in_map (fun ca => sql_ident (snd ca))).
Qed.

Lemma lookup_columns_find df keys idx :
  NoDup (List.map sql_ident (columns df)) ->
  lookup_columns df (List.map fst keys) = Ok idx ->
  mapR (column_of (columns df)) keys = Ok idx.
Proof.
  intros Hnd. unfold lookup_columns. revert idx.
  induction keys as [|ca keys IH]; intros idx; [auto|].
  cbn [List.map mapR]. intros H.
  inv_bind H as i Hi. inv_bind H as l Hl. injection H as <-.
  rewrite (IH l Hl). unfold column_of.
  destruct (index_of (fst ca) (columns df)) as [j|] eqn:Ej; [|discriminate].
  cbn in Hi. injection Hi as ->.
  now rewrite (find_column_index_of _ _ _ Hnd Ej).
Qed.

Lemma forallb_notnull_count k n :
  forallb notnull (k ++ [Int n]) = forallb notnull k.
Proof. rewrite forallb_app. cbn. now rewrite !andb_true_r. Qed.

(** A grouping by columns in pandas against the SQL query that counts the
    same columns: the pandas summary is the SQL summary without the rows
    that have a missing key. *)
Lemma groupby_size_sql keys df s g p :
  NoDup (List.map sql_ident (columns df)) ->
  NoDup (List.map (fun ca => sql_ident (snd ca)) keys) ->
  (forall ca, In ca keys -> find_column (snd ca) (columns df) = None) ->
  run_select (count_query keys) df = Ok s ->
  groupby_size df (List.map fst keys) Count = Ok g ->
  set_columns g (List.map snd keys ++ [Count]) = Ok p ->
  p = present s.
Proof.
  intros Hnd Hal Hno Hs Hg Hp.
  apply run_select_count in Hs as (cidx & kidx & Hc & Hk & Hcols & Hrows).
  apply groupby_size_shape in Hg as (idx & Hidx & ->).
  apply set_columns_Ok in Hp as [Hpc Hpr]. cbn [rows] in Hpr.
  pose proof (lookup_columns_find _ _ _ Hnd Hidx) as Hidx'.
  assert (cidx = idx) by congruence. subst cidx.
  assert (kidx = idx).
  { rewrite mapR_map in Hk.
    rewrite (mapR_ext _ (column_of (columns df))) in Hk; [congruence|].
    intros ca Hca. unfold resolve_group. rewrite (Hno ca Hca).
    cbn [sel_list count_query].
    rewrite (find_alias_own keys _ ca Hal Hca). reflexivity. }
  subst kidx.
  destruct p as [pc pr], s as [sc sr]. unfold present.
  cbn [columns rows] in *. subst pc pr sc sr. f_equal.
  set (keyed := List.map (fun r => (project idx r, r)) (rows df)).
  rewrite (map_ext_in _ (fun g => fst g ++ [Int (count_of g)])
             (group_rows keyed)).
  - rewrite filter_map_comm.
    rewrite (filter_ext_in' _ (fun g => forallb notnull (fst g)))
      by (intros; apply forallb_notnull_count).
    rewrite <- (group_rows_filter (forallb notnull)). subst keyed.
    rewrite filter_map_comm. reflexivity.
  - intros g Hg. f_equal.
    apply group_rows_project in Hg as (r & _ & _ & Hin & Hall).
    apply (hd_Forall (fun r' => project idx r' = fst g)); [|exact Hall].
    intros E. exact (eq_ind _ (fun l => In r l) Hin _ E).
Qed.

Lemma persist_NoDup df conn conn' :
  persist df conn = Ok conn' -> NoDup (List.map sql_ident (columns df)).
Proof.
  intros H. apply persist_Ok in H as (_ & Hc & _). unfold creatable in Hc.
  apply andb_true_iff in Hc as [_ Hc]. now apply bool_decide_eq_true in Hc.
Qed.

Lemma persist_lookup_unmixed df conn conn' :
  unmixed df -> persist df conn = Ok conn' -> conn' !! survey = Some df.
Proof.
  intros Hu H. apply persist_lookup in H. now rewrite sql_store_unmixed in H.
Qed.

(** X12: on a table the store accepts, in which no column holds both text
    and numbers and none is named like an alias of the queries, the three
    two-key summaries of data_analytics5.py are those of
    data_analytics3.py without the rows for a missing answer: same
    columns, same rows in the same order. *)
Theorem pandas_summaries_drop_missing_groups
    (float : Type) (chi2 : list (list Z) -> float * float * Z)
    (fmt : nat -> float -> pystr) (df : DataFrame)
    (conn0 conn : gmap pystr DataFrame) (s s5 : Summaries)
    (chi : pystr * pystr * pystr) :
  persist df conn0 = Ok conn ->
  unmixed df ->
  Forall (fun a => find_column a (columns df) = None)
         [Awareness; Know_Whom; Training; Gender] ->
  aggregate_sql Know_Whom conn = Ok s ->
  aggregate5 float chi2 fmt df = Ok (s5, chi) ->
  awareness_reporting_df s5 = present (awareness_reporting_df s)
  /\ training_reporting_df s5 = present (training_reporting_df s)
  /\ gender_awareness_df s5 = present (gender_awareness_df s).
Proof.
  intros Hp Hu Hno Hs H5.
  pose proof (persist_NoDup _ _ _ Hp) as Hnd.
  apply (persist_lookup_unmixed _ _ _ Hu) in Hp.
  apply List.Forall_cons_iff in Hno as [Ha Hno].
  apply List.Forall_cons_iff in Hno as [Hk Hno].
  apply List.Forall_cons_iff in Hno as [Ht Hno].
  apply List.Forall_cons_iff in Hno as [Hg _].
  unfold aggregate_sql in Hs. inv_bind Hs as a Hqa.
  inv_bind Hs as ar Har. inv_bind Hs as tr Htr. inv_bind Hs as ga Hga.
  injection Hs as <-.
  cbn [awareness_reporting_df training_reporting_df gender_awareness_df].
  apply read_sql_query_Ok in Har as (t1 & E1 & Har).
  apply read_sql_query_Ok in Htr as (t2 & E2 & Htr).
  apply read_sql_query_Ok in Hga as (t3 & E3 & Hga).
  cbn [sel_from q_awareness_reporting q_training_reporting
       q_gender_awareness count_query] in E1, E2, E3.
  assert (t1 = df) by congruence. assert (t2 = df) by congruence.
  assert (t3 = df) by congruence. subst t1 t2 t3.
  apply aggregate5_inv in H5
    as (aw & ar0 & tr0 & ga0 & _ & _ & Har0 & Har5 & Htr0 & Htr5
        & Hga0 & Hga5).
  repeat split.
  - apply (groupby_size_sql [(AWARE, Awareness); (REPORT, Know_Whom)]
             df ar ar0); auto.
    + apply (bool_decide_unpack _). vm_compute. exact I.
    + intros ca [<-|[<-|[]]]; assumption.
  - apply (groupby_size_sql [(TRAINING, Training); (REPORT, Know_Whom)]
             df tr tr0); auto.
    + apply (bool_decide_unpack _). vm_compute. exact I.
    + intros ca [<-|[<-|[]]]; assumption.
  - apply (groupby_size_sql [(GENDER, Gender); (AWARE, Awareness)]
             df ga ga0); auto.
    + apply (bool_decide_unpack _). vm_compute. exact I.
    + intros ca [<-|[<-|[]]]; assumption.
Qed.

Lemma pandas_summaries_witness :
  exists conn s s5 chi,
    persist sample_clean ∅ = Ok conn
    /\ aggregate_sql Know_Whom conn = Ok s
    /\ aggregate5 Z sample_chi2 sample_fmt sample_clean = Ok (s5, chi)
    /\ awareness_reporting_df s5 = present (awareness_reporting_df s)
    /\ training_reporting_df s5 = present (training_reporting_df s)
    /\ gender_awareness_df s5 = present (gender_awareness_df s).
Proof.
  destruct (persist sample_clean ∅) as [conn|] eqn:Hp;
    [|vm_compute in Hp; discriminate Hp].
  destruct (aggregate_sql Know_Whom conn) as [s|] eqn:Hs.
  2: { rewrite persist_eq in Hp. vm_compute in Hp. injection Hp as <-.
       vm_compute in Hs. discriminate Hs. }
  destruct (aggregate5 Z sample_chi2 sample_fmt sample_clean)
    as [[s5 chi]|] eqn:H5; [|vm_compute in H5; discriminate H5].
  assert (Hno : Forall (fun a => find_column a (columns sample_clean) = None)
                  [Awareness; Know_Whom; Training; Gender])
    by (repeat constructor).
  pose proof (pandas_summaries_drop_missing_groups Z sample_chi2 sample_fmt
                sample_clean ∅ conn s s5 chi Hp sample_clean_unmixed
                Hno Hs H5) as H.
  exists conn, s, s5, chi. auto.
Defined.

(** ** The order of the rows of a summary *)

Lemma sorted_keys_strict (groups : list (list cell * list row)) :
  StronglySorted key_le groups -> NoDup (List.map fst groups) ->
  StronglySorted (fun g h => key_lt (fst g) (fst h)) groups.
Proof.
  induction 1 as [|g l Hl IH Hg]; intros Hnd; [constructor|].
  cbn [List.map] in Hnd. apply NoDup_cons in Hnd as [Hk Hnd].
  constructor; [now apply IH|].
  apply List.Forall_forall. intros h Hh.
  pose proof (proj1 (List.Forall_forall _ _) Hg h Hh) as Hle.
  unfold key_le in Hle. unfold key_lt.
  destruct (key_compare (fst g) (fst h)) eqn:E; [|reflexivity|congruence].
  exfalso. apply key_compare_eq in E. apply Hk. rewrite E.
  apply list_elem_of_In. now apply in_map.
Qed.

Lemma StronglySorted_map_in {A B : Type} (S : A -> A -> Prop)
    (R : B -> B -> Prop) (P : A -> Prop) (f : A -> B) (l : list A) :
  (forall x y, P x -> P y -> S x y -> R (f x) (f y)) ->
  Forall P l -> StronglySorted S l -> StronglySorted R (List.map f l).
Proof.
  intros HR HP Hs. induction Hs as [|x l Hl IH Hx]; [constructor|].
  apply List.Forall_cons_iff in HP as [Px HP].
  cbn [List.map]. constructor; [now apply IH|].
  apply List.Forall_forall. intros b Hb.
  apply in_map_iff in Hb as (y & <- & Hy).
  apply HR; [exact Px| |].
  - exact (proj1 (List.Forall_forall _ _) HP y Hy).
  - exact (proj1 (List.Forall_forall _ _) Hx y Hy).
Qed.

Lemma firstn_key (k : list cell) (c : cell) (n : nat) :
  length k = n -> firstn n (k ++ [c]) = k.
Proof.
  intros <-. rewrite firstn_app, Nat.sub_diag, firstn_all. cbn.
  apply app_nil_r.
Qed.

(** X13: the rows of a [groupby(keys).size()] summary come in strictly
    increasing order of their keys, compared one key after the other. *)
Theorem groupby_size_sorted (df : DataFrame) (keys : list pystr)
    (g : DataFrame) :
  groupby_size df keys Count = Ok g ->
  StronglySorted
    (fun r r' => key_lt (firstn (length keys) r) (firstn (length keys) r'))
    (rows g).
Proof.
  intros H. apply groupby_size_shape in H as (idx & Hi & ->). cbn [rows].
  apply mapR_length in Hi.
  set (groups := group_rows _).
  apply (StronglySorted_map_in
           (fun g h : list cell * list row => key_lt (fst g) (fst h)) _
           (fun g => length (fst g) = length keys)).
  - intros x y Hx Hy Hlt. now rewrite !firstn_key.
  - apply List.Forall_forall. intros gr Hg.
    apply groupby_size_keys in Hg as [Hl _]. congruence.
  - apply sorted_keys_strict; [|apply group_rows_NoDup].
    apply sort_groups_sorted.
Qed.

Lemma groupby_size_sorted_witness :
  exists g,
    groupby_size sample_clean [GENDER; AWARE] Count = Ok g
    /\ StronglySorted
         (fun r r' => key_lt (firstn 2 r) (firstn 2 r')) (rows g).
Proof.
  destruct (groupby_size sample_clean [GENDER; AWARE] Count)
    as [g|] eqn:Hg; [|vm_compute in Hg; discriminate Hg].
  exists g. split; [reflexivity|].
  exact (groupby_size_sorted _ _ _ Hg).
Defined.

(** ** The contingency table of the respondents *)

Lemma insert_distinct_In v l x :
  In x (insert_distinct v l) <-> x = v \/ In x l.
Proof.
  induction l as [|y l IH]; simpl; [intuition|].
  destruct (cell_compare v y) eqn:E; simpl.
  - apply cell_compare_eq in E. subst y. intuition.
  - intuition.
  - rewrite IH. intuition.
Qed.

Lemma insert_distinct_sorted v l :
  StronglySorted cell_lt l -> StronglySorted cell_lt (insert_distinct v l).
Proof.
  induction 1 as [|y l Hl IH Hy]; simpl; [repeat constructor|].
  destruct (cell_compare v y) eqn:E.
  - now constructor.
  - constructor; [now constructor|]. constructor; [exact E|].
    eapply List.Forall_impl; [|exact Hy]. intros z Hz.
    now apply (cell_compare_trans v y z).
  - constructor; [exact IH|]. apply List.Forall_forall. intros z Hz.
    apply insert_distinct_In in Hz as [->|Hz].
    + unfold cell_lt. now rewrite cell_compare_antisym, E.
    + exact (proj1 (List.Forall_forall _ _) Hy z Hz).
Qed.

Lemma distinct_sorted_In l x : In x (distinct_sorted l) <-> In x l.
Proof.
  unfold distinct_sorted.
  assert (H : forall acc, In x (fold_left (fun acc v => insert_distinct v acc)
                                          l acc) <-> In x l \/ In x acc).
  { induction l as [|v l IH]; intros acc; simpl; [intuition|].
    rewrite IH, insert_distinct_In. intuition. }
  rewrite H. simpl. intuition.
Qed.

Lemma distinct_sorted_sorted l : StronglySorted cell_lt (distinct_sorted l).
Proof.
  unfold distinct_sorted.
  assert (H : forall acc, StronglySorted cell_lt acc ->
            StronglySorted cell_lt
              (fold_left (fun acc v => insert_distinct v acc) l acc)).
  { induction l as [|v l IH]; intros acc Hacc; simpl; [exact Hacc|].
    apply IH. now apply insert_distinct_sorted. }
  apply H. constructor.
Qed.

Lemma distinct_sorted_NoDup l : NoDup (distinct_sorted l).
Proof.
  induction (distinct_sorted_sorted l) as [|x r Hr IH Hx]; [constructor|].
  apply NoDup_cons. split; [|exact IH].
  intros Hin. apply list_elem_of_In in Hin.
  pose proof (proj1 (List.Forall_forall _ _) Hx x Hin) as Hlt.
  unfold cell_lt in Hlt. rewrite cell_compare_refl in Hlt. discriminate.
Qed.

Lemma row_total_add {A : Type} (g h : A -> Z) (l : list A) :
  row_total (List.map (fun k => (g k + h k)%Z) l)
  = (row_total (List.map g l) + row_total (List.map h l))%Z.
Proof.
  unfold row_total.
  induction l as [|k l IH]; cbn [List.map fold_right]; [reflexivity|].
  rewrite IH. lia.
Qed.

Lemma row_total_indicator {K : Type} `{EqDecision K} (x : K) (l : list K) :
  NoDup l ->
  row_total (List.map (fun k => if bool_decide (x = k) then 1%Z else 0%Z) l)
  = if bool_decide (x ∈ l) then 1%Z else 0%Z.
Proof.
  unfold row_total. induction l as [|k l IH]; intros Hnd.
  - cbn. rewrite bool_decide_false; [reflexivity|]. apply not_elem_of_nil.
  - apply NoDup_cons in Hnd as [Hk Hnd]. cbn [List.map fold_right].
    rewrite (IH Hnd).
    destruct (bool_decide_reflect (x = k)) as [->|Hne].
    + rewrite (bool_decide_true (k ∈ k :: l)) by apply list_elem_of_here.
      now rewrite bool_decide_false.
    + destruct (bool_decide_reflect (x ∈ l)) as [Hin|Hin].
      * rewrite bool_decide_true by now apply list_elem_of_further.
        reflexivity.
      * rewrite bool_decide_false; [reflexivity|].
        intros H. apply elem_of_cons in H as [E|H]; [congruence|tauto].
Qed.

(** Counting the entries of a list key by key counts each entry once. *)
Lemma count_by_key {A K : Type} `{EqDecision K} (f : A -> K)
    (keys : list K) (ps : list A) :
  NoDup keys -> (forall p, In p ps -> In (f p) keys) ->
  row_total
    (List.map (fun k => Z.of_nat (length
                 (List.filter (fun p => bool_decide (f p = k)) ps))) keys)
  = Z.of_nat (length ps).
Proof.
  intros Hnd. induction ps as [|p ps IH]; intros Hin.
  - cbn [List.filter length]. induction keys as [|k keys IHk];
      [reflexivity|].
    apply NoDup_cons in Hnd as [_ Hnd]. cbn. now apply IHk.
  - rewrite (map_ext _ (fun k =>
               ((if bool_decide (f p = k) then 1 else 0)
                + Z.of_nat (length
                    (List.filter (fun p => bool_decide (f p = k)) ps)))%Z)).
    + rewrite row_total_add, IH by (intros q Hq; apply Hin; now right).
      rewrite (row_total_indicator (f p) keys Hnd).
      rewrite bool_decide_true by (apply list_elem_of_In, Hin; now left).
      cbn [length]. lia.
    + intros k. cbn [List.filter].
      destruct (bool_decide (f p = k)); cbn [length]; lia.
Qed.

Lemma filter_pair_length (i j : cell) (ps : list (cell * cell)) :
  length (List.filter (fun p => bool_decide (p = (i, j))) ps)
  = length (List.filter (fun p => bool_decide (snd p = j))
              (List.filter (fun p => bool_decide (fst p = i)) ps)).
Proof.
  induction ps as [|[a b] ps IH]; [reflexivity|]. cbn [List.filter fst snd].
  destruct (bool_decide_reflect (a = i)) as [->|Ha].
  - cbn [List.filter snd].
    destruct (bool_decide_reflect (b = j)) as [->|Hb].
    + rewrite bool_decide_true by reflexivity. cbn [length]. now rewrite IH.
    + rewrite bool_decide_false by congruence. exact IH.
  - rewrite bool_decide_false by congruence. exact IH.
Qed.

Lemma filter_pair_length' (i j : cell) (ps : list (cell * cell)) :
  length (List.filter (fun p => bool_decide (p = (i, j))) ps)
  = length (List.filter (fun p => bool_decide (fst p = i))
              (List.filter (fun p => bool_decide (snd p = j)) ps)).
Proof.
  induction ps as [|[a b] ps IH]; [reflexivity|]. cbn [List.filter fst snd].
  destruct (bool_decide_reflect (b = j)) as [->|Hb].
  - cbn [List.filter fst].
    destruct (bool_decide_reflect (a = i)) as [->|Ha].
    + rewrite bool_decide_true by reflexivity. cbn [length]. now rewrite IH.
    + rewrite bool_decide_false by congruence. exact IH.
  - rewrite bool_decide_false by congruence. exact IH.
Qed.

(** A row of the table adds up to the number of pairs with its label. *)
Lemma crosstab_row_total (i : cell) (cols : list cell)
    (ps : list (cell * cell)) :
  NoDup cols -> (forall p, In p ps -> In (snd p) cols) ->
  row_total (List.map (fun j => pair_count i j ps) cols)
  = Z.of_nat (length (List.filter (fun p => bool_decide (fst p = i)) ps)).
Proof.
  intros Hnd Hin. unfold pair_count.
  rewrite (map_ext _ (fun j => Z.of_nat (length
             (List.filter (fun p => bool_decide (snd p = j))
                (List.filter (fun p => bool_decide (fst p = i)) ps)))))
    by (intros j; now rewrite filter_pair_length).
  apply (count_by_key snd); [exact Hnd|].
  intros p Hp. apply filter_In in Hp as [Hp _]. now apply Hin.
Qed.

Lemma crosstab_column_total (j : cell) (idx : list cell)
    (ps : list (cell * cell)) :
  NoDup idx -> (forall p, In p ps -> In (fst p) idx) ->
  row_total (List.map (fun i => pair_count i j ps) idx)
  = Z.of_nat (length (List.filter (fun p => bool_decide (snd p = j)) ps)).
Proof.
  intros Hnd Hin. unfold pair_count.
  rewrite (map_ext _ (fun i => Z.of_nat (length
             (List.filter (fun p => bool_decide (fst p = i))
                (List.filter (fun p => bool_decide (snd p = j)) ps)))))
    by (intros i; now rewrite filter_pair_length').
  apply (count_by_key fst); [exact Hnd|].
  intros p Hp. apply filter_In in Hp as [Hp _]. now apply Hin.
Qed.

Lemma filter_key_pos {A K : Type} `{EqDecision K} (f : A -> K) (k : K)
    (ps : list A) :
  In k (List.map f ps) ->
  (1 <= Z.of_nat (length (List.filter (fun p => bool_decide (f p = k)) ps)))%Z.
Proof.
  intros Hin. apply in_map_iff in Hin as (p & E & Hp).
  assert (H : In p (List.filter (fun p => bool_decide (f p = k)) ps)).
  { apply filter_In. split; [exact Hp|]. now apply bool_decide_eq_true. }
  destruct (List.filter _ ps); [destruct H|]. cbn [length]. lia.
Qed.

(** X14: the table [pd.crosstab] hands to the chi-square routine has one
    row per label of the first column and one entry per label of the
    second in each row; its entries add up to the number of pairs with
    both answers present, so each such respondent is counted once; and no
    row and no column of it adds up to zero. *)
Theorem crosstab_counts_respondents (a b : list cell) :
  let c := crosstab a b in
  length (ct_table c) = length (ct_index c)
  /\ Forall (fun r => length r = length (ct_columns c)) (ct_table c)
  /\ table_total (ct_table c)
     = Z.of_nat (length (List.filter both_present (combine a b)))
  /\ Forall (fun r => (1 <= row_total r)%Z) (ct_table c)
  /\ (forall j, (j < length (ct_columns c))%nat ->
        (1 <= column_total j (ct_table c))%Z).
Proof.
  cbv zeta. unfold crosstab. cbn [ct_table ct_index ct_columns].
  set (ps := List.filter both_present (combine a b)).
  set (idx := distinct_sorted (List.map fst ps)).
  set (cols := distinct_sorted (List.map snd ps)).
  assert (Hidx : NoDup idx) by apply distinct_sorted_NoDup.
  assert (Hcols : NoDup cols) by apply distinct_sorted_NoDup.
  assert (Hfst : forall p, In p ps -> In (fst p) idx).
  { intros p Hp. apply distinct_sorted_In. now apply in_map. }
  assert (Hsnd : forall p, In p ps -> In (snd p) cols).
  { intros p Hp. apply distinct_sorted_In. now apply in_map. }
  split; [apply length_map|]. split; [|split; [|split]].
  - apply List.Forall_forall. intros r Hr.
    apply in_map_iff in Hr as (i & <- & _). apply length_map.
  - unfold table_total. rewrite map_map.
    rewrite (map_ext _ (fun i => Z.of_nat (length
               (List.filter (fun p => bool_decide (fst p = i)) ps))))
      by (intros i; now apply crosstab_row_total).
    now apply (count_by_key fst).
  - apply List.Forall_forall. intros r Hr.
    apply in_map_iff in Hr as (i & <- & Hi).
    rewrite crosstab_row_total by assumption.
    apply filter_key_pos. now apply distinct_sorted_In.
  - intros j Hj. unfold column_total. rewrite map_map.
    rewrite (map_ext _ (fun i => pair_count i (nth j cols Null) ps)).
    + rewrite crosstab_column_total by assumption.
      apply filter_key_pos. apply distinct_sorted_In. now apply nth_In.
    + intros i.
      rewrite (nth_indep _ 0%Z (pair_count i Null ps))
        by now rewrite length_map.
      apply (map_nth (fun j' => pair_count i j' ps)).
Qed.

(** ** The Word summary *)

Lemma markup_free_app (s t : pystr) :
  markup_free (s ++ t) = markup_free s && markup_free t.
Proof. apply forallb_app. Qed.

Lemma replace_from_skip old new (t s : pystr) :
  replace_from old new (length t) (t ++ s) = replace_from old new 0 s.
Proof.
  induction t as [|c t IH]; [destruct s; reflexivity|]. exact IH.
Qed.

Lemma prefixb_app (old s : pystr) : prefixb old (old ++ s) = true.
Proof.
  induction old as [|c old IH]; [reflexivity|]. cbn [app prefixb].
  now rewrite N.eqb_refl.
Qed.

(** An occurrence at the front is replaced and passed over. *)
Lemma replace_str_match old new (s : pystr) :
  old <> [] ->
  replace_str old new (old ++ s) = new ++ replace_str old new s.
Proof.
  destruct old as [|c old]; [congruence|]. intros _. unfold replace_str.
  change ((c :: old) ++ s) with (c :: (old ++ s)).
  cbn [replace_from].
  change (c :: old ++ s) with ((c :: old) ++ s). rewrite prefixb_app.
  replace (length (c :: old) - 1)%nat with (length old)
    by (cbn [length]; lia).
  now rewrite replace_from_skip.
Qed.

Lemma replace_str_cons old new c (s : pystr) :
  prefixb old (c :: s) = false ->
  replace_str old new (c :: s) = c :: replace_str old new s.
Proof. unfold replace_str. cbn [replace_from]. now intros ->. Qed.

(** Text without [<] is left as it is by the replacement of a tag. *)
Lemma replace_str_plain old new (s1 s2 : pystr) :
  prefixb [LESS_THAN] old = true ->
  markup_free s1 = true ->
  replace_str old new (s1 ++ s2) = s1 ++ replace_str old new s2.
Proof.
  intros Hold. induction s1 as [|c s1 IH]; [reflexivity|].
  cbn [markup_free forallb]. intros H.
  apply andb_true_iff in H as [Hc H].
  change ((c :: s1) ++ s2) with (c :: (s1 ++ s2)).
  rewrite replace_str_cons; [now rewrite (IH H)|].
  destruct old as [|o old]; [discriminate Hold|].
  cbn [prefixb] in *. rewrite andb_true_r in Hold.
  apply N.eqb_eq in Hold. subst o.
  apply negb_true_iff in Hc. rewrite N.eqb_sym in Hc. now rewrite Hc.
Qed.

Lemma replace_str_plain_all old new (s : pystr) :
  prefixb [LESS_THAN] old = true ->
  markup_free s = true ->
  replace_str old new s = s.
Proof.
  intros Hold Hs. rewrite <- (app_nil_r s) at 1.
  rewrite (replace_str_plain old new s [] Hold Hs).
  unfold replace_str. cbn. apply app_nil_r.
Qed.

(** Another tag is left as it is. *)
Lemma replace_str_tag old new (t s : pystr) :
  prefixb [LESS_THAN] old = true ->
  (forall s', prefixb old (LESS_THAN :: t ++ s') = false) ->
  markup_free t = true ->
  replace_str old new ((LESS_THAN :: t) ++ s)
  = (LESS_THAN :: t) ++ replace_str old new s.
Proof.
  intros Hold Hno Ht.
  change ((LESS_THAN :: t) ++ s) with (LESS_THAN :: (t ++ s)).
  rewrite replace_str_cons by apply Hno.
  now rewrite (replace_str_plain old new t s Hold Ht).
Qed.

Lemma markup_free_digits (d : Decimal.uint) :
  markup_free (py (DecimalString.NilEmpty.string_of_uint d)) = true.
Proof.
  induction d; cbn [DecimalString.NilEmpty.string_of_uint];
    [reflexivity|exact IHd ..].
Qed.

Lemma markup_free_str_of_Z (n : Z) : markup_free (str_of_Z n) = true.
Proof.
  destruct n as [|p|p]; unfold str_of_Z; [reflexivity| |].
  - apply markup_free_digits.
  - rewrite markup_free_app, markup_free_digits. reflexivity.
Qed.

Lemma markup_free_format_1f (x : float64) : markup_free (format_1f x) = true.
Proof.
  unfold format_1f. now rewrite !markup_free_app, !markup_free_str_of_Z.
Qed.

Ltac plain_side :=
  solve [ assumption | apply markup_free_str_of_Z | vm_compute; reflexivity ].

Ltac strip_tag old new :=
  repeat first
    [ rewrite (replace_str_match old new) by (vm_compute; discriminate)
    | rewrite (replace_str_plain old new)
        by (first [vm_compute; reflexivity | plain_side])
    | rewrite (replace_str_tag old new (py "/strong>"))
        by (first [intros ?; vm_compute; reflexivity | vm_compute; reflexivity])
    | rewrite (replace_str_tag old new (py "br>"))
        by (first [intros ?; vm_compute; reflexivity | vm_compute; reflexivity]) ].

Lemma docx_text_summary5 (df : DataFrame) (yes : Z) (pct : pystr)
    (chi : pystr * pystr * pystr) :
  markup_free pct = true ->
  markup_free (fst (fst chi)) = true ->
  markup_free (snd (fst chi)) = true ->
  markup_free (snd chi) = true ->
  docx_text (summary5 df yes pct chi)
  = NL ++ py "Executive Summary" ++ NL ++ NL
    ++ py "Of the " ++ str_of_Z (Z.of_nat (length (rows df)))
    ++ py " respondents, " ++ str_of_Z yes ++ py " (" ++ pct
    ++ py "%) are aware of what constitutes workplace harassment."
    ++ NL ++ NL
    ++ fst (fst chi) ++ NL ++ NL ++ snd (fst chi) ++ NL ++ NL
    ++ snd chi ++ NL.
Proof.
  intros Hp H1 H2 H3. unfold docx_text, summary5.
  change (py "<strong>Executive Summary</strong><br>")
    with (py "<strong>" ++ py "Executive Summary"
          ++ (LESS_THAN :: py "/strong>") ++ (LESS_THAN :: py "br>")).
  change (py "%) are aware of what constitutes workplace harassment.<br>")
    with (py "%) are aware of what constitutes workplace harassment."
          ++ (LESS_THAN :: py "br>")).
  change (py "<br>") with (LESS_THAN :: py "br>").
  change (py "</strong>") with (LESS_THAN :: py "/strong>").
  rewrite <- !app_assoc.
  strip_tag (py "<strong>") (@nil N).
  rewrite (replace_str_plain_all (py "<strong>") [] NL)
    by (vm_compute; reflexivity).
  rewrite !app_nil_l.
  strip_tag (LESS_THAN :: py "/strong>") (@nil N).
  rewrite (replace_str_plain_all (LESS_THAN :: py "/strong>") [] NL)
    by (vm_compute; reflexivity).
  rewrite !app_nil_l.
  strip_tag (LESS_THAN :: py "br>") NL.
  rewrite (replace_str_plain_all (LESS_THAN :: py "br>") NL NL)
    by (vm_compute; reflexivity).
  reflexivity.
Qed.

Lemma chi_square_test_markup_free (float : Type)
    (chi2 : list (list Z) -> float * float * Z) (fmt : nat -> float -> pystr)
    (d : DataFrame) (c1 c2 : pystr) (r : pystr * option float) :
  (forall digits x, markup_free (fmt digits x) = true) ->
  markup_free c1 = true -> markup_free c2 = true ->
  chi_square_test float chi2 fmt d c1 c2 = Ok r ->
  markup_free (fst r) = true.
Proof.
  intros Hfmt H1 H2. unfold chi_square_test. intros H.
  inv_bind H as a Ha. inv_bind H as b Hb. cbv zeta in H.
  destruct (ct_empty _).
  - injection H as <-. cbn [fst]. unfold no_data_message.
    rewrite !markup_free_app, H1, H2. reflexivity.
  - destruct (chi2 _) as [[c p] dof]. injection H as <-. cbn [fst].
    unfold stat_message.
    rewrite !markup_free_app, H1, H2, !Hfmt, markup_free_str_of_Z.
    reflexivity.
Qed.

Lemma aggregate5_messages (float : Type)
    (chi2 : list (list Z) -> float * float * Z) (fmt : nat -> float -> pystr)
    (df : DataFrame) (s : Summaries) (chi : pystr * pystr * pystr) :
  aggregate5 float chi2 fmt df = Ok (s, chi) ->
  exists tr c1 c2 c3,
    chi_square_test float chi2 fmt df AWARE REPORT = Ok c1
    /\ chi_square_test float chi2 fmt tr Training Know_Whom = Ok c2
    /\ chi_square_test float chi2 fmt df GENDER AWARE = Ok c3
    /\ chi = (fst c1, fst c2, fst c3).
Proof.
  unfold aggregate5. intros H.
  inv_bind H as aw Haw. inv_bind H as a Ha.
  inv_bind H as ar0 Har0. inv_bind H as ar Har. inv_bind H as c1 Hc1.
  inv_bind H as tr0 Htr0. inv_bind H as tr1 Htr1. inv_bind H as tr2 Htr2.
  inv_bind H as c2 Hc2.
  inv_bind H as ga0 Hga0. inv_bind H as ga Hga. inv_bind H as c3 Hc3.
  injection H as <- <-. exists tr2, c1, c2, c3. auto.
Qed.

(** X15: the paragraph data_analytics5.py writes to the Word document is
    the executive summary with its markup taken out: the two [strong]
    tags are gone and every [br] tag has become a line break.  As long as
    the rendering of the test statistics has no [<] in it, no [<] is left
    in the paragraph at all. *)
Theorem docx_summary_text (rw : list byte -> option Sheet)
    (ww : DataFrame -> list byte) (float : Type)
    (chi2 : list (list Z) -> float * float * Z) (fmt : nat -> float -> pystr)
    (path embed : pystr) (fs : gmap pystr (list byte))
    (conn : gmap pystr DataFrame) (r : Run) :
  (forall digits x, markup_free (fmt digits x) = true) ->
  run5 rw ww float chi2 fmt path embed fs conn = Ok r ->
  exists df yes chi,
    run_summary r = summary5 df yes (run_pct r) chi
    /\ docx_text (run_summary r)
       = NL ++ py "Executive Summary" ++ NL ++ NL
         ++ py "Of the " ++ str_of_Z (Z.of_nat (length (rows df)))
         ++ py " respondents, " ++ str_of_Z yes ++ py " (" ++ run_pct r
         ++ py "%) are aware of what constitutes workplace harassment."
         ++ NL ++ NL
         ++ fst (fst chi) ++ NL ++ NL ++ snd (fst chi) ++ NL ++ NL
         ++ snd chi ++ NL
    /\ markup_free (docx_text (run_summary r)) = true.
Proof.
  intros Hfmt H. unfold run5 in H.
  inv_bind H as df Hdf. rewrite embed_dataset_eq, bind_ret_l in H.
  cbv beta iota in H.
  inv_bind H as conn' Hc. inv_bind H as sc Hs. destruct sc as [s chi].
  inv_bind H as yp Hp. destruct yp as [yes pct]. injection H as <-.
  cbn [run_pct run_summary].
  unfold awareness_pct5 in Hp. inv_bind Hp as y Hy. injection Hp as <- <-.
  apply aggregate5_messages in Hs
    as (tr & c1 & c2 & c3 & Hc1 & Hc2 & Hc3 & ->).
  apply chi_square_test_markup_free in Hc1;
    [|exact Hfmt|vm_compute; reflexivity ..].
  apply chi_square_test_markup_free in Hc2;
    [|exact Hfmt|vm_compute; reflexivity ..].
  apply chi_square_test_markup_free in Hc3;
    [|exact Hfmt|vm_compute; reflexivity ..].
  exists df, y, (fst c1, fst c2, fst c3).
  split; [reflexivity|].
  pose proof (markup_free_format_1f
                (percentage y (Z.of_nat (length (rows df))))) as Hpct.
  rewrite (docx_text_summary5 df y _ (fst c1, fst c2, fst c3)
             Hpct Hc1 Hc2 Hc3).
  split; [reflexivity|]. cbn [fst snd].
  rewrite !markup_free_app, Hpct, Hc1, Hc2, Hc3, !markup_free_str_of_Z.
  reflexivity.
Qed.

Lemma sample_fmt_markup_free (digits : nat) (x : Z) :
  markup_free (sample_fmt digits x) = true.
Proof.
  unfold sample_fmt. rewrite !markup_free_app, markup_free_str_of_Z.
  induction digits as [|n IH]; [reflexivity|exact IH].
Qed.

Lemma docx_summary_text_witness :
  exists r,
    run5 sample_reader sample_writer Z sample_chi2 sample_fmt
      (py "data.xlsx") (py "survey_data.xlsx") sample_fs ∅ = Ok r
    /\ markup_free (run_summary r) = false
    /\ markup_free (docx_text (run_summary r)) = true.
Proof.
  destruct (run5 sample_reader sample_writer Z sample_chi2 sample_fmt
              (py "data.xlsx") (py "survey_data.xlsx") sample_fs ∅)
    as [r|] eqn:Hr; [|vm_compute in Hr; discriminate Hr].
  destruct (docx_summary_text _ _ _ _ _ _ _ _ _ _ sample_fmt_markup_free Hr)
    as (df & yes & chi & Hs & _ & Hfree).
  exists r. split; [reflexivity|]. split; [|exact Hfree].
  rewrite Hs. unfold summary5. rewrite !markup_free_app. reflexivity.
Defined.

(** ** The awareness summary of data_analytics5.py against the SQL one *)

Lemma add_to_group_map {K K' R R' : Type} `{EqDecision K} `{EqDecision K'}
    (fk : K -> K') (fr : R -> R') (k : K) (r : R) (acc : list (K * list R)) :
  (forall a b, fk a = fk b -> a = b) ->
  add_to_group (fk k) (fr r)
    (List.map (fun g => (fk (fst g), List.map fr (snd g))) acc)
  = List.map (fun g => (fk (fst g), List.map fr (snd g)))
      (add_to_group k r acc).
Proof.
  intros Hinj. induction acc as [|[k' rs] acc IH];
    cbn [add_to_group List.map fst snd]; [reflexivity|].
  destruct (bool_decide_reflect (k = k')) as [->|Hne].
  - rewrite bool_decide_true by reflexivity.
    cbn [List.map fst snd]. now rewrite map_app.
  - rewrite bool_decide_false by (intros E; apply Hne, Hinj, E).
    cbn [List.map fst snd]. now rewrite IH.
Qed.

(** Renaming the keys one to one and mapping the members does not change
    the grouping. *)
Lemma collect_map {K K' R R' : Type} `{EqDecision K} `{EqDecision K'}
    (fk : K -> K') (fr : R -> R') (keyed : list (K * R)) :
  (forall a b, fk a = fk b -> a = b) ->
  collect (List.map (fun kr => (fk (fst kr), fr (snd kr))) keyed)
  = List.map (fun g => (fk (fst g), List.map fr (snd g))) (collect keyed).
Proof.
  intros Hinj. unfold collect.
  change (@nil (K' * list R'))
    with (List.map (fun g : K * list R => (fk (fst g), List.map fr (snd g)))
            []) at 1.
  generalize (@nil (K * list R)) as acc.
  induction keyed as [|[k r] keyed IH]; intros acc; [reflexivity|].
  cbn [List.map fold_left fst snd].
  rewrite (add_to_group_map fk fr k r acc Hinj). apply IH.
Qed.

Lemma filter_notnull_column (i : nat) (rws : list row) :
  List.filter notnull (List.map (fun r => nth i r Null) rws)
  = List.map (fun r => nth i r Null) (List.filter (complete [i]) rws).
Proof.
  rewrite filter_map_comm. f_equal. apply filter_ext_in'. intros r _.
  unfold complete, project. cbn. now rewrite andb_true_r.
Qed.

(** [value_counts] on a column lists what a grouping by that column counts,
    in another order. *)
Lemma value_counts_groupby (i : nat) (rws : list row) :
  Permutation
    (List.map (fun vn => [fst vn; Int (Z.of_nat (snd vn))])
       (value_counts (List.map (fun r => nth i r Null) rws)))
    (List.map (fun g => fst g ++ [Int (count_of g)])
       (group_rows (List.map (fun r => (project [i] r, r))
                      (List.filter (complete [i]) rws)))).
Proof.
  set (kept := List.filter (complete [i]) rws).
  set (keyed := List.map (fun r : row => (nth i r Null, r)) kept).
  rewrite (Permutation_map _ (value_counts_perm _)).
  unfold group_rows. rewrite (Permutation_map _ (sort_groups_perm _)).
  unfold tally. rewrite filter_notnull_column. fold kept.
  assert (E1 : List.map (fun v : cell => (v, v))
                 (List.map (fun r => nth i r Null) kept)
               = List.map (fun kr : cell * row =>
                             (fst kr, nth i (snd kr) Null)) keyed).
  { unfold keyed. rewrite !map_map. reflexivity. }
  assert (E2 : List.map (fun r => (project [i] r, r)) kept
               = List.map (fun kr : cell * row => ([fst kr], snd kr)) keyed).
  { unfold keyed. rewrite map_map. reflexivity. }
  rewrite E1, E2.
  rewrite (collect_map (fun v : cell => v) (fun r : row => nth i r Null))
    by auto.
  rewrite (collect_map (fun v : cell => [v]) (fun r : row => r))
    by (intros a b E; now injection E).
  rewrite !map_map. cbn [fst snd].
  erewrite map_ext; [reflexivity|].
  intros g. cbn [app]. unfold count_of. cbn [snd].
  now rewrite !length_map.
Qed.

(** X16: on a table the store accepts, in which no column holds both text
    and numbers and none is called [Awareness], the awareness summary of
    data_analytics5.py has the rows of the SQL awareness summary without
    the row for a missing answer; it lists them by falling count where the
    SQL summary lists them by answer. *)
Theorem awareness_summary_same_rows
    (float : Type) (chi2 : list (list Z) -> float * float * Z)
    (fmt : nat -> float -> pystr) (df : DataFrame)
    (conn0 conn : gmap pystr DataFrame) (know : pystr) (s s5 : Summaries)
    (chi : pystr * pystr * pystr) :
  persist df conn0 = Ok conn ->
  unmixed df ->
  find_column Awareness (columns df) = None ->
  aggregate_sql know conn = Ok s ->
  aggregate5 float chi2 fmt df = Ok (s5, chi) ->
  columns (awareness_df s5) = columns (awareness_df s)
  /\ Permutation (rows (awareness_df s5)) (rows (present (awareness_df s))).
Proof.
  intros Hp Hu Hno Hs H5.
  pose proof (persist_NoDup _ _ _ Hp) as Hnd.
  apply (persist_lookup_unmixed _ _ _ Hu) in Hp.
  unfold aggregate_sql in Hs. inv_bind Hs as a Hqa.
  inv_bind Hs as ar Har. inv_bind Hs as tr Htr. inv_bind Hs as ga Hga.
  injection Hs as <-. cbn [awareness_df].
  apply read_sql_query_Ok in Hqa as (t & Et & Hqa).
  cbn [sel_from q_awareness count_query] in Et.
  assert (t = df) by congruence. subst t.
  apply aggregate5_inv in H5 as (aw & _ & _ & _ & Haw & Ha5 & _).
  apply set_columns_Ok in Ha5 as [Hc5 Hr5].
  unfold getitem in Haw.
  destruct (index_of AWARE (columns df)) as [i|] eqn:Ei; [|discriminate Haw].
  cbn in Haw. injection Haw as <-.
  set (grows := List.map (fun g : list cell * list row =>
                            fst g ++ [Int (count_of g)])
                  (group_rows (List.map (fun r => (project [i] r, r))
                     (List.filter (complete [i]) (rows df))))).
  assert (Hg : groupby_size df (List.map fst [(AWARE, Awareness)]) Count
               = Ok {| columns := [AWARE] ++ [Count]; rows := grows |}).
  { unfold groupby_size, lookup_columns. cbn [List.map mapR fst].
    rewrite Ei. reflexivity. }
  assert (Hsql : {| columns := [Awareness; Count]; rows := grows |}
                 = present a).
  { apply (groupby_size_sql [(AWARE, Awareness)] df a
             {| columns := [AWARE] ++ [Count]; rows := grows |});
      [exact Hnd| |intros ca [<-|[]]; exact Hno|exact Hqa|exact Hg
      |reflexivity].
    apply (bool_decide_unpack _). vm_compute. exact I. }
  rewrite <- Hsql. cbn [columns rows]. split.
  - rewrite Hc5. apply run_select_count in Hqa as (_ & _ & _ & _ & Hc & _).
    now rewrite Hc.
  - rewrite Hr5. unfold value_counts_frame. cbn [rows].
    apply value_counts_groupby.
Qed.

Lemma awareness_summary_same_rows_witness :
  exists conn s s5 chi,
    persist sample_clean ∅ = Ok conn
    /\ aggregate_sql Know_Whom conn = Ok s
    /\ aggregate5 Z sample_chi2 sample_fmt sample_clean = Ok (s5, chi)
    /\ Permutation (rows (awareness_df s5)) (rows (present (awareness_df s))).
Proof.
  destruct (persist sample_clean ∅) as [conn|] eqn:Hp;
    [|vm_compute in Hp; discriminate Hp].
  destruct (aggregate_sql Know_Whom conn) as [s|] eqn:Hs.
  2: { rewrite persist_eq in Hp. vm_compute in Hp. injection Hp as <-.
       vm_compute in Hs. discriminate Hs. }
  destruct (aggregate5 Z sample_chi2 sample_fmt sample_clean)
    as [[s5 chi]|] eqn:H5; [|vm_compute in H5; discriminate H5].
  assert (Hno : find_column Awareness (columns sample_clean) = None)
    by reflexivity.
  pose proof (awareness_summary_same_rows Z sample_chi2 sample_fmt
                sample_clean ∅ conn Know_Whom s s5 chi Hp
                sample_clean_unmixed Hno Hs H5)
    as [_ H].
  exists conn, s, s5, chi. auto.
Defined.

(** ** One row per group *)

(** Without a column that goes by an alias, a count query groups by the
    columns it selects and shows the key of each group. *)
Lemma run_select_count_rows keys df s :
  NoDup (List.map (fun ca => sql_ident (snd ca)) keys) ->
  (forall ca, In ca keys -> find_column (snd ca) (columns df) = None) ->
  run_select (count_query keys) df = Ok s ->
  exists idx,
    length idx = length keys
    /\ rows s = List.map (fun g => fst g ++ [Int (count_of g)])
                  (group_rows (List.map (fun r => (project idx r, r))
                                        (rows df))).
Proof.
  intros Hal Hno Hs.
  apply run_select_count in Hs as (cidx & kidx & Hc & Hk & _ & Hrows).
  assert (kidx = cidx).
  { rewrite mapR_map in Hk.
    rewrite (mapR_ext _ (column_of (columns df))) in Hk; [congruence|].
    intros ca Hca. unfold resolve_group. rewrite (Hno ca Hca).
    cbn [sel_list count_query].
    rewrite (find_alias_own keys _ ca Hal Hca). reflexivity. }
  subst kidx. exists cidx. split; [apply (mapR_length _ _ _ Hc)|].
  rewrite Hrows. apply map_ext_in. intros g Hg. f_equal.
  apply group_rows_project in Hg as (r & _ & _ & Hin & Hall).
  apply (hd_Forall (fun r' => project cidx r' = fst g)); [|exact Hall].
  intros E. exact (eq_ind _ (fun l => In r l) Hin _ E).
Qed.

(** X17: when the table has no column named like an alias of the query, a
    [COUNT( * ) ... GROUP BY] summary has one row per combination of
    answers: no two of its rows carry the same keys, which is what
    [pivot] needs to reshape it. *)
Theorem sql_summary_keys_distinct (keys : list (pystr * pystr))
    (df s : DataFrame) :
  NoDup (List.map (fun ca => sql_ident (snd ca)) keys) ->
  (forall ca, In ca keys -> find_column (snd ca) (columns df) = None) ->
  run_select (count_query keys) df = Ok s ->
  NoDup (List.map (firstn (length keys)) (rows s)).
Proof.
  intros Hal Hno Hs.
  destruct (run_select_count_rows keys df s Hal Hno Hs) as (idx & Hl & ->).
  rewrite map_map.
  rewrite (map_ext_in _ fst); [apply group_rows_NoDup|].
  intros g Hg. apply firstn_key.
  apply group_rows_project in Hg as (r & _ & -> & _).
  now rewrite project_length.
Qed.

Lemma sql_summary_keys_distinct_witness :
  exists s,
    run_select (q_awareness_reporting Know_Whom) sample_clean = Ok s
    /\ NoDup (List.map (firstn 2) (rows s)).
Proof.
  destruct (run_select (q_awareness_reporting Know_Whom) sample_clean)
    as [s|] eqn:Hs; [|vm_compute in Hs; discriminate Hs].
  exists s. split; [reflexivity|].
  apply (sql_summary_keys_distinct
           [(AWARE, Awareness); (REPORT, Know_Whom)] sample_clean s).
  - apply (bool_decide_unpack _). vm_compute. exact I.
  - intros ca [<-|[<-|[]]]; reflexivity.
  - exact Hs.
Defined.

(** ** How a run can fail *)

Lemma bind_Raise {A B : Type} (m : result A) (k : A -> result B) (e : exn) :
  mbind k m = Raise e ->
  m = Raise e \/ exists a, m = Ok a /\ k a = Raise e.
Proof.
  destruct m as [a|e']; cbn; [eauto|]. intros H. injection H as <-.
  now left.
Qed.

(** On a summary of labels and counts the only failure of the lookup of
    the [Yes] count is the empty selection. *)
Lemma yes_count_summary_Raise (rws : list row) (e : exn) :
  Forall (fun r => exists c n, r = [c; Int n]) rws ->
  yes_count {| columns := [Awareness; Count]; rows := rws |} = Raise e ->
  e = IndexError /\ forall r, In r rws -> nth 0 r Null <> Text Yes.
Proof.
  intros Hshape. rewrite yes_count_rows.
  destruct (List.filter (fun r => bool_decide (nth 0 r Null = Text Yes)) rws)
    as [|r l] eqn:E.
  - cbn. intros H. injection H as <-. split; [reflexivity|].
    intros r Hr Hy.
    assert (Hin : In r (List.filter
                     (fun r => bool_decide (nth 0 r Null = Text Yes)) rws)).
    { apply filter_In. split; [exact Hr|]. now apply bool_decide_eq_true. }
    rewrite E in Hin. destruct Hin.
  - assert (Hr : In r rws).
    { apply (proj1 (filter_In
                (fun r => bool_decide (nth 0 r Null = Text Yes)) r rws)).
      rewrite E. now left. }
    destruct (proj1 (List.Forall_forall _ _) Hshape r Hr) as (c & n & ->).
    cbn. discriminate.
Qed.

Lemma q_awareness_shape df a :
  run_select q_awareness df = Ok a ->
  columns a = [Awareness; Count]
  /\ Forall (fun r => exists c n, r = [c; Int n]) (rows a).
Proof.
  intros Ha.
  apply run_select_count in Ha as (cidx & kidx & Hci & _ & Hcols & Hrows).
  apply mapR_length in Hci. cbn [length] in Hci.
  destruct cidx as [|i [|? ?]]; try discriminate Hci.
  split; [exact Hcols|]. rewrite Hrows. apply List.Forall_forall.
  intros r Hr. apply in_map_iff in Hr as (g & <- & _).
  eexists _, _. reflexivity.
Qed.

Lemma awareness_pct_Raise df a e :
  run_select q_awareness df = Ok a ->
  awareness_pct a = Raise e ->
  e = IndexError /\ forall r, In r (rows a) -> nth 0 r Null <> Text Yes.
Proof.
  intros Ha. apply q_awareness_shape in Ha as [Hc Hshape].
  destruct a as [cols rws]. cbn [columns rows] in *. subst cols.
  unfold awareness_pct. rewrite total_rows, bind_ret_l. cbv zeta.
  intros H. apply bind_Raise in H as [H|(y & _ & H)]; [|discriminate H].
  now apply yes_count_summary_Raise.
Qed.

Lemma value_counts_frame_shape name s :
  Forall (fun r => exists c n, r = [c; Int n])
         (rows (value_counts_frame name s)).
Proof.
  unfold value_counts_frame. cbn [rows]. apply List.Forall_forall.
  intros r Hr. apply in_map_iff in Hr as (vn & <- & _).
  eexists _, _. reflexivity.
Qed.

Lemma awareness_pct5_Raise df aw a e :
  set_columns (value_counts_frame AWARE aw) [Awareness; Count] = Ok a ->
  awareness_pct5 df a = Raise e ->
  e = IndexError /\ ~ In (Text Yes) aw.
Proof.
  intros Ha. apply set_columns_Ok in Ha as [Hc Hr].
  destruct a as [cols rws]. cbn [columns rows] in Hc, Hr. subst cols rws.
  unfold awareness_pct5. intros H.
  apply bind_Raise in H as [H|(y & _ & H)]; [|discriminate H].
  apply yes_count_summary_Raise in H as [-> Hno];
    [|apply value_counts_frame_shape].
  split; [reflexivity|]. intros Hin.
  apply (Hno [Text Yes; Int (Z.of_nat (count_cell (Text Yes) aw))]);
    [|reflexivity].
  unfold value_counts_frame. cbn [rows].
  apply (in_map (fun vn : cell * nat => [fst vn; Int (Z.of_nat (snd vn))])
                (value_counts aw) (Text Yes, count_cell (Text Yes) aw)).
  apply (Permutation_in _ (Permutation_sym (value_counts_perm aw))).
  now apply tally_complete.
Qed.

Lemma load_Raise rw clean fs path e :
  load rw clean fs path = Raise e ->
  (e = FileNotFoundError /\ fs !! path = None)
  \/ (e = ParseError
      /\ exists bytes, fs !! path = Some bytes /\ rw bytes = None)
  \/ (e = AttributeError
      /\ exists bytes sheet n,
           fs !! path = Some bytes /\ rw bytes = Some sheet
           /\ In (HNumber n) (headers sheet)).
Proof.
  rewrite load_eq. destruct (fs !! path) as [bytes|] eqn:Ef.
  - destruct (rw bytes) as [sheet|] eqn:Er.
    + destruct (rename_cases clean sheet)
        as [(names & _ & ->)|[(n & Hn) ->]]; [discriminate|].
      intros H. injection H as <-. right. right. eauto 10.
    + intros H. injection H as <-. right. left. eauto.
  - intros H. injection H as <-. now left.
Qed.

Lemma persist_Raise df conn e :
  persist df conn = Raise e ->
  (e = ValueError /\ forallb valid_sqlite_name (columns df) = false)
  \/ (e = DatabaseError /\ forallb valid_sqlite_name (columns df) = true
      /\ creatable (columns df) = false).
Proof.
  rewrite persist_eq.
  destruct (forallb valid_sqlite_name (columns df)).
  - destruct (creatable (columns df)); [discriminate|].
    intros H. injection H as <-. auto.
  - intros H. injection H as <-. auto.
Qed.

Lemma aggregate_sql_Raise_column know conn df e :
  conn !! survey = Some df ->
  aggregate_sql know conn = Raise e ->
  e = DatabaseError
  /\ exists c, In c [AWARE; REPORT; TRAINING; GENDER]
               /\ find_column c (columns df) = None.
Proof.
  intros Hdf H. split; [now apply aggregate_sql_Raise in H|].
  destruct (find_column AWARE (columns df)) eqn:E1;
    [|exists AWARE; simpl; auto 10].
  destruct (find_column REPORT (columns df)) eqn:E2;
    [|exists REPORT; simpl; auto 10].
  destruct (find_column TRAINING (columns df)) eqn:E3;
    [|exists TRAINING; simpl; auto 10].
  destruct (find_column GENDER (columns df)) eqn:E4;
    [|exists GENDER; simpl; auto 10].
  exfalso. destruct (aggregate_sql_Ok_if know conn df Hdf) as [s Hs];
    [|congruence].
  intros c [<-|[<-|[<-|[<-|[]]]]]; congruence.
Qed.

(** X18: every way data_analytics5.py can stop before its report, and
    why.  The input file is missing or is not a spreadsheet; a header is
    not text ([AttributeError]); a cleaned name is one pandas refuses
    ([ValueError]) or the names are no column list SQLite accepts (none,
    more than 2000, or two that collide as SQL identifiers: database
    error); a question column is missing under its exact name
    ([KeyError]); or no respondent answered exactly [Yes] ([IndexError]).
    It stops with nothing else. *)
Theorem run5_failures (rw : list byte -> option Sheet)
    (ww : DataFrame -> list byte) (float : Type)
    (chi2 : list (list Z) -> float * float * Z) (fmt : nat -> float -> pystr)
    (path embed : pystr) (fs : gmap pystr (list byte))
    (conn : gmap pystr DataFrame) (e : exn) :
  run5 rw ww float chi2 fmt path embed fs conn = Raise e ->
  (e = FileNotFoundError /\ fs !! path = None)
  \/ (e = ParseError
      /\ exists bytes, fs !! path = Some bytes /\ rw bytes = None)
  \/ (e = AttributeError
      /\ exists bytes sheet n,
           fs !! path = Some bytes /\ rw bytes = Some sheet
           /\ In (HNumber n) (headers sheet))
  \/ exists df,
       load rw clean_column5 fs path = Ok df
       /\ ((e = ValueError
            /\ forallb valid_sqlite_name (columns df) = false)
           \/ (e = DatabaseError
               /\ forallb valid_sqlite_name (columns df) = true
               /\ creatable (columns df) = false)
           \/ (e = KeyError
               /\ exists c, In c [AWARE; REPORT; TRAINING; GENDER]
                            /\ index_of c (columns df) = None)
           \/ (e = IndexError
               /\ exists aw, getitem df AWARE = Ok aw
                             /\ ~ In (Text Yes) aw)).
Proof.
  unfold run5. intros H.
  apply bind_Raise in H as [H|(df & Hdf & H)].
  { apply load_Raise in H as [H|[H|H]]; auto. }
  do 3 right. exists df. split; [exact Hdf|].
  rewrite embed_dataset_eq, bind_ret_l in H. cbv beta iota in H.
  apply bind_Raise in H as [H|(conn' & Hc & H)].
  { apply persist_Raise in H as [H|H]; auto. }
  do 2 right. apply bind_Raise in H as [H|([s chi] & Hs & H)].
  { left. destruct (aggregate5_cases float chi2 fmt df)
      as [[[r Hr] _]|[Hk Hcol]]; [congruence|].
    split; [congruence|exact Hcol]. }
  right. apply bind_Raise in H as [H|([yes pct] & _ & H)]; [|discriminate H].
  apply aggregate5_inv in Hs as (aw & _ & _ & _ & Haw & Ha & _).
  apply (awareness_pct5_Raise df aw) in H as [-> Hno]; [|exact Ha].
  split; [reflexivity|]. eauto.
Qed.

Lemma run5_failures_witness :
  run5 sample_no_yes_reader sample_writer Z sample_chi2 sample_fmt
    (py "data.xlsx") (py "survey_data.xlsx") sample_no_yes_fs ∅
  = Raise IndexError
  /\ exists df aw,
       load sample_no_yes_reader clean_column5 sample_no_yes_fs
            (py "data.xlsx") = Ok df
       /\ getitem df AWARE = Ok aw /\ ~ In (Text Yes) aw.
Proof.
  assert (Hr : run5 sample_no_yes_reader sample_writer Z sample_chi2
                 sample_fmt (py "data.xlsx") (py "survey_data.xlsx")
                 sample_no_yes_fs ∅ = Raise IndexError)
    by (vm_compute; reflexivity).
  split; [exact Hr|].
  destruct (run5_failures _ _ _ _ _ _ _ _ _ _ Hr)
    as [[H _]|[[H _]|[[H _]|(df & Hdf &
         [[H _]|[[H _]|[[H _]|(_ & aw & Haw & Hno)]]])]]];
    try discriminate H.
  exists df, aw. auto.
Defined.

(** ** The chart stage of the SQL scripts *)

Lemma NoDup_map_inj_in {A B : Type} (f : A -> B) (l : list A) :
  (forall x y, In x l -> In y l -> f x = f y -> x = y) ->
  NoDup l -> NoDup (List.map f l).
Proof.
  induction l as [|a l IH]; intros Hinj Hnd; [constructor|].
  apply NoDup_cons in Hnd as [Ha Hnd]. cbn [List.map].
  apply NoDup_cons. split.
  - intros Hin. apply list_elem_of_In, in_map_iff in Hin as (x & E & Hx).
    apply Ha, list_elem_of_In.
    rewrite <- (Hinj x a); [exact Hx|now right|now left|exact E].
  - apply IH; [|exact Hnd]. intros x y Hx Hy. apply Hinj; now right.
Qed.

Lemma combine_map {A B C : Type} (f : A -> B) (g : A -> C) (l : list A) :
  combine (List.map f l) (List.map g l) = List.map (fun a => (f a, g a)) l.
Proof. induction l as [|a l IH]; cbn; [reflexivity|]. now rewrite IH. Qed.

(** A summary is empty exactly when the table is. *)
Lemma summary_empty_iff keys t d :
  run_select (count_query keys) t = Ok d -> rows d = [] <-> rows t = [].
Proof.
  intros H. apply run_select_count in H as (cidx & kidx & _ & _ & _ & ->).
  split.
  - intros E. apply map_eq_nil in E.
    pose proof (group_rows_total
                  (List.map (fun r => (project kidx r, r)) (rows t))) as Ht.
    rewrite E, length_map in Ht. cbn in Ht.
    destruct (rows t); [reflexivity|discriminate Ht].
  - intros ->. reflexivity.
Qed.

(** What drawing a two-key summary comes to: the reshaping stops on two
    rows with the same pair of labels, the drawing on a summary without
    rows. *)
Lemma save_chart_summary c1 a1 c2 a2 t d :
  a1 <> a2 -> a1 <> Count -> a2 <> Count ->
  run_select (count_query [(c1, a1); (c2, a2)]) t = Ok d ->
  save_chart d a1 Count (Some (a1, a2))
  = if bool_decide
         (NoDup (List.map (fun r => (nth 0 r Null, nth 1 r Null)) (rows d)))
    then match rows d with
         | [] => Raise TypeError
         | _ :: _ => Ok tt
         end
    else Raise ValueError.
Proof.
  intros H12 H1c H2c Hd.
  apply run_select_count_shape in Hd as [Hcols _].
  cbn [List.map snd app] in Hcols.
  unfold save_chart, pivot.
  rewrite (getitem_eq d a1 0%nat) by (rewrite Hcols; apply index_of_head).
  rewrite (getitem_eq d a2 1%nat)
    by (rewrite Hcols, index_of_tail, index_of_head by congruence;
        reflexivity).
  rewrite (getitem_eq d Count 2%nat)
    by (rewrite Hcols, !index_of_tail, index_of_head by congruence;
        reflexivity).
  rewrite !bind_ret_l, !combine_map.
  destruct (bool_decide _); [|reflexivity].
  rewrite bind_ret_l. destruct (rows d); reflexivity.
Qed.

(** Without a column named like one of its aliases, a two-key summary has
    no two rows with the same pair of labels. *)
Lemma summary_pairs_distinct c1 a1 c2 a2 t d :
  sql_ident a1 <> sql_ident a2 ->
  find_column a1 (columns t) = None ->
  find_column a2 (columns t) = None ->
  run_select (count_query [(c1, a1); (c2, a2)]) t = Ok d ->
  NoDup (List.map (fun r => (nth 0 r Null, nth 1 r Null)) (rows d)).
Proof.
  intros Hne H1 H2 Hd.
  destruct (run_select_count_rows [(c1, a1); (c2, a2)] t d)
    as (idx & Hl & ->); [| |exact Hd|].
  - cbn [List.map snd]. apply NoDup_cons. split.
    + intros Hin. apply list_elem_of_singleton in Hin. contradiction.
    + apply NoDup_cons. split; [apply not_elem_of_nil|constructor].
  - intros ca [<-|[<-|[]]]; assumption.
  - cbn [length] in Hl. destruct idx as [|i [|j [|? ?]]]; try discriminate Hl.
    rewrite map_map.
    set (keyed := List.map (fun r => (project [i; j] r, r)) (rows t)).
    assert (Hshape : forall g, In g (group_rows keyed) ->
              exists x y, fst g = [x; y]).
    { intros g Hg. apply group_rows_project in Hg as (r & _ & -> & _).
      eexists _, _. reflexivity. }
    rewrite (map_ext_in _ (fun g => (nth 0 (fst g) Null, nth 1 (fst g) Null))).
    + assert (E : List.map (fun g : list cell * list row =>
                              (nth 0 (fst g) Null, nth 1 (fst g) Null))
                    (group_rows keyed)
                  = List.map (fun k : list cell =>
                                (nth 0 k Null, nth 1 k Null))
                      (List.map fst (group_rows keyed)))
        by (rewrite map_map; reflexivity).
      rewrite E. apply NoDup_map_inj_in; [|apply group_rows_NoDup].
      intros k k' Hk Hk' Ek.
      apply in_map_iff in Hk as (g & <- & Hg).
      apply in_map_iff in Hk' as (g' & <- & Hg').
      destruct (Hshape g Hg) as (x & y & Eg).
      destruct (Hshape g' Hg') as (x' & y' & Eg').
      destruct g as [k rs], g' as [k' rs']. cbn [fst] in *. subst k k'.
      cbn in Ek. now injection Ek as -> ->.
    + intros g Hg. destruct (Hshape g Hg) as (x & y & Eg).
      destruct g as [k rs]. cbn [fst] in Eg. subst k. reflexivity.
Qed.

Lemma pairs_repeated_clash c1 a1 c2 a2 t d :
  sql_ident a1 <> sql_ident a2 ->
  run_select (count_query [(c1, a1); (c2, a2)]) t = Ok d ->
  ~ NoDup (List.map (fun r => (nth 0 r Null, nth 1 r Null)) (rows d)) ->
  find_column a1 (columns t) <> None \/ find_column a2 (columns t) <> None.
Proof.
  intros Hne Hd Hdup.
  destruct (find_column a1 (columns t)) eqn:F1; [left; discriminate|].
  destruct (find_column a2 (columns t)) eqn:F2; [right; discriminate|].
  destruct Hdup. now apply (summary_pairs_distinct c1 a1 c2 a2 t d).
Qed.

(** The chart stage on the summaries of a table: it stops on an empty
    table, at the drawing, and on repeated labels, which take a column
    named like an alias; otherwise it goes through. *)
Lemma charts_cases know conn t s :
  know = Know_Whom_To_Report \/ know = Know_Whom ->
  conn !! survey = Some t ->
  aggregate_sql know conn = Ok s ->
  (charts know s = Raise TypeError /\ rows t = [])
  \/ (charts know s = Raise ValueError
      /\ exists a, In a [Awareness; know; Training; Gender]
                   /\ find_column a (columns t) <> None)
  \/ (charts know s = Ok tt /\ rows t <> []).
Proof.
  intros Hknow Ht Hs. unfold aggregate_sql in Hs.
  inv_bind Hs as a Ha. inv_bind Hs as ar Har. inv_bind Hs as tr Htr.
  inv_bind Hs as ga Hga. injection Hs as <-.
  apply read_sql_query_Ok in Ha as (t0 & E0 & Ha).
  apply read_sql_query_Ok in Har as (t1 & E1 & Har).
  apply read_sql_query_Ok in Htr as (t2 & E2 & Htr).
  apply read_sql_query_Ok in Hga as (t3 & E3 & Hga).
  cbn [sel_from q_awareness q_awareness_reporting q_training_reporting
       q_gender_awareness count_query] in E0, E1, E2, E3.
  assert (t0 = t) by congruence. assert (t1 = t) by congruence.
  assert (t2 = t) by congruence. assert (t3 = t) by congruence.
  subst t0 t1 t2 t3.
  assert (Hk : know <> Awareness /\ know <> Training /\ know <> Count
               /\ sql_ident Awareness <> sql_ident know
               /\ sql_ident Training <> sql_ident know).
  { destruct Hknow as [->| ->]; repeat split; intros E; vm_compute in E;
      discriminate E. }
  destruct Hk as (Hk1 & Hk2 & Hk3 & Hk4 & Hk5).
  assert (Hga' : sql_ident Gender <> sql_ident Awareness)
    by (intros E; vm_compute in E; discriminate E).
  unfold charts.
  cbn [awareness_df awareness_reporting_df training_reporting_df
       gender_awareness_df].
  assert (Hbar : save_chart a Awareness Count None = Ok tt).
  { apply q_awareness_shape in Ha as [Hc _]. unfold save_chart, barplot.
    rewrite (getitem_eq a Awareness 0%nat)
      by (rewrite Hc; apply index_of_head).
    rewrite (getitem_eq a Count 1%nat)
      by (rewrite Hc, index_of_tail, index_of_head by discriminate;
          reflexivity).
    reflexivity. }
  rewrite Hbar, bind_ret_l.
  unfold q_awareness_reporting, q_training_reporting, q_gender_awareness
    in Har, Htr, Hga.
  assert (Nac : Awareness <> Count)
    by (intros E; vm_compute in E; discriminate E).
  assert (Ntc : Training <> Count)
    by (intros E; vm_compute in E; discriminate E).
  assert (Ngc : Gender <> Count)
    by (intros E; vm_compute in E; discriminate E).
  assert (Nga : Gender <> Awareness)
    by (intros E; vm_compute in E; discriminate E).
  rewrite (save_chart_summary _ _ _ _ _ _ (not_eq_sym Hk1) Nac Hk3 Har).
  rewrite (save_chart_summary _ _ _ _ _ _ (not_eq_sym Hk2) Ntc Hk3 Htr).
  rewrite (save_chart_summary _ _ _ _ _ _ Nga Ngc Nac Hga).
  pose proof (summary_empty_iff _ _ _ Har) as Ear.
  pose proof (summary_empty_iff _ _ _ Htr) as Etr.
  pose proof (summary_empty_iff _ _ _ Hga) as Ega.
  destruct (rows t) as [|r0 rws] eqn:Ert.
  - left. rewrite (proj2 Ear eq_refl). cbn [List.map].
    rewrite (bool_decide_true _ (NoDup_nil_2 (A:=cell * cell))). auto.
  - right.
    assert (Nar : rows ar <> []) by (intros E; discriminate (proj1 Ear E)).
    assert (Ntr : rows tr <> []) by (intros E; discriminate (proj1 Etr E)).
    assert (Nga' : rows ga <> []) by (intros E; discriminate (proj1 Ega E)).
    destruct (bool_decide_reflect
                (NoDup (List.map (fun r => (nth 0 r Null, nth 1 r Null))
                                 (rows ar)))) as [_|D1].
    2: { left. split; [reflexivity|].
         destruct (pairs_repeated_clash _ _ _ _ _ _ Hk4 Har D1) as [F|F];
           [exists Awareness|exists know]; simpl; auto. }
    destruct (rows ar) as [|x1 l1]; [congruence|]. rewrite bind_ret_l.
    destruct (bool_decide_reflect
                (NoDup (List.map (fun r => (nth 0 r Null, nth 1 r Null))
                                 (rows tr)))) as [_|D2].
    2: { left. split; [reflexivity|].
         destruct (pairs_repeated_clash _ _ _ _ _ _ Hk5 Htr D2) as [F|F];
           [exists Training|exists know]; simpl; auto. }
    destruct (rows tr) as [|x2 l2]; [congruence|]. rewrite bind_ret_l.
    destruct (bool_decide_reflect
                (NoDup (List.map (fun r => (nth 0 r Null, nth 1 r Null))
                                 (rows ga)))) as [_|D3].
    2: { left. split; [reflexivity|].
         destruct (pairs_repeated_clash _ _ _ _ _ _ Hga' Hga D3) as [F|F];
           [exists Gender|exists Awareness]; simpl; auto 10. }
    destruct (rows ga) as [|x3 l3]; [congruence|].
    right. split; [reflexivity|discriminate].
Qed.

Lemma sql_store_empty df : rows (sql_store df) = [] -> rows df = [].
Proof.
  intros E. apply length_zero_iff_nil. rewrite <- sql_store_length, E.
  reflexivity.
Qed.

(** The stages the SQL scripts share, from the stored table to the
    figure: what stops them. *)
Lemma sql_stages_Raise know df conn conn' e :
  know = Know_Whom_To_Report \/ know = Know_Whom ->
  persist df conn = Ok conn' ->
  (s ← aggregate_sql know conn';
   _ ← charts know s;
   awareness_pct (awareness_df s)) = Raise e ->
  (e = DatabaseError
   /\ exists c, In c [AWARE; REPORT; TRAINING; GENDER]
                /\ find_column c (columns df) = None)
  \/ (e = TypeError /\ rows df = [])
  \/ (e = ValueError
      /\ exists a, In a [Awareness; know; Training; Gender]
                   /\ find_column a (columns df) <> None)
  \/ (e = IndexError
      /\ exists a, run_select q_awareness (sql_store df) = Ok a
           /\ forall r, In r (rows a) -> nth 0 r Null <> Text Yes).
Proof.
  intros Hknow Hc H. apply persist_lookup in Hc.
  apply bind_Raise in H as [H|(s & Hs & H)].
  { left. exact (aggregate_sql_Raise_column _ _ _ _ Hc H). }
  right. apply bind_Raise in H as [H|(u & _ & H)].
  - destruct (charts_cases know conn' (sql_store df) s Hknow Hc Hs)
      as [[Hch Hrows]|[[Hch Hcol]|[Hch _]]]; rewrite Hch in H.
    + injection H as <-. left. split; [reflexivity|].
      now apply sql_store_empty.
    + injection H as <-. right. left. split; [reflexivity|exact Hcol].
    + discriminate H.
  - do 2 right. unfold aggregate_sql in Hs. inv_bind Hs as a Ha.
    inv_bind Hs as ar Har. inv_bind Hs as tr Htr. inv_bind Hs as ga Hga.
    injection Hs as <-. cbn [awareness_df] in H.
    apply read_sql_query_Ok in Ha as (t & Ht & Ha).
    cbn [sel_from q_awareness count_query] in Ht.
    assert (t = sql_store df) by congruence. subst t.
    destruct (awareness_pct_Raise _ _ _ Ha H) as [-> Hno]. eauto.
Qed.

(** X19: every way the SQL scripts can stop before their report, and why.
    [know] is the alias the script gives the reporting column
    ([Know_Whom_To_Report] in data_analytics.py and data_analytics2.py,
    [Know_Whom] in data_analytics3.py).  The input file is missing or is
    not a spreadsheet; a header is not text ([AttributeError]); a cleaned
    name is one pandas refuses ([ValueError]); the store refuses the
    column list (none, more than 2000, or two names that collide as SQL
    identifiers) or a query misses a question column (database error);
    the sheet has no data row, so the first pivoted chart has nothing to
    plot ([TypeError]); a pivot meets a repeated pair of keys
    ([ValueError]), which takes a column of the sheet named like one of
    the aliases of the queries; or the awareness summary has no row
    labelled exactly [Yes] ([IndexError]).  They stop with nothing
    else. *)
Theorem sql_run_failures (rw : list byte -> option Sheet)
    (ww : DataFrame -> list byte) (know path embed : pystr)
    (fs : gmap pystr (list byte)) (conn : gmap pystr DataFrame) (e : exn) :
  (know = Know_Whom_To_Report /\ run_sql rw path fs conn = Raise e)
  \/ (know = Know_Whom /\ run3 rw ww path embed fs conn = Raise e) ->
  (e = FileNotFoundError /\ fs !! path = None)
  \/ (e = ParseError
      /\ exists bytes, fs !! path = Some bytes /\ rw bytes = None)
  \/ (e = AttributeError
      /\ exists bytes sheet n,
           fs !! path = Some bytes /\ rw bytes = Some sheet
           /\ In (HNumber n) (headers sheet))
  \/ exists df,
       load rw clean_column fs path = Ok df
       /\ ((e = ValueError
            /\ forallb valid_sqlite_name (columns df) = false)
           \/ (e = DatabaseError
               /\ forallb valid_sqlite_name (columns df) = true
               /\ creatable (columns df) = false)
           \/ (e = DatabaseError
               /\ exists c, In c [AWARE; REPORT; TRAINING; GENDER]
                            /\ find_column c (columns df) = None)
           \/ (e = TypeError /\ rows df = [])
           \/ (e = ValueError
               /\ exists a, In a [Awareness; know; Training; Gender]
                            /\ find_column a (columns df) <> None)
           \/ (e = IndexError
               /\ exists a, run_select q_awareness (sql_store df) = Ok a
                    /\ forall r, In r (rows a) -> nth 0 r Null <> Text Yes)).
Proof.
  intros [[-> H]|[-> H]].
  - unfold run_sql in H.
    apply bind_Raise in H as [H|(df & Hdf & H)].
    { apply load_Raise in H as [H|[H|H]]; auto. }
    do 3 right. exists df. split; [exact Hdf|].
    apply bind_Raise in H as [H|(conn' & Hc & H)].
    { apply persist_Raise in H as [H|H]; auto. }
    do 2 right.
    apply (sql_stages_Raise Know_Whom_To_Report df conn conn' e);
      [now left|exact Hc|].
    destruct (aggregate_sql Know_Whom_To_Report conn') as [s|e1];
      [|injection H as <-; reflexivity].
    cbn [mbind result_bind] in H |- *.
    destruct (charts Know_Whom_To_Report s) as [u|e2]; [|injection H as <-; reflexivity].
    cbn [mbind result_bind] in H |- *.
    destruct (awareness_pct (awareness_df s)) as [pct|e3];
      [discriminate H|injection H as <-; reflexivity].
  - unfold run3 in H.
    apply bind_Raise in H as [H|(df & Hdf & H)].
    { apply load_Raise in H as [H|[H|H]]; auto. }
    do 3 right. exists df. split; [exact Hdf|].
    rewrite embed_dataset_eq, bind_ret_l in H. cbv beta iota in H.
    apply bind_Raise in H as [H|(conn' & Hc & H)].
    { apply persist_Raise in H as [H|H]; auto. }
    do 2 right.
    apply (sql_stages_Raise Know_Whom df conn conn' e);
      [now right|exact Hc|].
    destruct (aggregate_sql Know_Whom conn') as [s|e1] eqn:Hs; [|injection H as <-; reflexivity].
    cbn [mbind result_bind] in H |- *.
    destruct (charts Know_Whom s) as [u|e2]; [|injection H as <-; reflexivity].
    cbn [mbind result_bind] in H |- *.
    apply bind_Raise in H as [H|(counts & _ & H)].
    + exfalso. apply persist_lookup in Hc.
      unfold aggregate_sql in Hs. inv_bind Hs as a Ha.
      inv_bind Hs as ar Har. inv_bind Hs as tr Htr.
      inv_bind Hs as ga Hga. injection Hs as <-. cbn [awareness_df] in H.
      apply read_sql_query_Ok in Ha as (t & Ht & Ha).
      apply q_awareness_shape in Ha as [Hcols _].
      destruct a as [cols rws]. cbn [columns] in Hcols. subst cols.
      rewrite total_rows in H. discriminate H.
    + destruct (awareness_pct (awareness_df s)) as [pct|e3];
        [discriminate H|injection H as <-; reflexivity].
Qed.

Lemma sql_run_failures_witness :
  run_sql sample_no_yes_reader (py "data.xlsx") sample_no_yes_fs ∅
  = Raise IndexError
  /\ exists df a,
       load sample_no_yes_reader clean_column sample_no_yes_fs
            (py "data.xlsx") = Ok df
       /\ run_select q_awareness (sql_store df) = Ok a
       /\ forall r, In r (rows a) -> nth 0 r Null <> Text Yes.
Proof.
  assert (Hr : run_sql sample_no_yes_reader (py "data.xlsx")
                 sample_no_yes_fs ∅ = Raise IndexError)
    by (vm_compute; reflexivity).
  split; [exact Hr|].
  destruct (sql_run_failures _ sample_writer _ _ (py "survey_data.xlsx")
              _ _ _ (or_introl (conj eq_refl Hr)))
    as [[H _]|[[H _]|[[H _]|(df & Hdf &
         [[H _]|[[H _]|[[H _]|[[H _]|[[H _]|(_ & a & Ha & Hno)]]]]])]]];
    try discriminate H.
  exists df, a. auto.
Defined.
